(** * gktodaypostpdfenglish: the aggregation and assembly pipeline of [main.py]

    A shallow embedding of [src/main.py].  Python functions become Rocq
    functions in a state-and-exception monad: Python mutates objects in
    place and an exception does not roll anything back, so a computation
    returns its outcome together with the state reached when it stopped.

    The libraries the script calls (requests/BeautifulSoup, python-docx,
    pymongo, python-telegram-bot, the file system) are the environment of
    the program.  Their in-memory behaviour (the parse tree, the body of the
    Word document, the Mongo collection) is modelled by data; what they get
    from the outside ([world]) is a parameter of every function. *)

From Stdlib Require Import String Ascii DecimalString.
From stdpp Require Import base tactics option list strings gmap.

Local Open Scope string_scope.
Local Open Scope list_scope.

(** ** Python strings *)

Module Py.

(** [pat in s] for strings. *)
Fixpoint contains (pat s : string) : bool :=
  String.prefix pat s ||
  match s with
  | EmptyString => false
  | String _ s' => contains pat s'
  end.

(** [s.replace(old, new)]: all non-overlapping occurrences, leftmost first.
    [skip] counts the characters of a matched occurrence still to drop. *)
Fixpoint replace_from (skip : nat) (old new s : string) : string :=
  match s with
  | EmptyString => EmptyString
  | String c s' =>
      match skip with
      | S k => replace_from k old new s'
      | O =>
          if String.prefix old s
          then new +:+ replace_from (String.length old - 1) old new s'
          else String c (replace_from 0 old new s')
      end
  end.

Definition replace (old new s : string) : string := replace_from 0 old new s.

(** [sep.join(l)] *)
Definition join (sep : string) (l : list string) : string := String.concat sep l.

(** Truthiness of [os.environ.get(k)]: [None] and [''] are falsy. *)
Definition truthy (o : option string) : bool :=
  match o with
  | Some s => negb (String.eqb s "")
  | None => false
  end.

(** [range(hi, lo, -1)]: hi, hi-1, ..., lo+1. *)
Definition range_down (hi lo : nat) : list nat := rev (seq (S lo) (hi - lo)).

(** [range(a, b)] *)
Definition range (a b : nat) : list nat := seq a (b - a).

(** The position of the last ['/'] decides [os.path.dirname] and
    [os.path.basename]. *)
Fixpoint split_path (s : string) : option (string * string) :=
  match s with
  | EmptyString => None
  | String c s' =>
      match split_path s' with
      | Some (d, b) => Some (String c d, b)
      | None => if Ascii.eqb c "/" then Some (EmptyString, s') else None
      end
  end.

(** Whether [s] consists of the character [c] only. *)
Definition all_of (c : ascii) (s : string) : bool :=
  forallb (Ascii.eqb c) (String.list_ascii_of_string s).

(** [s.rstrip('/')] *)
Fixpoint rstrip_slash (s : string) : string :=
  match s with
  | EmptyString => EmptyString
  | String c s' =>
      match rstrip_slash s' with
      | EmptyString => if Ascii.eqb c "/" then EmptyString else String c EmptyString
      | r => String c r
      end
  end.

(** [os.path.dirname(s)]: the head up to the last ['/'], without its
    trailing slashes unless it consists of slashes only. *)
Definition dirname (s : string) : string :=
  match split_path s with
  | Some (d, _) =>
      let head := d +:+ "/" in
      if all_of "/" head then head else rstrip_slash head
  | None => ""
  end.

Definition basename (s : string) : string :=
  match split_path s with Some (_, b) => b | None => s end.

(** [os.path.join(d, name)] *)
Definition path_join (d name : string) : string :=
  if String.prefix "/" name then name
  else if String.eqb d "" then name
  else if String.prefix "/" (String.string_of_list_ascii (rev (String.list_ascii_of_string d)))
       then d +:+ name
       else d +:+ "/" +:+ name.

(** The part of a file name before its last dot, if it has a dot. *)
Fixpoint split_ext (s : string) : option string :=
  match s with
  | EmptyString => None
  | String c s' =>
      match split_ext s' with
      | Some r => Some (String c r)
      | None => if Ascii.eqb c "." then Some EmptyString else None
      end
  end.

(** [os.path.splitext(name)[0]] for a [name] without ['/']: the part before
    the last dot, unless only dots stand before it. *)
Definition splitext_root (s : string) : string :=
  match split_ext s with
  | Some r => if all_of "." r then s else r
  | None => s
  end.

(** The exceptions the script can meet.  All of them derive from
    [Exception]. *)
Inductive exn : Type :=
| ValueError (msg : string)
| KeyError (msg : string)
| IndexError (msg : string)
| PlainException (msg : string)
| RequestException (msg : string)
| PyMongoError (msg : string)
| CalledProcessError (msg : string)
| OSError (msg : string)
| TimedOut (msg : string)
| TelegramError (msg : string).

Definition exn_str (e : exn) : string :=
  match e with
  | ValueError m | KeyError m | IndexError m | PlainException m
  | RequestException m | PyMongoError m | CalledProcessError m
  | OSError m | TimedOut m | TelegramError m => m
  end.

Definition is_KeyError (e : exn) : bool :=
  match e with KeyError _ => true | _ => false end.
Definition is_RequestException (e : exn) : bool :=
  match e with RequestException _ => true | _ => false end.
Definition is_CalledProcessError (e : exn) : bool :=
  match e with CalledProcessError _ => true | _ => false end.
Definition is_TimedOut (e : exn) : bool :=
  match e with TimedOut _ => true | _ => false end.
(** [except Exception] *)
Definition is_Exception (e : exn) : bool := true.

End Py.
Export Py.

(** ** BeautifulSoup parse trees

    What [BeautifulSoup(response.content, 'html.parser')] builds: tags with
    a name, the attributes the script reads ([id], the multi-valued [class],
    [href]) and children; and text nodes. *)

Module Bs4.

#[warnings="-register-all"]
Inductive node : Type :=
| Tag (name : string) (id_ : option string) (class_ : option (list string))
      (href : option string) (children : list node)
| NavigableString (s : string).

Definition is_tag (n : node) : bool :=
  match n with Tag _ _ _ _ _ => true | NavigableString _ => false end.

Definition name (n : node) : string :=
  match n with Tag nm _ _ _ _ => nm | NavigableString _ => "" end.

Definition get_id (n : node) : option string :=
  match n with Tag _ i _ _ _ => i | NavigableString _ => None end.

(** [tag.get('class')] *)
Definition get_class (n : node) : option (list string) :=
  match n with Tag _ _ c _ _ => c | NavigableString _ => None end.

(** [tag.get('href')] *)
Definition get_href (n : node) : option string :=
  match n with Tag _ _ _ h _ => h | NavigableString _ => None end.

Definition children (n : node) : list node :=
  match n with Tag _ _ _ _ cs => cs | NavigableString _ => [] end.

(** Every node below [n], in document order. *)
Fixpoint descendants (n : node) : list node :=
  match n with
  | Tag _ _ _ _ cs => flat_map (fun c => c :: descendants c) cs
  | NavigableString _ => []
  end.

(** [tag.get_text()] *)
Fixpoint get_text (n : node) : string :=
  match n with
  | Tag _ _ _ _ cs => String.concat "" (map get_text cs)
  | NavigableString s => s
  end.

(** [tag.find_all(nm)] *)
Definition find_all (nm : string) (n : node) : list node :=
  List.filter (fun d => is_tag d && String.eqb (name d) nm) (descendants n).

(** [tag.find_all(nm, id=i)] *)
Definition find_all_id (nm i : string) (n : node) : list node :=
  List.filter (fun d => bool_decide (get_id d = Some i)) (find_all nm n).

(** [tag.find(nm)] *)
Definition find (nm : string) (n : node) : option node := head (find_all nm n).

(** [tag.find(nm, id=i)] *)
Definition find_id (nm i : string) (n : node) : option node :=
  head (find_all_id nm i n).

(** [tag.find(nm, class_=c)] for a [c] that contains blanks: such a string
    matches no single class, only the whole attribute value. *)
Definition find_class (nm c : string) (n : node) : option node :=
  head (List.filter (fun d => match get_class d with
                              | Some cs => String.eqb (Py.join " " cs) c
                              | None => false
                              end) (find_all nm n)).

(** [tag.find_all(recursive=False)]: the direct children that are tags. *)
Definition child_tags (n : node) : list node :=
  List.filter is_tag (children n).

End Bs4.

(** ** python-docx documents *)

Module Docx.

(** A paragraph: the name of the style assigned to it ([None] when none was
    ever assigned, which renders in the default style) and its text. *)
Record paragraph : Type := Paragraph { p_style : option string; p_text : string }.

(** The children of the document body.  [doc.paragraphs] lists only the
    paragraphs among them; tables sit in the body but not in that list. *)
Inductive block : Type :=
| BPara (p : paragraph)
| BTable (xml : string).

(** [style_names]: the paragraph styles the document defines. *)
Record document : Type := Document { body : list block; style_names : list string }.

#[global] Instance paragraph_eq_dec : EqDecision paragraph.
Proof. solve_decision. Defined.
#[global] Instance block_eq_dec : EqDecision block.
Proof. solve_decision. Defined.

(** [doc.paragraphs] *)
Definition paragraphs (b : list block) : list paragraph :=
  omap (fun x => match x with BPara p => Some p | BTable _ => None end) b.

(** The position in the body of the element behind [doc.paragraphs[i]]. *)
Fixpoint para_pos (b : list block) (i : nat) : option nat :=
  match b with
  | [] => None
  | BPara _ :: b' =>
      match i with
      | O => Some 0
      | S i' => S <$> para_pos b' i'
      end
  | BTable _ :: b' => S <$> para_pos b' i
  end.

(** [anchor.addnext(elem)] of lxml: [elem] leaves the place it has and becomes
    the next sibling of [anchor]; both are given by their positions. *)
Definition addnext (anchor elem : nat) (b : list block) : list block :=
  match b !! elem with
  | Some x =>
      let b' := delete elem b in
      let a := if decide (elem < anchor) then anchor - 1 else anchor in
      take (S a) b' ++ x :: drop (S a) b'
  | None => b
  end.

(** The characters lxml takes in the text of an element: tab, line feed,
    carriage return and everything from the blank on. *)
Definition xml_char (c : ascii) : bool :=
  let n := nat_of_ascii c in
  Nat.eqb n 9 || Nat.eqb n 10 || Nat.eqb n 13 || Nat.leb 32 n.

(** Strings are sequences of UTF-8 bytes.  lxml refuses the encodings of
    U+FFFE and U+FFFF (EF BF BE, EF BF BF) and of the surrogates
    (ED A0 80 to ED BF BF). *)
Definition forbidden_utf8 (s : string) : bool :=
  match s with
  | String c1 (String c2 (String c3 _)) =>
      let n1 := nat_of_ascii c1 in
      let n2 := nat_of_ascii c2 in
      let n3 := nat_of_ascii c3 in
      (Nat.eqb n1 239 && Nat.eqb n2 191 && (Nat.eqb n3 190 || Nat.eqb n3 191))
      || (Nat.eqb n1 237 && Nat.leb 160 n2 && Nat.leb n2 191)
  | _ => false
  end.

(** Whether lxml takes [s] as the text of an element; it raises a
    [ValueError] otherwise. *)
Fixpoint xml_compatible (s : string) : bool :=
  match s with
  | EmptyString => true
  | String c s' =>
      (if Nat.ltb (nat_of_ascii c) 128 then xml_char c else negb (forbidden_utf8 s))
      && xml_compatible s'
  end.

Definition tab : ascii := ascii_of_nat 9.
Definition line_feed : ascii := ascii_of_nat 10.
Definition carriage_return : ascii := ascii_of_nat 13.

(** [run.text = text]: python-docx appends the text to the run character by
    character.  A tab becomes a tab element, a line feed or a carriage return
    a line break, and the characters between two of them one text element,
    kept in [bfr] until it is written.  The result is the text the run reads
    back as (a line break reads as a line feed) and whether the assignment
    went through: when lxml refuses a text element, what was appended before
    it stays in the run. *)
Fixpoint append_to_run (text bfr : string) : string * bool :=
  match text with
  | EmptyString => if xml_compatible bfr then (bfr, true) else (EmptyString, false)
  | String c text' =>
      if Ascii.eqb c tab || Ascii.eqb c line_feed || Ascii.eqb c carriage_return then
        if xml_compatible bfr then
          let '(t, ok) := append_to_run text' EmptyString in
          (bfr +:+ String (if Ascii.eqb c tab then tab else line_feed) t, ok)
        else (EmptyString, false)
      else append_to_run text' (bfr +:+ String c EmptyString)
  end.

Definition run_text (text : string) : string * bool := append_to_run text EmptyString.

(** Whether python-docx takes [text] as the text of a paragraph. *)
Definition accepts (text : string) : bool := (run_text text).2.

(** The text a paragraph given [text] reads back as. *)
Definition stored (text : string) : string := (run_text text).1.

(** The error of lxml on a text it refuses. *)
Definition xml_error : exn :=
  ValueError
    "All strings must be XML compatible: Unicode or ASCII, no NULL bytes or control characters".

(** The text of a paragraph is replaced, the style stays. *)
Definition set_text (t : string) (x : block) : block :=
  match x with
  | BPara p => BPara (Paragraph (p_style p) t)
  | BTable xml => BTable xml
  end.

Definition set_style (s : string) (x : block) : block :=
  match x with
  | BPara p => BPara (Paragraph (Some s) (p_text p))
  | BTable xml => BTable xml
  end.

(** ["Heading %d" % level] for a level below 10 *)
Definition heading_style (level : nat) : string :=
  "Heading " +:+ String (ascii_of_nat (48 + level)) EmptyString.

End Docx.

(** ** State, environment and the monad of the script *)

Inductive level : Type := DEBUG | INFO | WARNING | ERROR.

Record log_record : Type := LogRecord { lr_level : level; lr_message : string }.

(** What the script does to the outside, in the order it does it. *)
Inductive event : Type :=
| EvHttpGet (url : string)
| EvFindOne (url : string)
| EvInsertOne (url : string)
| EvDownload (url : string)
| EvSaveDocx (path : string)
| EvLibreOffice (docx_path out_dir : string)
| EvRename (src dst : string)
| EvSendDocument (path channel caption : string)
| EvSleep (seconds : nat)
| EvUnlink (path : string).

Inductive send_result : Type := Delivered | SendTimedOut | SendFailed.

(** The outside of one run. *)
Record world : Type := World {
  (** [os.environ] *)
  environ : gmap string string;
  (** [requests.get(url)] followed by the parse of the body; [None] when
      [requests.get] raises. *)
  http_get : string -> option Bs4.node;
  (** what [pymongo.MongoClient(uri)] raises on a connection string, if it
      raises: the string is parsed, and the hosts of a [mongodb+srv] address
      are looked up, when the client is made *)
  mongo_client_error : string -> option exn;
  (** what [client[name]] and [db[name]] raise on a name pymongo does not
      take as the name of a database or of a collection *)
  mongo_database_error : string -> option exn;
  mongo_collection_error : string -> option exn;
  (** whether the n-th operation on the Mongo collection raises *)
  mongo_raises : nat -> bool;
  (** the Word document served at a download address; [None] when the
      download fails *)
  template_docx : string -> option Docx.document;
  (** the name [tempfile.NamedTemporaryFile(suffix='.docx')] picks *)
  tmp_docx_name : string;
  (** whether the LibreOffice conversion exits with status 0 *)
  libreoffice_ok : bool;
  (** whether [os.rename(src, dst)] succeeds *)
  os_rename_ok : string -> string -> bool;
  (** what [telegram.Bot(token=...)] raises on a token it does not take *)
  telegram_bot_error : string -> option exn;
  (** the message of the [OSError] that [open(path, 'rb')] raises, if it
      raises *)
  open_error : string -> option string;
  (** the outcome of the n-th call of [bot.send_document] *)
  send_document : nat -> send_result;
  (** [datetime.now().strftime('%d-%m-%Y')] and [strftime('%d %B %Y')] *)
  today_dmy : string;
  today_long : string
}.

(** The mutable objects of a run. *)
Record state : Type := State {
  (** the [url] of every document of the Mongo collection, oldest first *)
  collection : list string;
  (** the python-docx [Document] object *)
  doc : Docx.document;
  log : list log_record;
  trace : list event;
  (** operations issued on the collection so far *)
  mongo_ops : nat;
  (** calls of [bot.send_document] so far *)
  sends : nat
}.

Definition set_collection (c : list string) (st : state) : state :=
  State c (doc st) (log st) (trace st) (mongo_ops st) (sends st).
Definition set_doc (d : Docx.document) (st : state) : state :=
  State (collection st) d (log st) (trace st) (mongo_ops st) (sends st).
Definition set_body (b : list Docx.block) (st : state) : state :=
  set_doc (Docx.Document b (Docx.style_names (doc st))) st.
Definition add_log (r : log_record) (st : state) : state :=
  State (collection st) (doc st) (log st ++ [r]) (trace st) (mongo_ops st) (sends st).
Definition add_event (e : event) (st : state) : state :=
  State (collection st) (doc st) (log st) (trace st ++ [e]) (mongo_ops st) (sends st).
Definition tick_mongo (st : state) : state :=
  State (collection st) (doc st) (log st) (trace st) (S (mongo_ops st)) (sends st).
Definition tick_sends (st : state) : state :=
  State (collection st) (doc st) (log st) (trace st) (mongo_ops st) (S (sends st)).

(** A computation of a function whose mutable local variables have type [L]:
    from the locals and the state to an outcome (an exception or a value),
    the locals and the state at that point. *)
Definition M (L A : Type) : Type := L -> state -> (exn + A) * L * state.

#[global] Instance M_ret {L} : MRet (M L) := fun A x l st => (inr x, l, st).

#[global] Instance M_bind {L} : MBind (M L) := fun A B f m l st =>
  match m l st with
  | (inr x, l', st') => f x l' st'
  | (inl e, l', st') => (inl e, l', st')
  end.

Definition raise {L A} (e : exn) : M L A := fun l st => (inl e, l, st).

(** [try: m  except ...: ...] where [handler e] is the body of the first
    clause that matches [e], if one does. *)
Definition try_ {L A} (m : M L A) (handler : exn -> option (M L A)) : M L A :=
  fun l st =>
    match m l st with
    | (inl e, l', st') =>
        match handler e with
        | Some h => h l' st'
        | None => (inl e, l', st')
        end
    | r => r
    end.

(** One [except] clause. *)
Definition except {L A} (sel : exn -> bool) (h : exn -> M L A) : exn -> option (M L A) :=
  fun e => if sel e then Some (h e) else None.

(** Two clauses in a row. *)
Definition or_except {L A} (c1 c2 : exn -> option (M L A)) : exn -> option (M L A) :=
  fun e => match c1 e with Some h => Some h | None => c2 e end.

Definition get_local {L} : M L L := fun l st => (inr l, l, st).
Definition modify_local {L} (f : L -> L) : M L unit := fun l st => (inr tt, f l, st).
Definition gets {L A} (f : state -> A) : M L A := fun l st => (inr (f st), l, st).
Definition modify {L} (f : state -> state) : M L unit := fun l st => (inr tt, l, f st).

(** The body [m] of a function runs on local variables of its own, which
    start as [init] and are gone when it returns or raises. *)
Definition with_locals {L L' A} (init : L') (m : M L' A) : M L A := fun l st =>
  let '(r, _, st') := m init st in (r, l, st').

(** [for x in l: body] without [break] *)
Fixpoint for_each {L A} (l : list A) (body : A -> M L unit) : M L unit :=
  match l with
  | [] => mret tt
  | x :: l' => body x ;; for_each l' body
  end.

Definition logger {L} (lv : level) (msg : string) : M L unit :=
  modify (add_log (LogRecord lv msg)).

(** [logger.exception(msg)] logs at level ERROR. *)
Definition logger_exception {L} (msg : string) : M L unit := logger ERROR msg.

(** [str(n)] *)
Definition str_nat (n : nat) : string := NilZero.string_of_uint (Nat.to_uint n).

(** ** The functions of [main.py] *)

(** The dictionaries [{'type': ..., 'text': ...}] of a content list. *)
Inductive block_type : Type := heading | paragraph | heading_2 | heading_4 | list_item.

Record content : Type := Content { c_type : block_type; c_text : string }.

#[global] Instance block_type_eq_dec : EqDecision block_type.
Proof. solve_decision. Defined.
#[global] Instance content_eq_dec : EqDecision content.
Proof. solve_decision. Defined.

(** The class lists of the share buttons and of the previous/next links. *)
Definition excluded_classes : list (list string) :=
  [ ["sharethis-inline-share-buttons"; "st-center"; "st-has-labels";
     "st-inline-share-buttons"; "st-animated"];
    ["prenext"] ].

Definition main_content_class : string := "inside_post column content_width".

Section Program.

Variable w : world.

(** *** Calls into the libraries *)

Definition requests_get {L} (url : string) : M L Bs4.node :=
  modify (add_event (EvHttpGet url));;
  match http_get w url with
  | Some soup => mret soup
  | None => raise (RequestException ("GET " +:+ url))
  end.

(** [collection.find_one({'url': url})], as the truth value the script
    takes of it. *)
Definition find_one {L} (url : string) : M L bool :=
  n ← gets mongo_ops;
  modify tick_mongo;;
  modify (add_event (EvFindOne url));;
  if mongo_raises w n then raise (PyMongoError "find_one")
  else gets (fun st => bool_decide (url ∈ collection st)).

(** [collection.insert_one({'url': url})] *)
Definition insert_one {L} (url : string) : M L unit :=
  n ← gets mongo_ops;
  modify tick_mongo;;
  modify (add_event (EvInsertOne url));;
  if mongo_raises w n then raise (PyMongoError "insert_one")
  else modify (fun st => set_collection (collection st ++ [url]) st).

(** [doc.paragraphs[i]], as the position of the element in the body. *)
Definition paragraphs_getitem {L} (i : nat) : M L nat :=
  b ← gets (fun st => Docx.body (doc st));
  match Docx.para_pos b i with
  | Some k => mret k
  | None => raise (IndexError "list index out of range")
  end.

(** [p._element.getparent().remove(p._element)] *)
Definition remove_element {L} (k : nat) : M L unit :=
  modify (fun st => set_body (delete k (Docx.body (doc st))) st).

(** [paragraph.style = name]: the style is looked up by name among the
    styles of the document. *)
Definition assign_style {L} (k : nat) (name : string) : M L unit :=
  names ← gets (fun st => Docx.style_names (doc st));
  if bool_decide (name ∈ names)
  then modify (fun st => set_body (alter (Docx.set_style name) k (Docx.body (doc st))) st)
  else raise (KeyError ("no style with name '" +:+ name +:+ "'")).

(** The text of the paragraph at position [k] is written: what python-docx
    appends to the run stays there also when lxml refuses a part of the
    text. *)
Definition write_text {L} (k : nat) (text : string) : M L unit :=
  let '(t, ok) := Docx.run_text text in
  modify (fun st => set_body (alter (Docx.set_text t) k (Docx.body (doc st))) st);;
  if (ok : bool) then mret tt else raise Docx.xml_error.

(** [doc.add_paragraph(text, style)]: python-docx appends a new, empty
    paragraph to the body, gives it a run with the text unless the text is
    empty, and then assigns the style.  Returns the position of the new
    element. *)
Definition add_paragraph {L} (text style : string) : M L nat :=
  k ← gets (fun st => length (Docx.body (doc st)));
  modify (fun st =>
    set_body (Docx.body (doc st) ++ [Docx.BPara (Docx.Paragraph None "")]) st);;
  (if String.eqb text "" then mret tt else write_text k text);;
  assign_style k style;;
  mret k.

(** [doc.add_heading(text, level)] *)
Definition add_heading {L} (text : string) (lvl : nat) : M L nat :=
  if decide (9 < lvl) then raise (ValueError "level must be in range 0-9")
  else add_paragraph text (if decide (lvl = 0) then "Title" else Docx.heading_style lvl).

(** [anchor.addnext(elem)] *)
Definition addnext {L} (anchor elem : nat) : M L unit :=
  modify (fun st => set_body (Docx.addnext anchor elem (Docx.body (doc st))) st).

(** [paragraph.text = t]: the runs of the paragraph are replaced by one run
    with the text. *)
Definition assign_text {L} (k : nat) (t : string) : M L unit :=
  modify (fun st => set_body (alter (Docx.set_text "") k (Docx.body (doc st))) st);;
  if String.eqb t "" then mret tt else write_text k t.

(** *** [fetch_article_urls] *)

Definition page_url (base_url : string) (page : nat) : string :=
  if decide (page = 1) then base_url
  else base_url +:+ "page/" +:+ str_nat page +:+ "/".

(** The local variable of [fetch_article_urls] is [article_urls]. *)

(** The body of the inner loop, for one [h1] of the page. *)
Definition collect_link (h1_tag : Bs4.node) : M (list string) unit :=
  match Bs4.find "a" h1_tag with
  | Some a_tag =>
      match Bs4.get_href a_tag with
      | Some href =>
          if truthy (Some href)
          then modify_local (fun article_urls => article_urls ++ [href])
          else mret tt
      | None => mret tt
      end
  | None => mret tt
  end.

(** The body of the loop over the pages. *)
Definition fetch_page (base_url : string) (page : nat) : M (list string) unit :=
  soup ← requests_get (page_url base_url page);
  for_each (Bs4.find_all_id "h1" "list" soup) collect_link.

Definition fetch_article_urls {L} (base_url : string) (pages : nat)
  : M L (list string) :=
  logger INFO ("Fetching article URLs from " +:+ base_url +:+ " for "
               +:+ str_nat pages +:+ " pages.");;
  with_locals []
    (try_
       (for_each (range 1 (pages + 1)) (fetch_page base_url))
       (except is_Exception (fun e =>
          logger_exception ("Error while fetching article URLs: " +:+ exn_str e)));;
     get_local).

(** *** [scrape_and_get_content] *)

(** The local variable of [scrape_and_get_content] is [content_list]. *)

(** The body of the loop over the direct children of the main content. *)
Definition scrape_tag (tag : Bs4.node) : M (list content) unit :=
  if match Bs4.get_class tag with
     | Some cls => bool_decide (cls ∈ excluded_classes)
     | None => false
     end
  then mret tt
  else
    let text := Bs4.get_text tag in
    if String.eqb (Bs4.name tag) "p" then
      modify_local (fun content_list => content_list ++ [Content paragraph text])
    else if String.eqb (Bs4.name tag) "h2" then
      modify_local (fun content_list => content_list ++ [Content heading_2 text])
    else if String.eqb (Bs4.name tag) "h4" then
      modify_local (fun content_list => content_list ++ [Content heading_4 text])
    else if String.eqb (Bs4.name tag) "ul" then
      for_each (Bs4.find_all "li" tag) (fun li =>
        modify_local (fun content_list =>
          content_list ++ [Content list_item ("• " +:+ Bs4.get_text li)]))
    else mret tt.

(** What the [try] block does once the page is there. *)
Definition scrape_soup (soup : Bs4.node) : M (list content) unit :=
  match Bs4.find_class "div" main_content_class soup with
  | None => raise (PlainException "Main content div not found")
  | Some main_content =>
      match Bs4.find_id "h1" "list" main_content with
      | None => raise (PlainException "Heading not found")
      | Some heading_tag =>
          modify_local (fun content_list =>
            content_list ++ [Content heading (Bs4.get_text heading_tag)]);;
          for_each (Bs4.child_tags main_content) scrape_tag
      end
  end.

Definition scrape_and_get_content {L} (url : string) : M L (list content) :=
  logger INFO ("Scraping content from " +:+ url);;
  with_locals []
    (try_
       (soup ← requests_get url;
        scrape_soup soup)
       (except is_Exception (fun e =>
          logger_exception ("Error while scraping content from " +:+ url +:+ ": "
                            +:+ exn_str e)));;
     get_local).

(** *** [insert_content_between_placeholders] *)

(** The search loop over [enumerate(doc.paragraphs)], from index [i] on with
    the start found so far: a paragraph with [START_CONTENT] in its text
    sets the start; otherwise one with [END_CONTENT] sets the end and breaks. *)
Fixpoint find_placeholders (ps : list Docx.paragraph) (i : nat)
    (start_placeholder : option nat) : option nat * option nat :=
  match ps with
  | [] => (start_placeholder, None)
  | para :: ps' =>
      if contains "START_CONTENT" (Docx.p_text para)
      then find_placeholders ps' (S i) (Some i)
      else if contains "END_CONTENT" (Docx.p_text para)
      then (start_placeholder, Some i)
      else find_placeholders ps' (S i) start_placeholder
  end.

(** One round of the insertion loop: the new element is created at the end
    of the body and moved behind the start placeholder. *)
Definition insert_block {L} (start_placeholder : nat) (c : content) : M L unit :=
  match c_type c with
  | heading =>
      anchor ← paragraphs_getitem start_placeholder;
      new ← add_heading (c_text c) 1;
      addnext anchor new
  | paragraph =>
      anchor ← paragraphs_getitem start_placeholder;
      new ← add_paragraph (c_text c) "Normal";
      addnext anchor new
  | heading_2 =>
      anchor ← paragraphs_getitem start_placeholder;
      new ← add_heading (c_text c) 2;
      addnext anchor new
  | heading_4 =>
      anchor ← paragraphs_getitem start_placeholder;
      new ← add_heading (c_text c) 4;
      addnext anchor new
  | list_item =>
      try_
        (anchor ← paragraphs_getitem start_placeholder;
         new ← add_paragraph (c_text c) "List Bullet";
         addnext anchor new)
        (except is_KeyError (fun _ =>
           logger WARNING
             "Style 'List Bullet' not found, falling back to 'Normal' style for list items";;
           anchor ← paragraphs_getitem start_placeholder;
           new ← add_paragraph (c_text c) "Normal";
           addnext anchor new))
  end.

Definition insert_content_between_placeholders {L} (content_list : list content)
  : M L unit :=
  logger INFO "Inserting content between placeholders";;
  try_
    (ps ← gets (fun st => Docx.paragraphs (Docx.body (doc st)));
     match find_placeholders ps 0 None with
     | (Some start_placeholder, Some end_placeholder) =>
         for_each (range_down (end_placeholder - 1) start_placeholder) (fun i =>
           p ← paragraphs_getitem i;
           remove_element p);;
         for_each (rev content_list) (insert_block start_placeholder);;
         (p ← paragraphs_getitem start_placeholder; assign_text p "");;
         (p ← paragraphs_getitem end_placeholder; assign_text p "")
     | _ => raise (PlainException "Could not find both placeholders")
     end)
    (except is_Exception (fun e =>
       logger_exception ("Error while inserting content: " +:+ exn_str e);;
       raise e)).

(** *** [download_template] and [Document(template_bytes)] *)

Definition download_template {L} (url : string) : M L Docx.document :=
  logger INFO ("Downloading template from " +:+ url);;
  let download_url := replace "/edit?usp=sharing" "/export?format=docx" url in
  try_
    (modify (add_event (EvDownload download_url));;
     match template_docx w download_url with
     | Some d => mret d
     | None => raise (RequestException ("GET " +:+ download_url))
     end)
    (except is_RequestException (fun e =>
       logger_exception ("Error while downloading template: " +:+ exn_str e);;
       raise e)).

(** *** [check_and_insert_urls] *)

(** The local variable of [check_and_insert_urls] is [new_urls]. *)

(** The body of the loop. *)
Definition check_url (url : string) : M (list string) unit :=
  if contains "daily-current-affairs-quiz" url then mret tt
  else
    found ← find_one url;
    if (found : bool) then mret tt
    else
      modify_local (fun new_urls => new_urls ++ [url]);;
      insert_one url.

Definition check_and_insert_urls {L} (urls : list string) : M L (list string) :=
  logger INFO "Checking and inserting URLs";;
  with_locals []
    (try_
       (for_each urls check_url)
       (except is_Exception (fun e =>
          logger_exception ("Error while checking or inserting URLs: " +:+ exn_str e)));;
     get_local).

(** *** [convert_docx_to_pdf] and [rename_pdf] *)

Definition os_rename {L} (src dst : string) : M L unit :=
  modify (add_event (EvRename src dst));;
  if os_rename_ok w src dst then mret tt else raise (OSError "rename").

Definition convert_docx_to_pdf {L} (docx_path pdf_path : string) : M L unit :=
  logger INFO ("Converting " +:+ docx_path +:+ " to PDF");;
  try_
    (modify (add_event (EvLibreOffice docx_path (dirname pdf_path)));;
     (if libreoffice_ok w then mret tt else raise (CalledProcessError "libreoffice"));;
     let original_pdf := splitext_root (basename docx_path) +:+ ".pdf" in
     let original_pdf_path := path_join (dirname pdf_path) original_pdf in
     os_rename original_pdf_path pdf_path)
    (except is_CalledProcessError (fun e =>
       logger_exception ("Error while converting DOCX to PDF: " +:+ exn_str e);;
       raise e)).

Definition rename_pdf {L} (pdf_path new_name : string) : M L string :=
  logger INFO ("Renaming PDF " +:+ pdf_path +:+ " to " +:+ new_name);;
  let new_pdf_path := path_join (dirname pdf_path) new_name in
  try_
    (os_rename pdf_path new_pdf_path)
    (except is_Exception (fun e =>
       logger_exception ("Error while renaming PDF: " +:+ exn_str e);;
       raise e));;
  mret new_pdf_path.

(** *** [send_pdf_to_telegram] *)

(** [telegram.Bot(token=bot_token)] *)
Definition telegram_Bot {L} (bot_token : string) : M L unit :=
  match telegram_bot_error w bot_token with
  | Some e => raise e
  | None => mret tt
  end.

(** [open(pdf_path, 'rb')] *)
Definition open_rb {L} (pdf_path : string) : M L unit :=
  match open_error w pdf_path with
  | Some msg => raise (OSError msg)
  | None => mret tt
  end.

Definition bot_send_document {L} (pdf_path channel_id caption : string) : M L unit :=
  n ← gets sends;
  modify tick_sends;;
  modify (add_event (EvSendDocument pdf_path channel_id caption));;
  match send_document w n with
  | Delivered => mret tt
  | SendTimedOut => raise (TimedOut "Timed out")
  | SendFailed => raise (TelegramError "send_document")
  end.

(** The loop [for _ in range(3)], one element of [rounds] per round; a
    round that sends the document breaks out of the loop. *)
Fixpoint send_rounds {L} (rounds : list nat) (pdf_path channel_id caption : string)
  : M L unit :=
  match rounds with
  | [] => mret tt
  | _ :: rounds' =>
      sent ← try_
        (open_rb pdf_path;;
         bot_send_document pdf_path channel_id caption;;
         mret true)
        (or_except
           (except is_TimedOut (fun e =>
              logger WARNING ("Timeout error while sending PDF to Telegram, retrying: "
                              +:+ exn_str e);;
              modify (add_event (EvSleep 5));;
              mret false))
           (except is_Exception (fun e =>
              logger_exception ("Error while sending PDF to Telegram: " +:+ exn_str e);;
              raise e)));
      if (sent : bool) then mret tt
      else send_rounds rounds' pdf_path channel_id caption
  end.

Definition send_pdf_to_telegram {L} (pdf_path bot_token channel_id caption : string)
  : M L unit :=
  logger INFO ("Sending PDF to Telegram channel " +:+ channel_id);;
  telegram_Bot bot_token;;
  send_rounds (range 0 3) pdf_path channel_id caption.

(** *** [main] and the module level *)

Definition newline : string := String (ascii_of_nat 10) EmptyString.

Definition caption_of (english_titles : list string) : string :=
  "🎗️ " +:+ today_long w +:+ " Current Affairs 🎗️" +:+ newline +:+ newline
  +:+ join newline (map (fun title => "👉 " +:+ title) english_titles)
  +:+ newline +:+ newline
  +:+ "🎉 Join us :- @Daily_Current_All_Source 🎉".

(** The local variables of [main] are [all_content] and [english_titles]. *)

(** The body of the loop over the new URLs; [content_list[0]] raises when
    the list is empty. *)
Definition extract_article (url : string) : M (list content * list string) unit :=
  content_list ← scrape_and_get_content url;
  modify_local (fun '(all_content, english_titles) =>
    (all_content ++ content_list, english_titles));;
  match content_list with
  | first :: _ =>
      modify_local (fun '(all_content, english_titles) =>
        (all_content, english_titles ++ [c_text first]))
  | [] => raise (IndexError "list index out of range")
  end.

(** Lines 221 to 244 of [main]: the template is downloaded and opened, the
    articles are extracted, the document is assembled, saved, converted and
    renamed.  Returns [tmp_docx.name] and [renamed_pdf_path]. *)
Definition main_prepare (new_urls : list string) (template_url : string)
  : M (list content * list string) (string * string) :=
  template ← download_template template_url;
  modify (set_doc template);;
  for_each new_urls extract_article;;
  '(all_content, _) ← get_local;
  insert_content_between_placeholders all_content;;
  let tmp_docx := tmp_docx_name w in
  modify (add_event (EvSaveDocx tmp_docx));;
  let pdf_path := replace ".docx" ".pdf" tmp_docx in
  convert_docx_to_pdf tmp_docx pdf_path;;
  let new_pdf_name := today_dmy w +:+ " Current Affairs.pdf" in
  renamed_pdf_path ← rename_pdf pdf_path new_pdf_name;
  mret (tmp_docx, renamed_pdf_path).

(** Lines 246 to 262 of [main]: the settings of the publisher are read and
    checked, the document is sent and the two files are removed. *)
Definition main_publish (tmp_docx renamed_pdf_path : string)
  : M (list content * list string) unit :=
  let bot_token := environ w !! "TELEGRAM_BOT_TOKEN" in
  let channel_id := environ w !! "TELEGRAM_CHANNEL_ID" in
  (if truthy bot_token && truthy channel_id then mret tt
   else
     logger ERROR
       "TELEGRAM_BOT_TOKEN or TELEGRAM_CHANNEL_ID environment variable is not set";;
     raise (ValueError
       "TELEGRAM_BOT_TOKEN or TELEGRAM_CHANNEL_ID environment variable is not set"));;
  '(_, english_titles) ← get_local;
  send_pdf_to_telegram renamed_pdf_path (default "" bot_token)
    (default "" channel_id) (caption_of english_titles);;
  modify (add_event (EvUnlink tmp_docx));;
  modify (add_event (EvUnlink renamed_pdf_path)).

Definition main_body : M (list content * list string) unit :=
  try_
    (let base_url := "https://www.gktoday.in/current-affairs/" in
     article_urls ← fetch_article_urls base_url 3;
     new_urls ← check_and_insert_urls article_urls;
     match new_urls with
     | [] => logger INFO "No new URLs found to process"
     | _ :: _ =>
         let template_url := environ w !! "TEMPLATE_URL" in
         (if truthy template_url then mret tt
          else
            logger ERROR "TEMPLATE_URL environment variable is not set";;
            raise (ValueError "TEMPLATE_URL environment variable is not set"));;
         '(tmp_docx, renamed_pdf_path) ← main_prepare new_urls (default "" template_url);
         main_publish tmp_docx renamed_pdf_path
     end)
    (except is_Exception (fun e =>
       logger_exception ("An error occurred in the main process: " +:+ exn_str e);;
       raise e)).

Definition main {L} : M L unit := with_locals ([], []) main_body.

(** [pymongo.MongoClient(uri)], [client[name]] and [db[name]] *)
Definition MongoClient {L} (uri : string) : M L unit :=
  match mongo_client_error w uri with
  | Some e => raise e
  | None => mret tt
  end.

Definition client_getitem {L} (name : string) : M L unit :=
  match mongo_database_error w name with
  | Some e => raise e
  | None => mret tt
  end.

Definition db_getitem {L} (name : string) : M L unit :=
  match mongo_collection_error w name with
  | Some e => raise e
  | None => mret tt
  end.

(** The script from its first line: the check of the database settings and
    the set-up of the collection at import time, then
    [asyncio.run(main())]. *)
Definition script {L} : M L unit :=
  let DB_NAME := environ w !! "DB_NAME" in
  let COLLECTION_NAME := environ w !! "COLLECTION_NAME" in
  let MONGO_CONNECTION_STRING := environ w !! "MONGO_CONNECTION_STRING" in
  (if truthy DB_NAME && truthy COLLECTION_NAME && truthy MONGO_CONNECTION_STRING
   then mret tt
   else
     logger ERROR "One or more required MongoDB environment variables are not set";;
     raise (ValueError "One or more required MongoDB environment variables are not set"));;
  MongoClient (default "" MONGO_CONNECTION_STRING);;
  client_getitem (default "" DB_NAME);;
  db_getitem (default "" COLLECTION_NAME);;
  logger INFO "Script started";;
  main;;
  logger INFO "Script finished".

End Program.

(** The state a run starts from, given what the collection holds. *)
Definition initial_state (stored : list string) : state :=
  State stored (Docx.Document [] []) [] [] 0 0.

(** A run of the whole script: its outcome and the final state. *)
Definition run (w : world) (stored : list string) : (exn + unit) * state :=
  let '(r, _, st) := script w tt (initial_state stored) in (r, st).

(** ** Vocabulary of the statements *)

(** The parts of a state the statements speak about. *)
Definition with_body_log (b : list Docx.block) (lg : list log_record) (st : state) : state :=
  State (collection st) (Docx.Document b (Docx.style_names (doc st))) lg (trace st)
        (mongo_ops st) (sends st).

Definition add_events (es : list event) (st : state) : state :=
  State (collection st) (doc st) (log st) (trace st ++ es) (mongo_ops st) (sends st).

Definition plain (t : string) : Docx.block := Docx.BPara (Docx.Paragraph None t).

Definition styled (s t : string) : Docx.block := Docx.BPara (Docx.Paragraph (Some s) t).

(** *** The assembler *)

(** A paragraph that carries neither marker. *)
Definition unmarked (p : Docx.paragraph) : Prop :=
  contains "START_CONTENT" (Docx.p_text p) = false
  /\ contains "END_CONTENT" (Docx.p_text p) = false.

(** The style [insert_block] asks for, by the type of the block. *)
Definition style_of (ty : block_type) : string :=
  match ty with
  | heading => "Heading 1"
  | paragraph => "Normal"
  | heading_2 => "Heading 2"
  | heading_4 => "Heading 4"
  | list_item => "List Bullet"
  end.

(** A block whose text python-docx takes. *)
Definition writable (c : content) : Prop := Docx.accepts (c_text c) = true.

(** The element a block becomes when every style is there: it has the style
    of its type and reads back the text of the block as it is stored. *)
Definition rendered (c : content) : Docx.block :=
  styled (style_of (c_type c)) (Docx.stored (c_text c)).

(** The element a block becomes when the style of list items is missing. *)
Definition degraded (c : content) : Docx.block :=
  styled (match c_type c with list_item => "Normal" | ty => style_of ty end)
         (Docx.stored (c_text c)).

Definition is_list_item (c : content) : bool :=
  match c_type c with list_item => true | _ => false end.

(** The paragraphs the failed first attempts leave at the end of the body,
    one per list item, in the order the loop meets them. *)
Definition leftovers (cs : list content) : list Docx.block :=
  map (fun c => plain (Docx.stored (c_text c))) (List.filter is_list_item cs).

Definition fallback_warning : log_record :=
  LogRecord WARNING
    "Style 'List Bullet' not found, falling back to 'Normal' style for list items".

Definition fallback_warnings (cs : list content) : list log_record :=
  map (fun _ => fallback_warning) (List.filter is_list_item cs).

(** *** Discovery *)

(** The link an [h1] of a listing page yields, if any. *)
Definition link_of (h1_tag : Bs4.node) : option string :=
  a_tag ← Bs4.find "a" h1_tag;
  href ← Bs4.get_href a_tag;
  if truthy (Some href) then Some href else None.

Definition page_links (soup : Bs4.node) : list string :=
  omap link_of (Bs4.find_all_id "h1" "list" soup).

(** The links of the n-th listing page of a site. *)
Definition links_at (w : world) (base_url : string) (page : nat) : list string :=
  match http_get w (page_url base_url page) with
  | Some soup => page_links soup
  | None => []
  end.

(** The pages of [ps] before the first one that cannot be fetched. *)
Fixpoint leading_pages (w : world) (base_url : string) (ps : list nat) : list nat :=
  match ps with
  | [] => []
  | p :: ps' =>
      match http_get w (page_url base_url p) with
      | Some _ => p :: leading_pages w base_url ps'
      | None => []
      end
  end.

(** The pages of [ps] up to and with the first one that cannot be
    fetched. *)
Fixpoint requested_pages (w : world) (base_url : string) (ps : list nat) : list nat :=
  match ps with
  | [] => []
  | p :: ps' =>
      p :: match http_get w (page_url base_url p) with
           | Some _ => requested_pages w base_url ps'
           | None => []
           end
  end.

(** *** The extractor *)

(** The title of an article page: the text of the [h1] with id [list]
    inside the main content. *)
Definition article_title (soup : Bs4.node) : option string :=
  main_content ← Bs4.find_class "div" main_content_class soup;
  heading_tag ← Bs4.find_id "h1" "list" main_content;
  Some (Bs4.get_text heading_tag).

(** *** Settings *)

Definition base : string := "https://www.gktoday.in/current-affairs/".

Definition db_settings_present (w : world) : bool :=
  truthy (environ w !! "DB_NAME") && truthy (environ w !! "COLLECTION_NAME")
  && truthy (environ w !! "MONGO_CONNECTION_STRING").

Definition template_setting_present (w : world) : bool :=
  truthy (environ w !! "TEMPLATE_URL").

Definition publisher_settings_present (w : world) : bool :=
  truthy (environ w !! "TELEGRAM_BOT_TOKEN") && truthy (environ w !! "TELEGRAM_CHANNEL_ID").

(** What the set-up of the collection at import time (lines 46 to 48)
    raises, if it raises. *)
Definition db_setup_error (w : world) : option exn :=
  match mongo_client_error w (default "" (environ w !! "MONGO_CONNECTION_STRING")) with
  | Some e => Some e
  | None =>
      match mongo_database_error w (default "" (environ w !! "DB_NAME")) with
      | Some e => Some e
      | None => mongo_collection_error w (default "" (environ w !! "COLLECTION_NAME"))
      end
  end.

Definition template_setting_error : exn :=
  ValueError "TEMPLATE_URL environment variable is not set".

Definition publisher_settings_error : exn :=
  ValueError "TELEGRAM_BOT_TOKEN or TELEGRAM_CHANNEL_ID environment variable is not set".

Definition db_settings_error : exn :=
  ValueError "One or more required MongoDB environment variables are not set".

(** The state in which [main] starts. *)
Definition started (stored : list string) : state :=
  add_log (LogRecord INFO "Script started") (initial_state stored).

(** A publisher that takes the token, and a file that can be read. *)
Definition publisher_ready (w : world) (pdf_path bot_token : string) : Prop :=
  telegram_bot_error w bot_token = None /\ open_error w pdf_path = None.

(** The error [send_pdf_to_telegram] meets before its first upload, if it
    meets one: that of the token, or else that of the file. *)
Definition error_before_upload (w : world) (pdf_path bot_token : string) : option exn :=
  match telegram_bot_error w bot_token with
  | Some e => Some e
  | None => OSError <$> open_error w pdf_path
  end.

Definition finished : log_record := LogRecord INFO "Script finished".

Definition no_new_urls : log_record := LogRecord INFO "No new URLs found to process".

(** The record [logger.error(msg)] or [logger.exception(msg)] writes. *)
Definition error_record (msg : string) : log_record := LogRecord ERROR msg.

Definition main_error (e : exn) : log_record :=
  LogRecord ERROR ("An error occurred in the main process: " +:+ exn_str e).

Definition db_error : log_record := error_record (exn_str db_settings_error).

(** How [main] leaves a state in which it raised [e] with the settings
    error [e] logged, or any other error. *)
Definition failed_setting (e : exn) (st : state) : state :=
  add_log (main_error e) (add_log (error_record (exn_str e)) st).

(** A computation that makes no call of [bot.send_document]. *)
Definition no_send {L A} (m : M L A) : Prop :=
  forall l st, sends (m l st).2 = sends st.

(** *** Further vocabulary *)

(** A URL of the daily quiz, which the dedup filter passes over. *)
Definition is_quiz (url : string) : bool := contains "daily-current-affairs-quiz" url.

(** A store none of whose operations raises. *)
Definition store_healthy (w : world) : Prop := forall n, mongo_raises w n = false.

Definition has_start (p : Docx.paragraph) : bool :=
  contains "START_CONTENT" (Docx.p_text p).

Definition has_end (p : Docx.paragraph) : bool :=
  contains "END_CONTENT" (Docx.p_text p).

(** The paragraph at which the search of the placeholders stops: it has
    [END_CONTENT] and not [START_CONTENT]. *)
Definition ends_search (p : Docx.paragraph) : bool := negb (has_start p) && has_end p.

Definition is_para (x : Docx.block) : bool :=
  match x with Docx.BPara _ => true | Docx.BTable _ => false end.

(** What the removal loop leaves of a region: its tables. *)
Definition tables (b : list Docx.block) : list Docx.block :=
  List.filter (fun x => negb (is_para x)) b.

(** A paragraph after [paragraph.text = ""]. *)
Definition cleared (p : Docx.paragraph) : Docx.block :=
  Docx.BPara (Docx.Paragraph (Docx.p_style p) "").

(** A body after [doc.paragraphs[i].text = ""], when it has such a
    paragraph. *)
Definition emptied_at (i : nat) (b : list Docx.block) : list Docx.block :=
  match Docx.para_pos b i with
  | Some k => alter (Docx.set_text "") k b
  | None => b
  end.

Definition inserting_info : log_record :=
  LogRecord INFO "Inserting content between placeholders".

Definition placeholders_error : log_record :=
  LogRecord ERROR "Error while inserting content: Could not find both placeholders".

Definition index_error : log_record :=
  LogRecord ERROR "Error while inserting content: list index out of range".

(** The blocks one direct child of the main content yields. *)
Definition tag_blocks (tag : Bs4.node) : list content :=
  if match Bs4.get_class tag with
     | Some cls => bool_decide (cls ∈ excluded_classes)
     | None => false
     end
  then []
  else if String.eqb (Bs4.name tag) "p" then [Content paragraph (Bs4.get_text tag)]
  else if String.eqb (Bs4.name tag) "h2" then [Content heading_2 (Bs4.get_text tag)]
  else if String.eqb (Bs4.name tag) "h4" then [Content heading_4 (Bs4.get_text tag)]
  else if String.eqb (Bs4.name tag) "ul" then
    map (fun li => Content list_item ("• " +:+ Bs4.get_text li)) (Bs4.find_all "li" tag)
  else [].

Definition scraping_info (url : string) : log_record :=
  LogRecord INFO ("Scraping content from " +:+ url).

(** The events of [k] uploads that time out, each followed by its pause. *)
Definition timed_out_rounds (k : nat) (pdf_path channel_id caption : string) : list event :=
  concat (replicate k [EvSendDocument pdf_path channel_id caption; EvSleep 5]).


(** A computation whose final state is related to its initial state by [R],
    whether it returns or raises. *)
Definition keeps {L A} (R : relation state) (m : M L A) : Prop :=
  forall l st, R st (m l st).2.

(** The collection has only been appended to. *)
Definition store_grows : relation state :=
  fun st st' => collection st `prefix_of` collection st'.

(** ** Scenarios *)

Module Scenario.

(** The styles of a document exported by a word processor, without
    [List Bullet]. *)
Definition usual_styles : list string :=
  ["Normal"; "Heading 1"; "Heading 2"; "Heading 4"; "Title"].

Definition state_of (b : list Docx.block) (names : list string) : state :=
  State [] (Docx.Document b names) [] [] 0 0.

(** The outcome of a computation on the document and the body it leaves. *)
Definition outcome_and_body {A} (x : (exn + A) * unit * state)
  : (exn + A) * list Docx.block :=
  (x.1.1, Docx.body (doc x.2)).

(** The outcome of a computation and the trace it leaves. *)
Definition outcome_and_trace {A} (x : (exn + A) * unit * state)
  : (exn + A) * list event :=
  (x.1.1, trace x.2).

(** The template of the scenario of the specification. *)
Definition scenario_template : list Docx.block :=
  [plain "Intro"; plain "START_CONTENT"; plain "OLD"; plain "END_CONTENT"; plain "Outro"].

Definition scenario_content : list content :=
  [Content heading "T"; Content paragraph "P1"].

(** What the specification expects of it. *)
Definition scenario_expected : list Docx.block :=
  [plain "Intro"; plain ""; styled "Heading 1" "T"; styled "Normal" "P1"; plain "";
   plain "Outro"].

(** A template with one paragraph behind the region. *)
Definition footer_template : list Docx.block :=
  [plain "START_CONTENT"; plain "OLD"; plain "END_CONTENT"; plain "FOOTER"].

(** A template with two paragraphs in the region and one behind it. *)
Definition two_old_template : list Docx.block :=
  [plain "START_CONTENT"; plain "OLD1"; plain "OLD2"; plain "END_CONTENT";
   plain "FOOTER"].

(** A template with an empty region. *)
Definition empty_region_template : list Docx.block :=
  [plain "START_CONTENT"; plain "END_CONTENT"].

(** The claim on the style fallback, for one list item with text [t]
    inserted behind the paragraph [start_placeholder] of a body: the
    insertion succeeds and leaves an element of style [Normal] with that
    text. *)
Definition list_item_degrades (names : list string) (b : list Docx.block)
    (start_placeholder : nat) (t : string) : Prop :=
  "List Bullet" ∉ names ->
  exists st',
    insert_block start_placeholder (Content list_item t) tt (state_of b names)
    = (inr tt, tt, st')
    /\ styled "Normal" t ∈ Docx.body (doc st').

(** A listing page with the given links. *)
Definition listing (links : list string) : Bs4.node :=
  Bs4.Tag "[document]" None None None
    (map (fun u => Bs4.Tag "h1" (Some "list") None None
                     [Bs4.Tag "a" None None (Some u) [Bs4.NavigableString u]]) links).

(** An article page with a title and paragraphs. *)
Definition article (title : string) (paras : list string) : Bs4.node :=
  Bs4.Tag "[document]" None None None
    [Bs4.Tag "div" None (Some ["inside_post"; "column"; "content_width"]) None
       (Bs4.Tag "h1" (Some "list") None None [Bs4.NavigableString title]
        :: map (fun p => Bs4.Tag "p" None None None [Bs4.NavigableString p]) paras)].

(** A site as the pages it serves; [requests.get] fails on any other
    address. *)
Fixpoint serve (pages : list (string * Bs4.node)) (url : string) : option Bs4.node :=
  match pages with
  | [] => None
  | (u, page) :: pages' => if String.eqb u url then Some page else serve pages' url
  end.

Definition full_environ : gmap string string :=
  list_to_map
    [("DB_NAME", "news"); ("COLLECTION_NAME", "urls");
     ("MONGO_CONNECTION_STRING", "mongodb://localhost");
     ("TEMPLATE_URL", "https://docs.example/d/1/edit?usp=sharing");
     ("TELEGRAM_BOT_TOKEN", "token"); ("TELEGRAM_CHANNEL_ID", "@channel")].

Definition template_site (url : string) : option Docx.document :=
  if String.eqb url "https://docs.example/d/1/export?format=docx"
  then Some (Docx.Document empty_region_template usual_styles)
  else None.

Definition a1 : string := "https://www.gktoday.in/a1/".
Definition a2 : string := "https://www.gktoday.in/a2/".
Definition a3 : string := "https://www.gktoday.in/a3/".

(** One new article on the first listing page. *)
Definition one_article_site : string -> option Bs4.node :=
  serve [(base, listing [a1]);
         (base +:+ "page/2/", listing []);
         (base +:+ "page/3/", listing []);
         (a1, article "Title one" ["Body one."])].

(** Two new articles; the page of the first one cannot be fetched. *)
Definition first_article_down_site : string -> option Bs4.node :=
  serve [(base, listing [a1; a2]);
         (base +:+ "page/2/", listing []);
         (base +:+ "page/3/", listing []);
         (a2, article "Title two" ["Body two."])].

(** Three listing pages with one link each; the second cannot be fetched. *)
Definition page2_down_site : string -> option Bs4.node :=
  serve [(base, listing [a1]);
         (base +:+ "page/3/", listing [a3])].

Definition world_with (env : gmap string string) (site : string -> option Bs4.node)
    (send : nat -> send_result) : world :=
  World env site (fun _ => None) (fun _ => None) (fun _ => None) (fun _ => false)
        template_site "/tmp/tmpabc.docx" true (fun _ _ => true)
        (fun _ => None) (fun _ => None) send "03-11-2026" "03 November 2026".

(** Every upload times out. *)
Definition always_times_out : world :=
  world_with full_environ one_article_site (fun _ => SendTimedOut).

(** The first three uploads time out, a fourth one would go through. *)
Definition three_timeouts_then_ok : world :=
  world_with full_environ one_article_site
    (fun n => if decide (n < 3) then SendTimedOut else Delivered).

Definition first_article_down : world :=
  world_with full_environ first_article_down_site (fun _ => Delivered).

Definition page2_down : world :=
  world_with full_environ page2_down_site (fun _ => Delivered).

(** All settings but the address of the template. *)
Definition no_template_setting : world :=
  world_with (delete "TEMPLATE_URL" full_environ) one_article_site (fun _ => Delivered).

(** All settings but the token of the publisher. *)
Definition no_bot_token : world :=
  world_with (delete "TELEGRAM_BOT_TOKEN" full_environ) one_article_site (fun _ => Delivered).

(** The claim on discovery: a page that cannot be fetched contributes no
    link, and the links of all other pages are returned. *)
Definition per_page_tolerant (w : world) (base_url : string) (pages : nat) : Prop :=
  forall st, exists st',
    fetch_article_urls w base_url pages tt st
    = (inr (flat_map (links_at w base_url) (seq 1 pages)), tt, st').

(** The claim on the settings: when one is absent the run ends in a
    configuration error with nothing done. *)
Definition fails_before_any_work (w : world) (stored : list string) : Prop :=
  exists msg st,
    run w stored = (inl (ValueError msg), st)
    /\ trace st = [] /\ collection st = stored.

Definition checks_settings_first (w : world) (stored : list string) : Prop :=
  db_settings_present w && template_setting_present w && publisher_settings_present w
  = false ->
  fails_before_any_work w stored.

End Scenario.

(** Further inputs on which the statements are exercised. *)
Module Cases.

Import Scenario.

(** An article page with a share widget, a list, a table and the links to
    the neighbouring articles among the children of its main content. *)
Definition rich_article : Bs4.node :=
  Bs4.Tag "[document]" None None None
    [Bs4.Tag "div" None (Some ["inside_post"; "column"; "content_width"]) None
       [Bs4.Tag "h1" (Some "list") None None [Bs4.NavigableString "Title"];
        Bs4.Tag "div" None
          (Some ["sharethis-inline-share-buttons"; "st-center"; "st-has-labels";
                 "st-inline-share-buttons"; "st-animated"]) None
          [Bs4.Tag "p" None None None [Bs4.NavigableString "Share"]];
        Bs4.Tag "p" None None None
          [Bs4.NavigableString "First "; Bs4.Tag "b" None None None [Bs4.NavigableString "bold"]];
        Bs4.Tag "h2" None None None [Bs4.NavigableString "Section"];
        Bs4.Tag "ul" None None None
          [Bs4.Tag "li" None None None [Bs4.NavigableString "one"];
           Bs4.Tag "li" None None None [Bs4.NavigableString "two"]];
        Bs4.Tag "table" None None None [Bs4.NavigableString "cell"];
        Bs4.Tag "h4" None None None [Bs4.NavigableString "Small"];
        Bs4.Tag "div" None (Some ["prenext"]) None [Bs4.NavigableString "Next"]]].

Definition rich_main_content : Bs4.node :=
  default rich_article (head (Bs4.children rich_article)).

Definition rich_heading : Bs4.node :=
  Bs4.Tag "h1" (Some "list") None None [Bs4.NavigableString "Title"].

Definition rich_site : string -> option Bs4.node :=
  serve [(base, listing [a1; a2]);
         (base +:+ "page/2/", listing [a2; a3]);
         (base +:+ "page/3/", listing []);
         (a1, rich_article)].

Definition rich_world : world := world_with full_environ rich_site (fun _ => Delivered).

(** Two uploads time out, the third goes through. *)
Definition two_timeouts_then_ok : world :=
  world_with full_environ one_article_site
    (fun n => if decide (n < 2) then SendTimedOut else Delivered).

(** One upload times out, the next one is refused. *)
Definition timeout_then_refused : world :=
  world_with full_environ one_article_site
    (fun n => if decide (n < 1) then SendTimedOut else SendFailed).

(** A template with a table and two paragraphs in the region. *)
Definition table_template : list Docx.block :=
  [plain "Intro"; plain "Put START_CONTENT here"; plain "OLD1"; Docx.BTable "<w:tbl/>";
   plain "OLD2"; plain "END_CONTENT"; plain "Outro"].

Definition two_blocks : list content :=
  [Content heading "T"; Content list_item "• a"].

Definition all_styles : list string := "List Bullet" :: usual_styles.

(** A text with a tab and, further on, a form feed. *)
Definition form_feed_text : string :=
  "one" +:+ String Docx.tab ("two" +:+ String (ascii_of_nat 12) "three").

(** A text with a carriage return. *)
Definition carriage_return_text : string :=
  "first" +:+ String Docx.carriage_return "second".

(** The file to send is not there. *)
Definition missing_pdf : world :=
  World full_environ one_article_site (fun _ => None) (fun _ => None) (fun _ => None)
        (fun _ => false) template_site "/tmp/tmpabc.docx" true (fun _ _ => true)
        (fun _ => None) (fun _ => Some "No such file or directory")
        (fun _ => Delivered) "03-11-2026" "03 November 2026".

End Cases.

(** ** Proof tools *)

(** Unfolds the monad on the computation at hand. *)
Ltac mstep :=
  cbv [mbind M_bind mret M_ret gets modify modify_local get_local raise logger
       logger_exception try_ except or_except with_locals]; cbn.

(** Reassociates the appends of both sides of a goal. *)
Ltac reassoc := rewrite <- ?app_assoc; cbn [app]; rewrite <- ?app_assoc.

(** ** The document assembler *)

Module DocxFacts.
Import Docx.

Lemma para_pos_app_anchor pre anchor rest :
  para_pos (pre ++ BPara anchor :: rest) (length (paragraphs pre)) = Some (length pre).
Proof.
  unfold paragraphs.
  induction pre as [|[p|xml] pre IH]; cbn [app omap list_omap length para_pos]; [done| |];
    by rewrite IH.
Qed.

Lemma addnext_appended pre anchor rest x :
  addnext (length pre) (length (pre ++ anchor :: rest)) ((pre ++ anchor :: rest) ++ [x])
  = pre ++ anchor :: x :: rest.
Proof.
  unfold addnext.
  rewrite lookup_app_r, Nat.sub_diag by done. cbn [lookup list_lookup].
  assert (delete (length (pre ++ anchor :: rest)) ((pre ++ anchor :: rest) ++ [x])
          = pre ++ anchor :: rest) as ->.
  { rewrite delete_middle. by rewrite app_nil_r. }
  case_decide as Hlt; [rewrite length_app in Hlt; cbn in Hlt; lia|].
  replace (pre ++ anchor :: rest) with ((pre ++ [anchor]) ++ rest)
    by by rewrite <-app_assoc.
  rewrite take_app_length', drop_app_length' by (rewrite length_app; cbn; lia).
  by rewrite <-app_assoc.
Qed.

Lemma alter_appended (f : block -> block) (b : list block) x :
  alter f (length b) (b ++ [x]) = b ++ [f x].
Proof. induction b as [|y b IH]; cbn; [done|]. by rewrite IH. Qed.

Lemma paragraphs_app b1 b2 : paragraphs (b1 ++ b2) = paragraphs b1 ++ paragraphs b2.
Proof. unfold paragraphs. apply omap_app. Qed.

Lemma para_pos_app pre rest i :
  para_pos (pre ++ rest) (length (paragraphs pre) + i)
  = (fun k => length pre + k) <$> para_pos rest i.
Proof.
  unfold paragraphs.
  induction pre as [|[p|xml] pre IH]; cbn [app omap list_omap length para_pos Nat.add].
  - by destruct (para_pos rest i).
  - rewrite IH. by destruct (para_pos rest i).
  - rewrite IH. by destruct (para_pos rest i).
Qed.

Lemma delete_behind (pre rest : list block) i :
  delete (length pre + i) (pre ++ rest) = pre ++ delete i rest.
Proof. induction pre as [|x pre IH]; cbn; [done|]. f_equal. exact IH. Qed.

Lemma alter_behind (f : block -> block) (pre rest : list block) i :
  alter f (length pre + i) (pre ++ rest) = pre ++ alter f i rest.
Proof. induction pre as [|x pre IH]; cbn; [done|]. f_equal. exact IH. Qed.

Lemma alter_anchor (f : block -> block) (pre rest : list block) x :
  alter f (length pre) (pre ++ x :: rest) = pre ++ f x :: rest.
Proof. rewrite <- (Nat.add_0_r (length pre)). by rewrite alter_behind. Qed.

End DocxFacts.

(** The search passes over paragraphs without a marker. *)
Lemma find_placeholders_unmarked pre : forall rest i start,
  Forall unmarked pre ->
  find_placeholders (pre ++ rest) i start = find_placeholders rest (i + length pre) start.
Proof.
  induction pre as [|p pre IH]; intros rest i start Hpre.
  { cbn. by rewrite Nat.add_0_r. }
  apply Forall_cons in Hpre as [[Hs He] Hpre].
  cbn [app find_placeholders]. rewrite Hs, He, IH by done.
  cbn. f_equal. lia.
Qed.

Section Insertion.

Context {L : Type}.
Implicit Types (l : L) (st : state) (c : content).

Lemma with_body_log_add_log b lg r st :
  add_log r (with_body_log b lg st) = with_body_log b (lg ++ [r]) st.
Proof. done. Qed.

Lemma with_body_log_id st : with_body_log (Docx.body (doc st)) (log st) st = st.
Proof. by destruct st as [? [] ? ? ? ?]. Qed.

Lemma run_text_accepted text :
  Docx.accepts text = true -> Docx.run_text text = (Docx.stored text, true).
Proof.
  unfold Docx.accepts, Docx.stored. destruct (Docx.run_text text) as [t ok]. cbn.
  by intros ->.
Qed.

Lemma run_text_refused text :
  Docx.accepts text = false -> Docx.run_text text = (Docx.stored text, false).
Proof.
  unfold Docx.accepts, Docx.stored. destruct (Docx.run_text text) as [t ok]. cbn.
  by intros ->.
Qed.

(** [doc.add_paragraph]: the paragraph is at the end of the body however the
    call ends; it has its style only when neither the text nor the name of
    the style was refused. *)
Lemma add_paragraph_run text sty b lg l st :
  add_paragraph text sty l (with_body_log b lg st)
  = if Docx.accepts text then
      if bool_decide (sty ∈ Docx.style_names (doc st))
      then (inr (length b), l, with_body_log (b ++ [styled sty (Docx.stored text)]) lg st)
      else (inl (KeyError ("no style with name '" +:+ sty +:+ "'")), l,
            with_body_log (b ++ [plain (Docx.stored text)]) lg st)
    else (inl Docx.xml_error, l, with_body_log (b ++ [plain (Docx.stored text)]) lg st).
Proof.
  unfold add_paragraph, write_text, assign_style. mstep.
  unfold set_body, set_doc, with_body_log. cbn.
  destruct (String.eqb_spec text "") as [->|Hne]; cbn.
  - case_bool_decide; cbn; [|done]. by rewrite DocxFacts.alter_appended.
  - destruct (Docx.accepts text) eqn:Hok.
    + rewrite (run_text_accepted text Hok). cbn.
      rewrite DocxFacts.alter_appended. cbn.
      case_bool_decide; cbn; [|done]. by rewrite DocxFacts.alter_appended.
    + rewrite (run_text_refused text Hok). cbn.
      by rewrite DocxFacts.alter_appended.
Qed.

(** One element created at the end of the body and moved behind the anchor. *)
Lemma place_styled pre anchor rest text sty lg l st :
  Docx.accepts text = true ->
  sty ∈ Docx.style_names (doc st) ->
  (anchor ← paragraphs_getitem (length (Docx.paragraphs pre));
   new ← add_paragraph text sty;
   addnext anchor new) l (with_body_log (pre ++ Docx.BPara anchor :: rest) lg st)
  = (inr tt, l,
     with_body_log (pre ++ Docx.BPara anchor :: styled sty (Docx.stored text) :: rest) lg st).
Proof.
  intros Hok Hsty. unfold paragraphs_getitem. mstep.
  rewrite DocxFacts.para_pos_app_anchor. cbn.
  cbv [mbind M_bind]. rewrite add_paragraph_run, Hok, bool_decide_eq_true_2 by done.
  unfold addnext. mstep. unfold set_body, set_doc, with_body_log. cbn.
  by rewrite DocxFacts.addnext_appended.
Qed.

(** The same when the style is missing: the lookup raises after the element
    was appended, and the element stays at the end of the body. *)
Lemma place_missing pre anchor rest text sty lg l st :
  Docx.accepts text = true ->
  sty ∉ Docx.style_names (doc st) ->
  (anchor ← paragraphs_getitem (length (Docx.paragraphs pre));
   new ← add_paragraph text sty;
   addnext anchor new) l (with_body_log (pre ++ Docx.BPara anchor :: rest) lg st)
  = (inl (KeyError ("no style with name '" +:+ sty +:+ "'")), l,
     with_body_log ((pre ++ Docx.BPara anchor :: rest) ++ [plain (Docx.stored text)]) lg st).
Proof.
  intros Hok Hsty. unfold paragraphs_getitem. mstep.
  rewrite DocxFacts.para_pos_app_anchor. cbn.
  cbv [mbind M_bind]. by rewrite add_paragraph_run, Hok, bool_decide_eq_false_2 by done.
Qed.

(** The same when the text is refused: the style is not looked up, and the
    element stays at the end of the body with what was written of the
    text. *)
Lemma place_refused pre anchor rest text sty lg l st :
  Docx.accepts text = false ->
  (anchor ← paragraphs_getitem (length (Docx.paragraphs pre));
   new ← add_paragraph text sty;
   addnext anchor new) l (with_body_log (pre ++ Docx.BPara anchor :: rest) lg st)
  = (inl Docx.xml_error, l,
     with_body_log ((pre ++ Docx.BPara anchor :: rest) ++ [plain (Docx.stored text)]) lg st).
Proof.
  intros Hok. unfold paragraphs_getitem. mstep.
  rewrite DocxFacts.para_pos_app_anchor. cbn.
  cbv [mbind M_bind]. by rewrite add_paragraph_run, Hok.
Qed.

Lemma insert_block_plain pre anchor rest c lg l st :
  writable c ->
  c_type c <> list_item ->
  style_of (c_type c) ∈ Docx.style_names (doc st) ->
  insert_block (length (Docx.paragraphs pre)) c l
    (with_body_log (pre ++ Docx.BPara anchor :: rest) lg st)
  = (inr tt, l, with_body_log (pre ++ Docx.BPara anchor :: rendered c :: rest) lg st).
Proof.
  intros Hok Hty Hsty. unfold insert_block, rendered, add_heading.
  destruct (c_type c); try done; cbn in Hsty |- *; by apply place_styled.
Qed.

Lemma insert_block_list_item pre anchor rest c lg l st :
  writable c ->
  c_type c = list_item ->
  "List Bullet" ∈ Docx.style_names (doc st) ->
  insert_block (length (Docx.paragraphs pre)) c l
    (with_body_log (pre ++ Docx.BPara anchor :: rest) lg st)
  = (inr tt, l, with_body_log (pre ++ Docx.BPara anchor :: rendered c :: rest) lg st).
Proof.
  intros Hok Hty Hsty. unfold insert_block, rendered. rewrite Hty.
  unfold try_. by rewrite place_styled.
Qed.

Lemma insert_block_fallback pre anchor rest c lg l st :
  writable c ->
  c_type c = list_item ->
  "List Bullet" ∉ Docx.style_names (doc st) ->
  "Normal" ∈ Docx.style_names (doc st) ->
  insert_block (length (Docx.paragraphs pre)) c l
    (with_body_log (pre ++ Docx.BPara anchor :: rest) lg st)
  = (inr tt, l,
     with_body_log
       (pre ++ Docx.BPara anchor :: degraded c :: rest ++ [plain (Docx.stored (c_text c))])
       (lg ++ [fallback_warning]) st).
Proof.
  intros Hok Hty Hmiss Hnormal. unfold insert_block, degraded. rewrite Hty.
  unfold try_. rewrite place_missing by done. cbn.
  cbv [mbind M_bind logger modify]. cbn.
  rewrite with_body_log_add_log, <-app_assoc. cbn [app].
  by apply (place_styled pre anchor (rest ++ [plain (Docx.stored (c_text c))])).
Qed.

Lemma leftovers_cons c cs :
  leftovers (c :: cs)
  = (if is_list_item c then [plain (Docx.stored (c_text c))] else []) ++ leftovers cs.
Proof. unfold leftovers. cbn. by destruct (is_list_item c). Qed.

Lemma fallback_warnings_cons c cs :
  fallback_warnings (c :: cs)
  = (if is_list_item c then [fallback_warning] else []) ++ fallback_warnings cs.
Proof. unfold fallback_warnings. cbn. by destruct (is_list_item c). Qed.

(** The insertion loop when every style is there: each new element goes
    right behind the anchor, so the blocks end up in the reverse of the
    order in which the loop takes them. *)
Lemma insert_blocks_rendered pre anchor cs : forall rest lg l st,
  Forall writable cs ->
  Forall (fun c => style_of (c_type c) ∈ Docx.style_names (doc st)) cs ->
  for_each cs (insert_block (length (Docx.paragraphs pre))) l
    (with_body_log (pre ++ Docx.BPara anchor :: rest) lg st)
  = (inr tt, l,
     with_body_log (pre ++ Docx.BPara anchor :: map rendered (rev cs) ++ rest) lg st).
Proof.
  induction cs as [|c cs IH]; intros rest lg l st Hok Hcs; [done|].
  apply Forall_cons in Hok as [Hokc Hok]. apply Forall_cons in Hcs as [Hc Hcs].
  cbn [for_each]. cbv [mbind M_bind].
  cbn [map rev]. rewrite map_app. cbn [map].
  destruct (decide (c_type c = list_item)) as [Hty|Hty].
  - assert ("List Bullet" ∈ Docx.style_names (doc st)) by (by rewrite Hty in Hc).
    rewrite insert_block_list_item by done. rewrite IH by done. by reassoc.
  - rewrite insert_block_plain by done. rewrite IH by done. by reassoc.
Qed.

(** The insertion loop when the style of list items is missing. *)
Lemma insert_blocks_degraded pre anchor cs : forall rest lg l st,
  "List Bullet" ∉ Docx.style_names (doc st) ->
  "Normal" ∈ Docx.style_names (doc st) ->
  Forall writable cs ->
  Forall (fun c => c_type c <> list_item ->
                   style_of (c_type c) ∈ Docx.style_names (doc st)) cs ->
  for_each cs (insert_block (length (Docx.paragraphs pre))) l
    (with_body_log (pre ++ Docx.BPara anchor :: rest) lg st)
  = (inr tt, l,
     with_body_log
       (pre ++ Docx.BPara anchor :: map degraded (rev cs) ++ rest ++ leftovers cs)
       (lg ++ fallback_warnings cs) st).
Proof.
  induction cs as [|c cs IH]; intros rest lg l st Hmiss Hnormal Hok Hcs.
  { cbn. unfold leftovers, fallback_warnings. cbn. by rewrite !app_nil_r. }
  apply Forall_cons in Hok as [Hokc Hok]. apply Forall_cons in Hcs as [Hc Hcs].
  cbn [for_each]. cbv [mbind M_bind].
  rewrite leftovers_cons, fallback_warnings_cons.
  cbn [map rev]. rewrite map_app. cbn [map].
  destruct (decide (c_type c = list_item)) as [Hty|Hty].
  - rewrite insert_block_fallback by done. rewrite IH by done.
    unfold is_list_item. rewrite Hty. by reassoc.
  - rewrite insert_block_plain by auto. rewrite IH by done.
    assert (rendered c = degraded c) as ->.
    { unfold rendered, degraded. by destruct (c_type c). }
    assert (is_list_item c = false) as ->.
    { unfold is_list_item. by destruct (c_type c). }
    by reassoc.
Qed.

End Insertion.

(** The removal loop: the paragraphs of the region go, its tables stay. *)
Lemma range_down_succ hi lo : (lo <= hi)%nat -> range_down (S hi) lo = S hi :: range_down hi lo.
Proof.
  intros Hle. unfold range_down. replace (S hi - lo) with (S (hi - lo)) by lia.
  rewrite seq_S, rev_app_distr. cbn. do 2 f_equal. lia.
Qed.

Lemma range_down_empty n : range_down n n = [].
Proof. unfold range_down. by rewrite Nat.sub_diag. Qed.

Lemma remove_paragraph {L} before x rest lg (l : L) st :
  (p ← paragraphs_getitem (length (Docx.paragraphs before)); remove_element p) l
    (with_body_log (before ++ Docx.BPara x :: rest) lg st)
  = (inr tt, l, with_body_log (before ++ rest) lg st).
Proof.
  unfold paragraphs_getitem, remove_element. mstep.
  rewrite DocxFacts.para_pos_app_anchor. cbn.
  unfold set_body, set_doc, with_body_log. cbn.
  rewrite <- (Nat.add_0_r (length before)), DocxFacts.delete_behind. done.
Qed.

Lemma remove_region {L} pre anchor region : forall rest lg (l : L) st,
  for_each (range_down (length (Docx.paragraphs pre) + length (Docx.paragraphs region))
              (length (Docx.paragraphs pre)))
    (fun i => p ← paragraphs_getitem i; remove_element p) l
    (with_body_log (pre ++ Docx.BPara anchor :: region ++ rest) lg st)
  = (inr tt, l, with_body_log (pre ++ Docx.BPara anchor :: tables region ++ rest) lg st).
Proof.
  induction region as [|x region IH] using rev_ind; intros rest lg l st.
  { cbn. by rewrite Nat.add_0_r, range_down_empty. }
  rewrite DocxFacts.paragraphs_app, length_app.
  unfold tables. rewrite List.filter_app. fold (tables region).
  destruct x as [p|xml]; cbn [Docx.paragraphs omap list_omap length List.filter is_para negb].
  - rewrite Nat.add_1_r, Nat.add_succ_r, range_down_succ by lia.
    cbn [for_each]. cbv [mbind M_bind].
    replace (pre ++ Docx.BPara anchor :: (region ++ [Docx.BPara p]) ++ rest)
      with ((pre ++ Docx.BPara anchor :: region) ++ Docx.BPara p :: rest)
      by (by rewrite <- !app_assoc).
    replace (S (length (Docx.paragraphs pre) + length (Docx.paragraphs region)))
      with (length (Docx.paragraphs (pre ++ Docx.BPara anchor :: region))).
    2:{ rewrite DocxFacts.paragraphs_app, length_app.
        change (Docx.paragraphs (Docx.BPara anchor :: region))
          with (anchor :: Docx.paragraphs region).
        cbn [length]. lia. }
    pose proof (remove_paragraph (pre ++ Docx.BPara anchor :: region) p rest lg l st) as Hstep.
    cbv [mbind M_bind] in Hstep. rewrite Hstep.
    rewrite <- app_assoc. cbn [app]. rewrite IH. by rewrite app_nil_r.
  - rewrite Nat.add_0_r. rewrite <- !app_assoc. cbn [app].
    apply (IH (Docx.BTable xml :: rest)).
Qed.

Lemma find_placeholders_region pre start region end_ post :
  Forall unmarked pre -> has_start start = true ->
  Forall unmarked region -> ends_search end_ = true ->
  find_placeholders (pre ++ start :: region ++ end_ :: post) 0 None
  = (Some (length pre), Some (length pre + 1 + length region)).
Proof.
  intros Hpre Hs Hregion He.
  rewrite find_placeholders_unmarked by done. cbn [find_placeholders Nat.add].
  unfold has_start in Hs. rewrite Hs.
  rewrite find_placeholders_unmarked by done. cbn [find_placeholders].
  unfold ends_search, has_start, has_end in He.
  apply andb_true_iff in He as [Hes%negb_true_iff Hee]. rewrite Hes, Hee.
  do 2 f_equal. lia.
Qed.

(** A paragraph given the empty text. *)
Lemma clear_paragraph {L} b i lg (l : L) st :
  (p ← paragraphs_getitem i; assign_text p "") l (with_body_log b lg st)
  = match Docx.para_pos b i with
    | Some k => (inr tt, l, with_body_log (alter (Docx.set_text "") k b) lg st)
    | None => (inl (IndexError "list index out of range"), l, with_body_log b lg st)
    end.
Proof.
  unfold paragraphs_getitem, assign_text. mstep.
  by destruct (Docx.para_pos b i).
Qed.

(** What the assembly does to a well-formed template, given what the
    insertion loop does behind its start placeholder: [inserted] are the
    elements the loop leaves there, [tail] what it leaves at the end of the
    body and [warnings] what it logs. *)
Lemma assembly_with {L} pre start region end_ post content inserted tail warnings
    (l : L) st :
  Docx.body (doc st) = pre ++ Docx.BPara start :: region ++ Docx.BPara end_ :: post ->
  Forall unmarked (Docx.paragraphs pre) -> has_start start = true ->
  Forall unmarked (Docx.paragraphs region) -> ends_search end_ = true ->
  (forall rest lg,
     for_each (rev content) (insert_block (length (Docx.paragraphs pre))) l
       (with_body_log (pre ++ Docx.BPara start :: rest) lg st)
     = (inr tt, l,
        with_body_log (pre ++ Docx.BPara start :: inserted ++ rest ++ tail)
          (lg ++ warnings) st)) ->
  insert_content_between_placeholders content l st
  = match Docx.para_pos
            (pre ++ cleared start :: inserted ++ tables region
                 ++ Docx.BPara end_ :: post ++ tail)
            (length (Docx.paragraphs pre) + 1 + length (Docx.paragraphs region)) with
    | Some k =>
        (inr tt, l,
         with_body_log
           (alter (Docx.set_text "") k
              (pre ++ cleared start :: inserted ++ tables region
                   ++ Docx.BPara end_ :: post ++ tail))
           (log st ++ inserting_info :: warnings) st)
    | None =>
        (inl (IndexError "list index out of range"), l,
         with_body_log
           (pre ++ cleared start :: inserted ++ tables region
                ++ Docx.BPara end_ :: post ++ tail)
           (log st ++ inserting_info :: warnings ++ [index_error]) st)
    end.
Proof.
  intros Hbody Hpre Hs Hregion He Hloop.
  unfold insert_content_between_placeholders.
  cbv [mbind M_bind mret M_ret gets logger modify try_ except].
  cbn [doc add_log is_Exception Docx.body log].
  rewrite Hbody, DocxFacts.paragraphs_app.
  change (Docx.paragraphs (Docx.BPara start :: region ++ Docx.BPara end_ :: post))
    with (start :: Docx.paragraphs (region ++ Docx.BPara end_ :: post)).
  rewrite DocxFacts.paragraphs_app.
  change (Docx.paragraphs (Docx.BPara end_ :: post)) with (end_ :: Docx.paragraphs post).
  rewrite find_placeholders_region by done.
  replace (length (Docx.paragraphs pre) + 1 + length (Docx.paragraphs region) - 1)
    with (length (Docx.paragraphs pre) + length (Docx.paragraphs region)) by lia.
  change (add_log (LogRecord INFO "Inserting content between placeholders") st)
    with (add_log inserting_info st).
  assert (add_log inserting_info st
          = with_body_log (pre ++ Docx.BPara start :: region ++ Docx.BPara end_ :: post)
              (log st ++ [inserting_info]) st) as ->.
  { rewrite <- Hbody. by destruct st as [? [] ? ? ? ?]. }
  pose proof (remove_region pre start region (Docx.BPara end_ :: post)
                (log st ++ [inserting_info]) l st) as Hremove.
  cbv [mbind M_bind] in Hremove. rewrite Hremove. clear Hremove.
  rewrite Hloop.
  pose proof (clear_paragraph
                (pre ++ Docx.BPara start :: inserted
                     ++ (tables region ++ Docx.BPara end_ :: post) ++ tail)
                (length (Docx.paragraphs pre)) ((log st ++ [inserting_info]) ++ warnings)
                l st) as Hclear.
  cbv [mbind M_bind] in Hclear. rewrite Hclear. clear Hclear.
  rewrite DocxFacts.para_pos_app_anchor, DocxFacts.alter_anchor.
  change (Docx.set_text "" (Docx.BPara start)) with (cleared start).
  replace ((tables region ++ Docx.BPara end_ :: post) ++ tail)
    with (tables region ++ Docx.BPara end_ :: post ++ tail) by (by rewrite <- app_assoc).
  replace ((log st ++ [inserting_info]) ++ warnings)
    with (log st ++ inserting_info :: warnings) by (by rewrite <- app_assoc).
  pose proof (clear_paragraph
                (pre ++ cleared start :: inserted ++ tables region
                     ++ Docx.BPara end_ :: post ++ tail)
                (length (Docx.paragraphs pre) + 1 + length (Docx.paragraphs region))
                (log st ++ inserting_info :: warnings) l st) as Hclear.
  cbv [mbind M_bind] in Hclear. rewrite Hclear. clear Hclear.
  destruct (Docx.para_pos _ _) as [k|]; cbn; [done|].
  unfold logger_exception, logger, modify, raise, index_error. cbn.
  rewrite with_body_log_add_log. by rewrite <- app_assoc.
Qed.

(** The same when every style is there. *)
Lemma assembly_exact {L} pre start region end_ post content (l : L) st :
  Docx.body (doc st) = pre ++ Docx.BPara start :: region ++ Docx.BPara end_ :: post ->
  Forall unmarked (Docx.paragraphs pre) -> has_start start = true ->
  Forall unmarked (Docx.paragraphs region) -> ends_search end_ = true ->
  Forall writable content ->
  Forall (fun c => style_of (c_type c) ∈ Docx.style_names (doc st)) content ->
  let assembled :=
    pre ++ cleared start :: map rendered content ++ tables region
        ++ Docx.BPara end_ :: post in
  let end_placeholder :=
    length (Docx.paragraphs pre) + 1 + length (Docx.paragraphs region) in
  insert_content_between_placeholders content l st
  = match Docx.para_pos assembled end_placeholder with
    | Some k =>
        (inr tt, l,
         with_body_log (alter (Docx.set_text "") k assembled)
           (log st ++ [inserting_info]) st)
    | None =>
        (inl (IndexError "list index out of range"), l,
         with_body_log assembled (log st ++ [inserting_info; index_error]) st)
    end.
Proof.
  intros Hbody Hpre Hs Hregion He Hok Hstyles assembled end_placeholder.
  rewrite (assembly_with pre start region end_ post content (map rendered content) [] [])
    by (try done; intros rest lg;
        rewrite insert_blocks_rendered, rev_involutive, !app_nil_r
          by (by apply Forall_rev); done).
  rewrite !app_nil_r. done.
Qed.

(** The same when the style of list items is missing and [Normal] is
    there. *)
Lemma assembly_degraded {L} pre start region end_ post content (l : L) st :
  Docx.body (doc st) = pre ++ Docx.BPara start :: region ++ Docx.BPara end_ :: post ->
  Forall unmarked (Docx.paragraphs pre) -> has_start start = true ->
  Forall unmarked (Docx.paragraphs region) -> ends_search end_ = true ->
  "List Bullet" ∉ Docx.style_names (doc st) ->
  "Normal" ∈ Docx.style_names (doc st) ->
  Forall writable content ->
  Forall (fun c => c_type c <> list_item ->
                   style_of (c_type c) ∈ Docx.style_names (doc st)) content ->
  let assembled :=
    pre ++ cleared start :: map degraded content ++ tables region
        ++ Docx.BPara end_ :: post ++ leftovers (rev content) in
  let end_placeholder :=
    length (Docx.paragraphs pre) + 1 + length (Docx.paragraphs region) in
  insert_content_between_placeholders content l st
  = match Docx.para_pos assembled end_placeholder with
    | Some k =>
        (inr tt, l,
         with_body_log (alter (Docx.set_text "") k assembled)
           (log st ++ inserting_info :: fallback_warnings (rev content)) st)
    | None =>
        (inl (IndexError "list index out of range"), l,
         with_body_log assembled
           (log st ++ inserting_info :: fallback_warnings (rev content) ++ [index_error]) st)
    end.
Proof.
  intros Hbody Hpre Hs Hregion He Hmiss Hnormal Hok Hstyles assembled end_placeholder.
  apply (assembly_with pre start region end_ post content (map degraded content)
           (leftovers (rev content)) (fallback_warnings (rev content))); try done.
  intros rest lg.
  rewrite insert_blocks_degraded, rev_involutive by (try done; by apply Forall_rev).
  done.
Qed.

Lemma para_pos_none b : forall i,
  (length (Docx.paragraphs b) <= i)%nat -> Docx.para_pos b i = None.
Proof.
  unfold Docx.paragraphs.
  induction b as [|[p|xml] b IH]; intros i Hi; cbn [omap list_omap length Docx.para_pos] in *.
  - done.
  - destruct i as [|i]; [lia|]. rewrite IH by lia. done.
  - rewrite IH by lia. done.
Qed.

Lemma para_pos_is_Some b : forall i,
  (i < length (Docx.paragraphs b))%nat -> is_Some (Docx.para_pos b i).
Proof.
  unfold Docx.paragraphs.
  induction b as [|[p|xml] b IH]; intros i Hi; cbn [omap list_omap length Docx.para_pos] in *.
  - lia.
  - destruct i as [|i]; [done|]. destruct (IH i) as [k ->]; [lia|done].
  - destruct (IH i) as [k ->]; [lia|done].
Qed.

Lemma length_paragraphs_rendered cs :
  length (Docx.paragraphs (map rendered cs)) = length cs.
Proof. induction cs as [|c cs IH]; cbn; [done|]. by rewrite <- IH. Qed.

Lemma paragraphs_tables region : Docx.paragraphs (tables region) = [].
Proof. induction region as [|[p|xml] region IH]; cbn; done. Qed.

Section AssemblerClaims.

Import Scenario.

Lemma scenario_placeholders pre post :
  Forall unmarked (Docx.paragraphs pre) ->
  find_placeholders
    (Docx.paragraphs
       (pre ++ [plain "START_CONTENT"; plain "OLD"; plain "END_CONTENT"] ++ post)) 0 None
  = (Some (length (Docx.paragraphs pre)), Some (length (Docx.paragraphs pre) + 2)).
Proof.
  intros Hpre. rewrite DocxFacts.paragraphs_app, find_placeholders_unmarked by done.
  rewrite DocxFacts.paragraphs_app.
  change (Docx.paragraphs [plain "START_CONTENT"; plain "OLD"; plain "END_CONTENT"])
    with [Docx.Paragraph None "START_CONTENT"; Docx.Paragraph None "OLD";
          Docx.Paragraph None "END_CONTENT"].
  cbn [app find_placeholders Docx.p_text].
  change (contains "START_CONTENT" "START_CONTENT") with true.
  change (contains "START_CONTENT" "OLD") with false.
  change (contains "END_CONTENT" "OLD") with false.
  change (contains "START_CONTENT" "END_CONTENT") with false.
  change (contains "END_CONTENT" "END_CONTENT") with true.
  cbv iota. do 2 f_equal. lia.
Qed.

(** The scenario of the specification in any surroundings: whatever stands
    before the start placeholder (without markers) and behind the end
    placeholder, the assembly erases the text of the inserted [P1] and leaves
    the text of [END_CONTENT]. *)
Lemma scenario_in_any_surroundings {L} pre post (l : L) st :
  Docx.body (doc st)
  = pre ++ [plain "START_CONTENT"; plain "OLD"; plain "END_CONTENT"] ++ post ->
  Forall unmarked (Docx.paragraphs pre) ->
  "Heading 1" ∈ Docx.style_names (doc st) ->
  "Normal" ∈ Docx.style_names (doc st) ->
  exists st',
    insert_content_between_placeholders scenario_content l st = (inr tt, l, st')
    /\ Docx.body (doc st')
       = pre ++ [plain ""; styled "Heading 1" "T"; styled "Normal" ""; plain "END_CONTENT"]
             ++ post.
Proof.
  intros Hbody Hpre Hh Hn.
  pose proof (assembly_exact pre (Docx.Paragraph None "START_CONTENT") [plain "OLD"]
                (Docx.Paragraph None "END_CONTENT") post scenario_content l st) as Hrun.
  cbv zeta in Hrun. rewrite Hrun; clear Hrun.
  2: exact Hbody. 2: exact Hpre. 2: reflexivity. 2: by repeat constructor.
  2: reflexivity. 2: by repeat constructor. 2: by repeat constructor.
  replace (length (Docx.paragraphs pre) + 1 + length (Docx.paragraphs [plain "OLD"]))
    with (length (Docx.paragraphs pre) + 2) by (cbn; lia).
  rewrite DocxFacts.para_pos_app. cbn [fmap option_fmap option_map Docx.para_pos
    cleared map scenario_content rendered styled app].
  rewrite DocxFacts.alter_behind.
  eexists. split; [reflexivity|]. reflexivity.
Qed.

(** C1. On the scenario of the specification (template
    [..., START_CONTENT, OLD, END_CONTENT, ...], content
    [Heading T, Paragraph P1]) the code succeeds, removes [OLD], inserts the
    two blocks in forward order and clears the start placeholder.  It then
    clears the paragraph found at the index the end placeholder had before
    the region changed: that is the inserted [P1], whose text is lost, and
    [END_CONTENT] keeps its text.  The result is not the expected one. *)
Theorem C1_scenario_stale_end_index :
  outcome_and_body
    (insert_content_between_placeholders scenario_content tt
       (state_of scenario_template usual_styles))
  = (inr tt,
     [plain "Intro"; plain ""; styled "Heading 1" "T"; styled "Normal" "";
      plain "END_CONTENT"; plain "Outro"])
  /\ [plain "Intro"; plain ""; styled "Heading 1" "T"; styled "Normal" "";
      plain "END_CONTENT"; plain "Outro"] <> scenario_expected.
Proof. split; [vm_compute; reflexivity | discriminate]. Qed.

(** C2. With an empty content list on the template
    [START_CONTENT, OLD, END_CONTENT, FOOTER] the code succeeds and clears
    [FOOTER], the paragraph behind the end placeholder, while [END_CONTENT]
    keeps its text: an element outside the region is modified.  The same
    happens with the one block of an article that has only its title, on
    a template with two paragraphs in the region. *)
Theorem C2_footer_outside_region_cleared :
  outcome_and_body
    (insert_content_between_placeholders [] tt (state_of footer_template usual_styles))
  = (inr tt, [plain ""; plain "END_CONTENT"; plain ""])
  /\ drop 3 footer_template = [plain "FOOTER"]
  /\ drop 2 [plain ""; plain "END_CONTENT"; plain ""] <> [plain "FOOTER"]
  /\ outcome_and_body
       (insert_content_between_placeholders [Content heading "T"] tt
          (state_of two_old_template usual_styles))
     = (inr tt, [plain ""; styled "Heading 1" "T"; plain "END_CONTENT"; plain ""])
  /\ drop 4 two_old_template = [plain "FOOTER"].
Proof.
  split; [vm_compute; reflexivity |].
  split; [reflexivity |]. split; [discriminate |].
  split; [vm_compute; reflexivity | reflexivity].
Qed.

(** C8, as stated, fails: in a document that has neither [List Bullet] nor
    [Normal], the fallback raises too; no element of style [Normal] is
    inserted and the error ends the assembly. *)
Lemma C8_fallback_needs_normal :
  ~ list_item_degrades ["Heading 1"] empty_region_template 0 "• a"
  /\ outcome_and_body
       (insert_content_between_placeholders [Content list_item "• a"] tt
          (state_of empty_region_template ["Heading 1"]))
     = (inl (KeyError "no style with name 'Normal'"),
        [plain "START_CONTENT"; plain "END_CONTENT"; plain "• a"; plain "• a"]).
Proof.
  split; [|vm_compute; reflexivity].
  intros Hclaim. destruct Hclaim as (st' & Hrun & _); [compute_done|].
  vm_compute in Hrun. discriminate.
Qed.

(** C8, amended.  A template with one start and one end placeholder and no
    marker before them or between them, whose styles lack [List Bullet] and
    have [Normal] and the styles the other blocks ask for; a content list
    whose texts python-docx takes.  The assembly logs one warning per list
    item and leaves, behind the start placeholder and in the order of the
    list, one element per block: a list item as an element of style [Normal]
    that reads back the text of the block, bullet included, every other
    block as with [List Bullet] present.  No block is dropped.  The paragraph
    each failed first attempt had appended stays at the end of the body.
    The last line of the assembly then empties the paragraph at the index
    the end placeholder had at the start ([stale]), whichever paragraph that
    is by then, and raises if there is none. *)
Theorem C8_list_item_falls_back_to_normal {L} pre start region end_ post content
    (l : L) st :
  Docx.body (doc st) = pre ++ Docx.BPara start :: region ++ Docx.BPara end_ :: post ->
  Forall unmarked (Docx.paragraphs pre) -> has_start start = true ->
  Forall unmarked (Docx.paragraphs region) -> ends_search end_ = true ->
  "List Bullet" ∉ Docx.style_names (doc st) ->
  "Normal" ∈ Docx.style_names (doc st) ->
  Forall writable content ->
  Forall (fun c => c_type c <> list_item ->
                   style_of (c_type c) ∈ Docx.style_names (doc st)) content ->
  let placed :=
    pre ++ cleared start :: map degraded content ++ tables region
        ++ Docx.BPara end_ :: post ++ leftovers (rev content) in
  let stale := length (Docx.paragraphs pre) + 1 + length (Docx.paragraphs region) in
  let in_range := bool_decide (stale < length (Docx.paragraphs placed)) in
  exists st',
    insert_content_between_placeholders content l st
    = (if in_range then inr tt else inl (IndexError "list index out of range"), l, st')
    /\ Docx.body (doc st') = emptied_at stale placed
    /\ log st'
       = log st ++ inserting_info :: fallback_warnings (rev content)
               ++ (if in_range then [] else [index_error]).
Proof.
  intros Hbody Hpre Hs Hregion He Hmiss Hnormal Hok Hstyles placed stale in_range.
  rewrite (assembly_degraded pre start region end_ post) by done.
  fold placed stale. unfold emptied_at. subst in_range.
  case_bool_decide as Hrange.
  - destruct (para_pos_is_Some placed stale Hrange) as [k ->].
    eexists. split; [reflexivity|]. cbn. by rewrite app_nil_r.
  - rewrite para_pos_none by lia. eexists. split; [reflexivity|]. done.
Qed.

Lemma C8_witness :
  exists st',
    insert_content_between_placeholders
      [Content heading "T"; Content list_item "• a"; Content paragraph "P"] tt
      (state_of [plain "Intro"; plain "START_CONTENT"; plain "OLD1"; plain "OLD2";
                 plain "OLD3"; plain "END_CONTENT"; plain "Outro"] usual_styles)
    = (inr tt, tt, st')
    /\ Docx.body (doc st')
       = [plain "Intro"; plain ""; styled "Heading 1" "T"; styled "Normal" "• a";
          styled "Normal" "P"; plain ""; plain "Outro"; plain "• a"]
    /\ log st' = [inserting_info; fallback_warning].
Proof.
  apply (C8_list_item_falls_back_to_normal
           [plain "Intro"] (Docx.Paragraph None "START_CONTENT")
           [plain "OLD1"; plain "OLD2"; plain "OLD3"]
           (Docx.Paragraph None "END_CONTENT") [plain "Outro"]
           [Content heading "T"; Content list_item "• a"; Content paragraph "P"] tt
           (state_of [plain "Intro"; plain "START_CONTENT"; plain "OLD1"; plain "OLD2";
                      plain "OLD3"; plain "END_CONTENT"; plain "Outro"] usual_styles)).
  - reflexivity.
  - by repeat constructor.
  - reflexivity.
  - by repeat constructor.
  - reflexivity.
  - compute_done.
  - compute_done.
  - by repeat constructor.
  - compute_done.
Defined.

End AssemblerClaims.

(** ** URL discovery *)

Lemma add_events_nil st : add_events [] st = st.
Proof. destruct st. unfold add_events. cbn. by rewrite app_nil_r. Qed.

Lemma add_events_cons e es st : add_events es (add_event e st) = add_events (e :: es) st.
Proof. unfold add_events, add_event. cbn. by rewrite <-app_assoc. Qed.

Lemma collect_links_run h1s : forall acc st,
  for_each h1s collect_link acc st = (inr tt, acc ++ omap link_of h1s, st).
Proof.
  induction h1s as [|h1 h1s IH]; intros acc st.
  { cbn. mstep. by rewrite app_nil_r. }
  cbn [for_each omap list_omap]. cbv [mbind M_bind].
  unfold collect_link at 1, link_of at 1.
  destruct (Bs4.find "a" h1) as [a_tag|]; cbn; [|by rewrite IH].
  destruct (Bs4.get_href a_tag) as [href|]; cbn; [|by rewrite IH].
  destruct (negb _); cbn; mstep; rewrite IH; [|done].
  by rewrite <-app_assoc.
Qed.

Section Discovery.

Variable w : world.
Variable base_url : string.

Lemma fetch_page_ok page soup acc st :
  http_get w (page_url base_url page) = Some soup ->
  fetch_page w base_url page acc st
  = (inr tt, acc ++ page_links soup, add_event (EvHttpGet (page_url base_url page)) st).
Proof.
  intros Hget. unfold fetch_page, requests_get. mstep. rewrite Hget. cbn.
  apply collect_links_run.
Qed.

Lemma fetch_page_fails page acc st :
  http_get w (page_url base_url page) = None ->
  exists e, fetch_page w base_url page acc st
            = (inl e, acc, add_event (EvHttpGet (page_url base_url page)) st).
Proof.
  intros Hget. unfold fetch_page, requests_get. mstep. rewrite Hget. cbn. eauto.
Qed.

(** The loop over the pages stops at the first page that cannot be
    fetched. *)
Lemma fetch_pages_stop good : forall bad rest acc st,
  Forall (fun p => is_Some (http_get w (page_url base_url p))) good ->
  http_get w (page_url base_url bad) = None ->
  exists e, for_each (good ++ bad :: rest) (fetch_page w base_url) acc st
            = (inl e, acc ++ flat_map (links_at w base_url) good,
               add_events (map (fun p => EvHttpGet (page_url base_url p)) (good ++ [bad])) st).
Proof.
  induction good as [|p good IH]; intros bad rest acc st Hgood Hbad.
  - destruct (fetch_page_fails bad acc st Hbad) as (e & Hrun).
    exists e. cbn [app for_each]. cbv [mbind M_bind]. rewrite Hrun.
    cbn. by rewrite app_nil_r.
  - apply Forall_cons in Hgood as [[soup Hp] Hgood].
    destruct (IH bad rest (acc ++ page_links soup)
                (add_event (EvHttpGet (page_url base_url p)) st) Hgood Hbad) as (e & Hrun).
    exists e. cbn [app for_each]. cbv [mbind M_bind].
    rewrite (fetch_page_ok p soup acc st Hp), Hrun.
    cbn [flat_map map]. unfold links_at at 2. rewrite Hp.
    by rewrite add_events_cons, <-app_assoc.
Qed.

(** When every page can be fetched the loop collects the links of all. *)
Lemma fetch_pages_all ps : forall acc st,
  Forall (fun p => is_Some (http_get w (page_url base_url p))) ps ->
  for_each ps (fetch_page w base_url) acc st
  = (inr tt, acc ++ flat_map (links_at w base_url) ps,
     add_events (map (fun p => EvHttpGet (page_url base_url p)) ps) st).
Proof.
  induction ps as [|p ps IH]; intros acc st Hps.
  - cbn. mstep. by rewrite app_nil_r, add_events_nil.
  - apply Forall_cons in Hps as [[soup Hp] Hps].
    cbn [for_each]. cbv [mbind M_bind].
    rewrite (fetch_page_ok p soup acc st Hp), (IH _ _ Hps).
    cbn [flat_map map]. unfold links_at at 2. rewrite Hp.
    by rewrite add_events_cons, <-app_assoc.
Qed.

(** When every listing page from 1 to [pages] can be fetched, discovery
    returns the links of all of them, page by page in the order of the pages
    and, within a page, in the order of the document. *)
Lemma fetch_article_urls_all_pages {L} (pages : nat) (l : L) st :
  (forall j : nat, (1 <= j <= pages)%nat -> is_Some (http_get w (page_url base_url j))) ->
  exists st',
    fetch_article_urls w base_url pages l st
    = (inr (flat_map (links_at w base_url) (seq 1 pages)), l, st').
Proof.
  intros Hgood. unfold fetch_article_urls. mstep. unfold range.
  replace (pages + 1 - 1) with pages by lia.
  rewrite fetch_pages_all; [cbn; eauto|].
  apply Forall_forall. intros j Hj%elem_of_seq. apply Hgood. lia.
Qed.

(** C5, amended.  When page [k] is the first listing page that cannot be
    fetched, [fetch_article_urls] raises nothing and returns the links of the
    pages 1..k-1, in order; it has requested the pages 1..k and no page
    behind [k]. *)
Theorem C5_discovery_stops_at_first_failure {L} (pages k : nat) (l : L) st :
  (1 <= k <= pages)%nat ->
  (forall j : nat, (1 <= j < k)%nat -> is_Some (http_get w (page_url base_url j))) ->
  http_get w (page_url base_url k) = None ->
  exists st',
    fetch_article_urls w base_url pages l st
    = (inr (flat_map (links_at w base_url) (seq 1 (k - 1))), l, st')
    /\ trace st' = trace st ++ map (fun p => EvHttpGet (page_url base_url p)) (seq 1 k).
Proof.
  intros Hk Hgood Hbad.
  unfold fetch_article_urls. mstep. unfold range.
  replace (pages + 1 - 1) with ((k - 1) + S (pages - k)) by lia.
  rewrite seq_app. cbn [seq]. replace (1 + (k - 1)) with k by lia.
  set (st0 := add_log _ st).
  destruct (fetch_pages_stop (seq 1 (k - 1)) k (seq (S k) (pages - k)) [] st0) as (e & Hrun).
  { apply Forall_forall. intros j Hj%elem_of_seq. apply Hgood. lia. }
  { done. }
  rewrite Hrun. cbn. eexists; split; [reflexivity|].
  cbn. f_equal. replace k with ((k - 1) + 1) at 3 by lia.
  rewrite seq_app. cbn. do 3 f_equal. lia.
Qed.

End Discovery.

Section DiscoveryClaims.

Import Scenario.

(** C5, as stated, fails: with three listing pages of which the second
    cannot be fetched, the link of the third page is not returned and the
    third page is never requested. *)
Lemma C5_page_after_failure_not_fetched :
  ~ per_page_tolerant page2_down base 3
  /\ links_at page2_down base 3 = [a3]
  /\ outcome_and_trace (fetch_article_urls page2_down base 3 tt (initial_state []))
     = (inr [a1], [EvHttpGet base; EvHttpGet (base +:+ "page/2/")]).
Proof.
  split; [|split; vm_compute; reflexivity].
  intros Hclaim. destruct (Hclaim (initial_state [])) as (st' & Hrun).
  vm_compute in Hrun. discriminate.
Qed.

Lemma C5_witness :
  exists st',
    fetch_article_urls page2_down base 3 tt (initial_state [])
    = (inr (flat_map (links_at page2_down base) (seq 1 (2 - 1))), tt, st')
    /\ trace st'
       = trace (initial_state [])
         ++ map (fun p => EvHttpGet (page_url base p)) (seq 1 2).
Proof.
  apply (C5_discovery_stops_at_first_failure page2_down base 3 2 tt (initial_state [])).
  - lia.
  - intros j Hj. assert (j = 1) as -> by lia. vm_compute. eauto.
  - vm_compute. reflexivity.
Defined.

End DiscoveryClaims.

(** ** The dedup filter *)

Section Dedup.

Variable w : world.

(** One round of the loop either leaves [new_urls] and the collection as
    they are, or accepts a URL that the collection does not hold and inserts
    it, unless the insertion raises. *)
Lemma check_url_cases url acc st :
  exists r acc' st', check_url w url acc st = (r, acc', st') /\
    ((acc' = acc /\ collection st' = collection st)
     \/ ((url ∉ collection st) /\ acc' = (acc ++ [url]) /\
         ((r = inr tt /\ collection st' = (collection st ++ [url]))
          \/ ((exists e, r = inl e) /\ collection st' = collection st)))).
Proof.
  unfold check_url.
  destruct (contains _ url).
  { do 3 eexists; split; [reflexivity|]. by left. }
  unfold find_one, insert_one. mstep.
  destruct (mongo_raises w (mongo_ops st)); mstep.
  { do 3 eexists; split; [reflexivity|]. by left. }
  case_bool_decide as Hin; mstep.
  { do 3 eexists; split; [reflexivity|]. by left. }
  destruct (mongo_raises w (S (mongo_ops st))); mstep.
  - do 3 eexists; split; [reflexivity|]. right. eauto 10.
  - do 3 eexists; split; [reflexivity|]. right. eauto 10.
Qed.

(** The invariant of the loop: [new_urls] has no duplicates and, as long as
    the loop runs, the collection holds each of its elements. *)
Lemma check_loop_inv urls : forall acc st,
  NoDup acc -> (forall x, x ∈ acc -> x ∈ collection st) ->
  exists r acc' st', for_each urls (check_url w) acc st = (r, acc', st') /\
    NoDup acc' /\
    (forall x, x ∈ acc' -> x ∈ acc \/ (x ∈ urls /\ x ∉ collection st)).
Proof.
  induction urls as [|url urls IH]; intros acc st Hnd Hsub.
  { do 3 eexists; split; [reflexivity|]. split; [done|]. auto. }
  destruct (check_url_cases url acc st) as (r & acc1 & st1 & Hrun & Hcase).
  cbn [for_each]. cbv [mbind M_bind]. rewrite Hrun.
  destruct Hcase as [[-> Hcol] | (Hnot & -> & [[-> Hcol] | [[e ->] Hcol]])].
  - destruct r as [e|[]].
    + do 3 eexists; split; [reflexivity|]. split; [done|]. auto.
    + destruct (IH acc st1) as (r' & acc' & st' & Hrun' & Hnd' & Hnew).
      { done. } { rewrite Hcol. done. }
      do 3 eexists; split; [exact Hrun'|]. split; [done|].
      intros x Hx. destruct (Hnew x Hx) as [?|[? ?]]; [by left|right].
      rewrite Hcol in *. split; [by right|done].
  - assert (NoDup (acc ++ [url])) as Hnd1.
    { apply NoDup_app. split_and!; [done| |apply NoDup_singleton].
      intros x Hx ->%list_elem_of_singleton. by apply Hnot, Hsub. }
    destruct (IH (acc ++ [url]) st1) as (r' & acc' & st' & Hrun' & Hnd' & Hnew).
    { done. }
    { rewrite Hcol. intros x [?|?]%elem_of_app; apply elem_of_app; auto. }
    do 3 eexists; split; [exact Hrun'|]. split; [done|].
    intros x Hx.
    destruct (Hnew x Hx) as [[?| ->%list_elem_of_singleton]%elem_of_app|[? Hx']].
    + by left.
    + right. split; [by left|done].
    + right. split; [by right|]. rewrite Hcol in Hx'.
      intros ?. apply Hx', elem_of_app. auto.
  - do 3 eexists; split; [reflexivity|]. split.
    { apply NoDup_app. split_and!; [done| |apply NoDup_singleton].
      intros x Hx ->%list_elem_of_singleton. by apply Hnot, Hsub. }
    intros x [?| ->%list_elem_of_singleton]%elem_of_app; [by left|].
    right. split; [by left|done].
Qed.

(** [check_and_insert_urls] always returns: a list without duplicates of
    candidates that the collection did not hold. *)
Lemma check_and_insert_urls_returns {L} urls (l : L) st :
  exists new_urls st', check_and_insert_urls w urls l st = (inr new_urls, l, st') /\
    NoDup new_urls /\
    (forall x, x ∈ new_urls -> x ∈ urls /\ x ∉ collection st).
Proof.
  unfold check_and_insert_urls. mstep.
  set (st0 := add_log _ st).
  destruct (check_loop_inv urls [] st0) as (r & acc & st1 & Hrun & Hnd & Hnew).
  { apply NoDup_nil_2. } { by intros x ?%elem_of_nil. }
  rewrite Hrun.
  assert (forall x, x ∈ acc -> x ∈ urls /\ x ∉ collection st) as Hnew'.
  { intros x Hx. destruct (Hnew x Hx) as [?%elem_of_nil|?]; done. }
  destruct r as [e|[]]; cbn; eauto.
Qed.

(** C9.  A URL that the dedup store holds when the filter starts is not in
    the list of new URLs the filter returns, whatever the candidate list is
    and however often the URL occurs in it; and the filter returns, whatever
    the store operations do. *)
Theorem C9_stored_url_not_reselected {L} urls (l : L) st u :
  u ∈ collection st ->
  exists new_urls st',
    check_and_insert_urls w urls l st = (inr new_urls, l, st') /\ u ∉ new_urls.
Proof.
  intros Hu.
  destruct (check_and_insert_urls_returns urls l st) as (new & st' & Hrun & _ & Hnew).
  exists new, st'. split; [done|]. intros Hin. by destruct (Hnew u Hin).
Qed.

(** C10.  For every candidate list, with repetitions or not, the list of
    new URLs the filter returns holds each URL at most once. *)
Theorem C10_new_urls_without_duplicates {L} urls (l : L) st :
  exists new_urls st',
    check_and_insert_urls w urls l st = (inr new_urls, l, st') /\ NoDup new_urls.
Proof.
  destruct (check_and_insert_urls_returns urls l st) as (new & st' & Hrun & Hnd & _).
  eauto.
Qed.

End Dedup.

Section DedupClaims.

Import Scenario.

Lemma C9_witness :
  exists new_urls st',
    check_and_insert_urls always_times_out [a1; a2; a1; a2] tt (initial_state [a1])
    = (inr new_urls, tt, st')
    /\ a1 ∉ new_urls.
Proof.
  apply (C9_stored_url_not_reselected always_times_out [a1; a2; a1; a2] tt
           (initial_state [a1]) a1).
  compute_done.
Defined.

(** The filter on a candidate list with repetitions. *)
Example check_and_insert_urls_repeated :
  (check_and_insert_urls always_times_out [a1; a2; a1; a2; a3; a2] tt
     (initial_state [a1])).1.1
  = inr [a2; a3].
Proof. vm_compute. reflexivity. Qed.

End DedupClaims.

(** ** The content extractor *)

Lemma for_each_snoc {A B} (f : A -> B) (xs : list A) (acc : list B) st :
  for_each xs (fun x => modify_local (fun l => l ++ [f x])) acc st
  = (inr tt, acc ++ map f xs, st).
Proof.
  revert acc. induction xs as [|x xs IH]; intros acc.
  - cbn. mstep. by rewrite app_nil_r.
  - cbn [for_each]. mstep. rewrite IH. by rewrite <-app_assoc.
Qed.

(** A child of the main content adds no block of type [heading]. *)
Lemma scrape_tag_appends tag acc st :
  exists new, scrape_tag tag acc st = (inr tt, acc ++ new, st)
              /\ Forall (fun c => c_type c <> heading) new.
Proof.
  unfold scrape_tag.
  destruct (match Bs4.get_class tag with Some cls => _ | None => _ end).
  { exists []. by rewrite app_nil_r. }
  repeat (case_match; [eexists [_]; split; [reflexivity|]; by repeat constructor|]).
  case_match.
  - rewrite for_each_snoc. eexists; split; [reflexivity|].
    apply Forall_map, Forall_true. done.
  - exists []. by rewrite app_nil_r.
Qed.

Lemma scrape_children_append tags : forall acc st,
  exists new, for_each tags scrape_tag acc st = (inr tt, acc ++ new, st)
              /\ Forall (fun c => c_type c <> heading) new.
Proof.
  induction tags as [|tag tags IH]; intros acc st.
  { exists []. by rewrite app_nil_r. }
  destruct (scrape_tag_appends tag acc st) as (new1 & Hrun1 & Hnew1).
  destruct (IH (acc ++ new1) st) as (new2 & Hrun2 & Hnew2).
  exists (new1 ++ new2). cbn [for_each]. cbv [mbind M_bind].
  rewrite Hrun1, Hrun2, <-app_assoc. split; [done|]. by apply Forall_app.
Qed.

Lemma scrape_soup_cases soup st :
  match article_title soup with
  | Some title =>
      exists rest, scrape_soup soup [] st = (inr tt, Content heading title :: rest, st)
                   /\ Forall (fun c => c_type c <> heading) rest
  | None => exists e, scrape_soup soup [] st = (inl e, [], st)
  end.
Proof.
  unfold article_title, scrape_soup.
  destruct (Bs4.find_class _ _ soup) as [main_content|]; cbn; [|by eexists].
  destruct (Bs4.find_id _ _ main_content) as [heading_tag|]; cbn; [|by eexists].
  mstep.
  destruct (scrape_children_append (Bs4.child_tags main_content)
              [Content heading (Bs4.get_text heading_tag)] st) as (rest & Hrun & Hrest).
  rewrite Hrun. eauto.
Qed.

Section Extractor.

Variable w : world.

(** The extractor never raises.  It returns the empty list when the page
    cannot be fetched or has no main content or no title, and otherwise the
    title followed by blocks of other types; it touches neither the
    collection nor the document. *)
Lemma scrape_and_get_content_cases {L} url (l : L) st :
  exists content_list st',
    scrape_and_get_content w url l st = (inr content_list, l, st') /\
    collection st' = collection st /\ doc st' = doc st /\
    trace st' = trace st ++ [EvHttpGet url] /\
    match http_get w url ≫= article_title with
    | Some title =>
        exists rest, content_list = Content heading title :: rest
                     /\ Forall (fun c => c_type c <> heading) rest
    | None => content_list = []
    end.
Proof.
  unfold scrape_and_get_content, requests_get. mstep.
  destruct (http_get w url) as [soup|]; cbn.
  - set (st1 := add_event _ _).
    pose proof (scrape_soup_cases soup st1) as Hsoup.
    destruct (article_title soup) as [title|].
    + destruct Hsoup as (rest & -> & Hrest). cbn. eauto 10.
    + destruct Hsoup as (e & ->). cbn. eauto 10.
  - eauto 10.
Qed.

(** C7.  The extractor returns for every URL; a list it returns is empty,
    or starts with a block of type [heading] that carries the title of the
    article page and has no other block of type [heading]. *)
Theorem C7_heading_first_and_only {L} url (l : L) st :
  exists content_list st',
    scrape_and_get_content w url l st = (inr content_list, l, st') /\
    (content_list = [] \/
     exists soup title rest,
       http_get w url = Some soup /\ article_title soup = Some title /\
       content_list = Content heading title :: rest /\
       Forall (fun c => c_type c <> heading) rest).
Proof.
  destruct (scrape_and_get_content_cases url l st)
    as (content_list & st' & Hrun & _ & _ & _ & Hcase).
  exists content_list, st'. split; [done|].
  destruct (http_get w url) as [soup|]; cbn in Hcase; [|by left].
  destruct (article_title soup) as [title|] eqn:Htitle; [|by left].
  destruct Hcase as (rest & -> & Hrest). right. eauto 10.
Qed.

End Extractor.

(** ** Computations that do not reach the publisher *)

Section NoSend.

Context {L : Type}.

Lemma no_send_ret {A} (x : A) : no_send (mret x : M L A).
Proof. done. Qed.

Lemma no_send_raise {A} e : no_send (raise e : M L A).
Proof. done. Qed.

Lemma no_send_gets {A} (f : state -> A) : no_send (gets f : M L A).
Proof. done. Qed.

Lemma no_send_get_local : no_send (get_local : M L L).
Proof. done. Qed.

Lemma no_send_modify_local f : no_send (modify_local f : M L unit).
Proof. done. Qed.

Lemma no_send_modify f :
  (forall st, sends (f st) = sends st) -> no_send (modify f : M L unit).
Proof. intros Hf l st. apply Hf. Qed.

Lemma no_send_logger lv msg : no_send (logger lv msg : M L unit).
Proof. done. Qed.

Lemma no_send_bind {A B} (m : M L A) (f : A -> M L B) :
  no_send m -> (forall x, no_send (f x)) -> no_send (m ≫= f).
Proof.
  intros Hm Hf l st. specialize (Hm l st). cbv [mbind M_bind].
  destruct (m l st) as [[[e|x] l'] st']; cbn in *; [done|].
  by rewrite Hf.
Qed.

Lemma no_send_try {A} (m : M L A) handler :
  no_send m -> (forall e h, handler e = Some h -> no_send h) -> no_send (try_ m handler).
Proof.
  intros Hm Hh l st. specialize (Hm l st). unfold try_.
  destruct (m l st) as [[[e|x] l'] st']; cbn in *; [|done].
  destruct (handler e) as [h|] eqn:He; [|done].
  by rewrite (Hh e h He).
Qed.

Lemma no_send_except {A} sel (h : exn -> M L A) e h' :
  (forall e, no_send (h e)) -> except sel h e = Some h' -> no_send h'.
Proof. unfold except. intros Hh. destruct (sel e); naive_solver. Qed.

End NoSend.

Lemma no_send_with_locals {L L' A} (init : L') (m : M L' A) :
  no_send m -> no_send (with_locals init m : M L A).
Proof.
  intros Hm l st. specialize (Hm init st). unfold with_locals.
  by destruct (m init st) as [[r l'] st'].
Qed.

Create HintDb no_send discriminated.

#[export] Hint Resolve no_send_ret no_send_raise no_send_gets no_send_get_local
  no_send_modify_local no_send_logger no_send_bind no_send_with_locals : no_send.

Lemma no_send_for_each {L A} (xs : list A) (body : A -> M L unit) :
  (forall x, no_send (body x)) -> no_send (for_each xs body).
Proof.
  intros Hbody. induction xs as [|x xs IH]; cbn [for_each]; auto with no_send.
Qed.

(** Takes a computation apart down to the calls into the libraries. *)
Ltac no_send_step :=
  first
    [ apply no_send_bind | apply no_send_try | apply no_send_for_each
    | apply no_send_with_locals | apply no_send_ret | apply no_send_raise
    | apply no_send_gets | apply no_send_get_local | apply no_send_modify_local
    | apply no_send_logger | apply no_send_modify; intros []; reflexivity
    | eapply no_send_except; [|eassumption]
    | progress intros
    | match goal with
      | |- no_send (match ?x with _ => _ end) => destruct x
      | |- no_send (if ?b then _ else _) => destruct b
      end ].

Ltac no_send := repeat no_send_step.

Section NoSendFunctions.

Variable w : world.
Context {L : Type}.

Lemma no_send_fetch_article_urls base_url pages :
  no_send (fetch_article_urls w base_url pages : M L _).
Proof.
  unfold fetch_article_urls, logger_exception, fetch_page, collect_link, requests_get.
  no_send.
Qed.

Lemma no_send_check_and_insert_urls urls :
  no_send (check_and_insert_urls w urls : M L _).
Proof.
  unfold check_and_insert_urls, logger_exception, check_url, find_one, insert_one.
  no_send.
Qed.

Lemma no_send_scrape_and_get_content url :
  no_send (scrape_and_get_content w url : M L _).
Proof.
  unfold scrape_and_get_content, logger_exception, scrape_soup, scrape_tag, requests_get.
  no_send.
Qed.

Lemma no_send_insert_content content_list :
  no_send (insert_content_between_placeholders content_list : M L _).
Proof.
  unfold insert_content_between_placeholders, logger_exception, insert_block,
    add_heading, add_paragraph, assign_style, paragraphs_getitem, remove_element,
    addnext, assign_text, write_text.
  no_send.
Qed.

Lemma no_send_download_template url :
  no_send (download_template w url : M L _).
Proof. unfold download_template, logger_exception. no_send. Qed.

Lemma no_send_convert docx_path pdf_path :
  no_send (convert_docx_to_pdf w docx_path pdf_path : M L _).
Proof. unfold convert_docx_to_pdf, logger_exception, os_rename. no_send. Qed.

Lemma no_send_rename_pdf pdf_path new_name :
  no_send (rename_pdf w pdf_path new_name : M L _).
Proof. unfold rename_pdf, logger_exception, os_rename. no_send. Qed.

End NoSendFunctions.

Lemma no_send_extract_article w url : no_send (extract_article w url).
Proof.
  unfold extract_article. apply no_send_bind; [apply no_send_scrape_and_get_content|].
  no_send.
Qed.

Lemma no_send_main_prepare w new_urls template_url :
  no_send (main_prepare w new_urls template_url).
Proof.
  unfold main_prepare.
  apply no_send_bind; [apply no_send_download_template|]. intros template.
  apply no_send_bind; [apply no_send_modify; by intros []|]. intros _.
  apply no_send_bind; [apply no_send_for_each, no_send_extract_article|]. intros _.
  apply no_send_bind; [apply no_send_get_local|]. intros [all_content titles].
  apply no_send_bind; [apply no_send_insert_content|]. intros _.
  apply no_send_bind; [apply no_send_modify; by intros []|]. intros _.
  apply no_send_bind; [apply no_send_convert|]. intros _.
  apply no_send_bind; [apply no_send_rename_pdf|]. intros renamed.
  apply no_send_ret.
Qed.

(** ** The settings of a run *)

Section Settings.

Variable w : world.

(** Discovery and the filter return, and what they return and leave does
    not depend on the local variables of the caller. *)
Lemma fetch_article_urls_returns base_url pages st :
  exists urls st', forall L (l : L),
    fetch_article_urls w base_url pages l st = (inr urls, l, st').
Proof.
  unfold fetch_article_urls. mstep.
  destruct (for_each _ _ [] _) as [[[e|[]] acc] st1]; cbn; eauto.
Qed.

Lemma check_and_insert_urls_returns_any urls st :
  exists new_urls st', forall L (l : L),
    check_and_insert_urls w urls l st = (inr new_urls, l, st').
Proof.
  unfold check_and_insert_urls. mstep.
  destruct (for_each _ _ [] _) as [[[e|[]] acc] st1]; cbn; eauto.
Qed.

(** C6, amended.  Only the three database settings are checked before any
    work: if one is absent the script logs the error and ends at once in a
    configuration error; if they are there and the set-up of the collection
    refuses one of them, the script ends at once in the error of pymongo,
    with nothing logged.  In both cases nothing has been requested and the
    collection is as it was.  Otherwise discovery and the dedup filter run
    first.  With no new URL the run then ends well, whatever else is absent.
    With a new URL and no template address, the run ends in a configuration
    error right after the filter: nothing is downloaded, extracted or
    assembled, and what the filter wrote into the collection stays there.
    With a new URL, the template address and a publisher setting absent, the
    template is downloaded, the articles are extracted and the document is
    assembled, converted and renamed first; if one of these steps raises,
    the run ends in its error, and if they all succeed the run ends in a
    configuration error; in either case nothing was uploaded. *)
Theorem C6_settings_checked_where_used (stored : list string) :
  (db_settings_present w = false ->
   run w stored = (inl db_settings_error, add_log db_error (initial_state stored)))
  /\ (db_settings_present w = true -> forall e, db_setup_error w = Some e ->
      run w stored = (inl e, initial_state stored))
  /\ (db_settings_present w = true -> db_setup_error w = None ->
      exists article_urls st1 new_urls st2,
        fetch_article_urls w base 3 tt (started stored) = (inr article_urls, tt, st1)
        /\ check_and_insert_urls w article_urls tt st1 = (inr new_urls, tt, st2)
        /\ (new_urls = [] ->
            run w stored = (inr tt, add_log finished (add_log no_new_urls st2)))
        /\ (new_urls <> [] -> template_setting_present w = false ->
            run w stored = (inl template_setting_error, failed_setting template_setting_error st2))
        /\ (new_urls <> [] -> template_setting_present w = true ->
            publisher_settings_present w = false ->
            exists r locals st3,
              main_prepare w new_urls (default "" (environ w !! "TEMPLATE_URL")) ([], []) st2
              = (r, locals, st3)
              /\ sends st3 = 0
              /\ run w stored
                 = match r with
                   | inr _ =>
                       (inl publisher_settings_error,
                        failed_setting publisher_settings_error st3)
                   | inl e => (inl e, add_log (main_error e) st3)
                   end)).
Proof.
  split; [|split].
  - intros Hdb. unfold run, script. fold (db_settings_present w). rewrite Hdb. by mstep.
  - intros Hdb e He. unfold run, script, MongoClient, client_getitem, db_getitem.
    fold (db_settings_present w). rewrite Hdb. unfold db_setup_error in He. mstep.
    destruct (mongo_client_error w _); [by injection He as ->|]. cbn.
    destruct (mongo_database_error w _); [by injection He as ->|]. cbn.
    by rewrite He.
  - intros Hdb Hsetup.
    destruct (fetch_article_urls_returns base 3 (started stored))
      as (article_urls & st1 & Hfetch).
    destruct (check_and_insert_urls_returns_any article_urls st1)
      as (new_urls & st2 & Hcheck).
    exists article_urls, st1, new_urls, st2.
    split; [apply Hfetch|]. split; [apply Hcheck|].
    assert (sends st2 = 0) as Hsends.
    { pose proof (no_send_check_and_insert_urls w article_urls tt st1) as H2.
      pose proof (no_send_fetch_article_urls w base 3 tt (started stored)) as H1.
      rewrite Hcheck in H2. rewrite Hfetch in H1. cbn in H1, H2. congruence. }
    assert (forall r st',
              main w tt (started stored) = (r, tt, st') ->
              run w stored
              = (match r with inr _ => inr tt | inl e => inl e end,
                 match r with inr _ => add_log finished st' | inl _ => st' end)) as Hrun.
    { intros r st' Hmain. unfold run, script, MongoClient, client_getitem, db_getitem.
      fold (db_settings_present w). rewrite Hdb. unfold db_setup_error in Hsetup.
      destruct (mongo_client_error w _); [done|].
      destruct (mongo_database_error w _); [done|]. rewrite Hsetup.
      mstep. fold (started stored). rewrite Hmain. by destruct r as [e|[]]. }
    assert (forall r locals st',
              (match new_urls with
               | [] => logger INFO "No new URLs found to process"
               | _ :: _ =>
                   (if template_setting_present w then mret tt
                    else logger ERROR "TEMPLATE_URL environment variable is not set";;
                         raise template_setting_error);;
                   '(tmp_docx, renamed_pdf_path) ←
                     main_prepare w new_urls (default "" (environ w !! "TEMPLATE_URL"));
                   main_publish w tmp_docx renamed_pdf_path
               end) ([], []) st2 = (r, locals, st') ->
              main w tt (started stored)
              = (r, tt, match r with
                        | inr _ => st'
                        | inl e => add_log (main_error e) st'
                        end)) as Hmain.
    { intros r locals st' Hbody. unfold main, main_body, with_locals, try_.
      fold base. cbv [mbind M_bind]. rewrite Hfetch, Hcheck.
      unfold template_setting_present, template_setting_error in Hbody.
      cbv [mbind M_bind] in Hbody. rewrite Hbody. by destruct r as [e|[]]. }
    split; [|split].
    + intros ->. by rewrite (Hrun _ _ (Hmain _ _ _ eq_refl)).
    + intros Hne Htpl. destruct new_urls as [|url new_urls]; [done|].
      rewrite (Hrun (inl template_setting_error) (failed_setting template_setting_error st2));
        [done|].
      rewrite (Hmain (inl template_setting_error) ([], [])
                 (add_log (error_record (exn_str template_setting_error)) st2)); [done|].
      rewrite Htpl. by mstep.
    + intros Hne Htpl Hpub. destruct new_urls as [|url new_urls]; [done|].
      remember (url :: new_urls) as urls eqn:Hurls.
      destruct (main_prepare w urls (default "" (environ w !! "TEMPLATE_URL")) ([], []) st2)
        as [[r locals] st3] eqn:Hprep.
      exists r, locals, st3. split; [done|].
      assert (sends st3 = 0) as Hsends3.
      { pose proof (no_send_main_prepare w urls (default "" (environ w !! "TEMPLATE_URL"))
                      ([], []) st2) as Hns.
        rewrite Hprep in Hns. cbn in Hns. congruence. }
      split; [done|].
      destruct r as [e|[tmp_docx renamed]].
      * rewrite (Hrun (inl e) (add_log (main_error e) st3)); [done|].
        rewrite (Hmain (inl e) locals st3); [done|].
        rewrite Hurls, Htpl. cbv [mbind M_bind mret M_ret]. rewrite <- Hurls, Hprep. done.
      * rewrite (Hrun (inl publisher_settings_error)
                   (failed_setting publisher_settings_error st3)); [done|].
        rewrite (Hmain (inl publisher_settings_error) locals
                   (add_log (error_record (exn_str publisher_settings_error)) st3)); [done|].
        rewrite Hurls, Htpl. cbv [mbind M_bind mret M_ret]. rewrite <- Hurls, Hprep.
        unfold main_publish. fold (publisher_settings_present w). rewrite Hpub. by mstep.
Qed.

End Settings.

Section SettingsClaims.

Import Scenario.

(** C6, as stated, fails: with every setting but the template address and
    one new article on the listing, the run ends in a configuration error
    only after the three listing pages were requested and the new URL was
    recorded in the collection. *)
Lemma C6_template_setting_checked_late :
  ~ checks_settings_first no_template_setting []
  /\ (let '(r, st) := run no_template_setting [] in
      (r, trace st, collection st))
     = (inl (ValueError "TEMPLATE_URL environment variable is not set"),
        [EvHttpGet base; EvHttpGet (base +:+ "page/2/"); EvHttpGet (base +:+ "page/3/");
         EvFindOne a1; EvInsertOne a1],
        [a1]).
Proof.
  split; [|vm_compute; reflexivity].
  intros Hclaim. destruct Hclaim as (msg & st & Hrun & Htrace & _).
  { vm_compute. reflexivity. }
  vm_compute in Hrun. injection Hrun as _ <-. discriminate Htrace.
Qed.

(** The amended statement on that run, and on a run with every setting but
    the token of the publisher: the run ends in the configuration error
    after the document was converted and renamed, with nothing uploaded. *)
Lemma C6_witness :
  (exists st',
     run no_template_setting [] = (inl template_setting_error, st')
     /\ trace st'
        = [EvHttpGet base; EvHttpGet (base +:+ "page/2/"); EvHttpGet (base +:+ "page/3/");
           EvFindOne a1; EvInsertOne a1]
     /\ collection st' = [a1])
  /\ (exists st',
        run no_bot_token [] = (inl publisher_settings_error, st')
        /\ sends st' = 0
        /\ trace st'
           = [EvHttpGet base; EvHttpGet (base +:+ "page/2/"); EvHttpGet (base +:+ "page/3/");
              EvFindOne a1; EvInsertOne a1;
              EvDownload "https://docs.example/d/1/export?format=docx";
              EvHttpGet a1;
              EvSaveDocx "/tmp/tmpabc.docx";
              EvLibreOffice "/tmp/tmpabc.docx" "/tmp";
              EvRename "/tmp/tmpabc.pdf" "/tmp/tmpabc.pdf";
              EvRename "/tmp/tmpabc.pdf" "/tmp/03-11-2026 Current Affairs.pdf"]
        /\ collection st' = [a1]).
Proof.
  split.
  - destruct (C6_settings_checked_where_used no_template_setting []) as (_ & _ & H).
    destruct (H ltac:(vm_compute; reflexivity) ltac:(vm_compute; reflexivity))
      as (urls & st1 & new & st2 & Hf & Hc & _ & Ht & _).
    vm_compute in Hf. injection Hf as <- <-.
    vm_compute in Hc. injection Hc as <- <-.
    rewrite Ht; [|discriminate|vm_compute; reflexivity].
    eexists. split; [reflexivity|]. vm_compute. done.
  - destruct (C6_settings_checked_where_used no_bot_token []) as (_ & _ & H).
    destruct (H ltac:(vm_compute; reflexivity) ltac:(vm_compute; reflexivity))
      as (urls & st1 & new & st2 & Hf & Hc & _ & _ & Hp).
    vm_compute in Hf. injection Hf as <- <-.
    vm_compute in Hc. injection Hc as <- <-.
    destruct Hp as (r & locals & st3 & Hprep & _ & Hrun);
      [discriminate|vm_compute; reflexivity|vm_compute; reflexivity|].
    vm_compute in Hprep. injection Hprep as <- <- <-.
    rewrite Hrun. eexists. split; [reflexivity|]. vm_compute. done.
Defined.

End SettingsClaims.

(** ** The orchestrator on whole runs *)

Section OrchestratorClaims.

Import Scenario.

(** [send_pdf_to_telegram] gives up without an error: when the three
    uploads of the loop time out, it returns, whatever a further upload
    would do. *)
Lemma send_pdf_to_telegram_gives_up w {L} pdf_path bot_token channel_id caption (l : L) st :
  publisher_ready w pdf_path bot_token ->
  (forall n : nat, (n < 3)%nat -> send_document w (sends st + n) = SendTimedOut) ->
  exists st',
    send_pdf_to_telegram w pdf_path bot_token channel_id caption l st = (inr tt, l, st')
    /\ sends st' = sends st + 3.
Proof.
  intros [Hbot Hopen] Hout. unfold send_pdf_to_telegram, range. cbn [seq Nat.sub].
  cbn [send_rounds]. unfold bot_send_document, telegram_Bot, open_rb.
  rewrite Hbot, Hopen. mstep.
  pose proof (Hout 0 ltac:(lia)) as H0. rewrite Nat.add_0_r in H0. rewrite H0. cbn.
  pose proof (Hout 1 ltac:(lia)) as H1. rewrite Nat.add_1_r in H1. rewrite H1. cbn.
  pose proof (Hout 2 ltac:(lia)) as H2.
  replace (sends st + 2) with (S (S (sends st))) in H2 by lia. rewrite H2. cbn.
  eexists; split; [reflexivity|]. cbn. lia.
Qed.

(** C3.  When every upload times out, the run makes three uploads, each
    followed by a pause of five seconds, and then goes on: it removes the
    two files and ends without an error.  A publisher whose fourth upload
    would succeed gives the very same run: there is no fourth upload. *)
Theorem C3_run_ends_well_after_three_timeouts :
  (let '(r, st) := run always_times_out [] in
   (r, sends st, drop 11 (trace st), last (log st)))
  = (inr tt, 3,
     [EvSendDocument "/tmp/03-11-2026 Current Affairs.pdf" "@channel"
        (caption_of always_times_out ["Title one"]);
      EvSleep 5;
      EvSendDocument "/tmp/03-11-2026 Current Affairs.pdf" "@channel"
        (caption_of always_times_out ["Title one"]);
      EvSleep 5;
      EvSendDocument "/tmp/03-11-2026 Current Affairs.pdf" "@channel"
        (caption_of always_times_out ["Title one"]);
      EvSleep 5;
      EvUnlink "/tmp/tmpabc.docx";
      EvUnlink "/tmp/03-11-2026 Current Affairs.pdf"],
     Some (LogRecord INFO "Script finished"))
  /\ run three_timeouts_then_ok [] = run always_times_out [].
Proof. split; vm_compute; reflexivity. Qed.

(** C4.  With two new articles of which the first cannot be fetched, the
    extractor returns the empty list for the first, and [main] then takes
    its first element: the run ends in an [IndexError], the second article is
    never requested, and both URLs stay recorded in the collection. *)
Theorem C4_failed_extraction_aborts_run :
  (scrape_and_get_content first_article_down a1 tt (initial_state [])).1.1 = inr []
  /\ (let '(r, st) := run first_article_down [] in
      (r, trace st, collection st))
     = (inl (IndexError "list index out of range"),
        [EvHttpGet base; EvHttpGet (base +:+ "page/2/"); EvHttpGet (base +:+ "page/3/");
         EvFindOne a1; EvInsertOne a1; EvFindOne a2; EvInsertOne a2;
         EvDownload "https://docs.example/d/1/export?format=docx";
         EvHttpGet a1],
        [a1; a2]).
Proof. split; vm_compute; reflexivity. Qed.

End OrchestratorClaims.

(** ** More on the dedup filter *)

Section DedupMore.

Variable w : world.

Lemma check_url_healthy url acc st :
  store_healthy w ->
  exists st',
    check_url w url acc st
    = (inr tt,
       (if is_quiz url || bool_decide (url ∈ collection st) then acc else acc ++ [url]),
       st')
    /\ collection st'
       = (if is_quiz url || bool_decide (url ∈ collection st) then collection st
          else collection st ++ [url]).
Proof.
  intros Hw. unfold check_url, is_quiz.
  destruct (contains _ url); cbn; [by eexists|].
  unfold find_one, insert_one. mstep. rewrite !Hw. mstep.
  case_bool_decide; mstep; [by eexists|].
  rewrite Hw. by eexists.
Qed.

Lemma check_loop_healthy urls : forall acc st,
  store_healthy w ->
  exists new st',
    for_each urls (check_url w) acc st = (inr tt, acc ++ new, st')
    /\ collection st' = collection st ++ new
    /\ (forall x, x ∈ new <-> x ∈ urls /\ is_quiz x = false /\ x ∉ collection st)
    /\ new `sublist_of` urls.
Proof.
  induction urls as [|url urls IH]; intros acc st Hw.
  { exists [], st. cbn. rewrite !app_nil_r. split; [done|]. split; [done|].
    split; [|done]. intros x. split; [by intros ?%elem_of_nil|].
    by intros [?%elem_of_nil _]. }
  destruct (check_url_healthy url acc st Hw) as (st1 & Hrun1 & Hcol1).
  cbn [for_each]. cbv [mbind M_bind]. rewrite Hrun1.
  destruct (is_quiz url || bool_decide (url ∈ collection st)) eqn:Hskip.
  - destruct (IH acc st1 Hw) as (new & st' & Hrun & Hcol & Hnew & Hsub).
    exists new, st'. rewrite Hrun. split; [done|]. rewrite Hcol, Hcol1.
    split; [done|]. split; [|by apply sublist_cons].
    intros x. rewrite Hnew, Hcol1, elem_of_cons.
    apply orb_true_iff in Hskip as [Hq|Hin%bool_decide_eq_true].
    + split; [intros (? & ? & ?); auto|]. intros ([->|?] & ? & ?); [congruence|done].
    + split; [intros (? & ? & ?); auto|]. intros ([->|?] & ? & ?); [done|done].
  - apply orb_false_iff in Hskip as [Hq Hin%bool_decide_eq_false].
    destruct (IH (acc ++ [url]) st1 Hw) as (new & st' & Hrun & Hcol & Hnew & Hsub).
    exists (url :: new), st'. rewrite Hrun, <-app_assoc. split; [done|].
    rewrite Hcol, Hcol1, <-app_assoc. split; [done|]. split; [|by apply sublist_skip].
    intros x. rewrite !elem_of_cons, Hnew, Hcol1, elem_of_app, list_elem_of_singleton.
    destruct (decide (x = url)) as [->|Hne]; [by split; auto|].
    split.
    + intros [?|(? & ? & Hx)]; [done|]. split_and!; auto.
    + intros ([?|?] & ? & ?); [done|]. right. split_and!; auto.
      intros [?|?]; done.
Qed.

(** With a store that works, the filter records what it returns: the
    collection ends as it was followed by the new URLs; and the new URLs are
    the candidates that are no quiz URL and that the collection did not
    hold, each of them once, in the order of the candidates. *)
Theorem filter_records_what_it_returns {L} urls (l : L) st :
  store_healthy w ->
  exists new_urls st',
    check_and_insert_urls w urls l st = (inr new_urls, l, st')
    /\ collection st' = collection st ++ new_urls
    /\ (forall x, x ∈ new_urls <-> x ∈ urls /\ is_quiz x = false /\ x ∉ collection st)
    /\ NoDup new_urls
    /\ new_urls `sublist_of` urls.
Proof.
  intros Hw.
  destruct (check_and_insert_urls_returns w urls l st) as (new0 & st0 & Hrun0 & Hnd & _).
  revert Hrun0. unfold check_and_insert_urls. mstep.
  destruct (check_loop_healthy urls [] (add_log (LogRecord INFO "Checking and inserting URLs") st) Hw)
    as (new & st' & Hrun & Hcol & Hnew & Hsub).
  rewrite Hrun. cbn. intros [= <- <-]. eauto 10.
Qed.

Lemma check_loop_nothing_new urls : forall acc st,
  store_healthy w ->
  (forall x, x ∈ urls -> is_quiz x = true \/ x ∈ collection st) ->
  exists st', for_each urls (check_url w) acc st = (inr tt, acc, st')
              /\ collection st' = collection st.
Proof.
  intros acc st Hw Hall.
  destruct (check_loop_healthy urls acc st Hw) as (new & st' & Hrun & Hcol & Hnew & _).
  assert (new = []) as ->.
  { apply elem_of_nil_inv. intros x (Hx & Hq & Hin)%Hnew.
    destruct (Hall x Hx); [congruence|done]. }
  rewrite app_nil_r in *. eauto.
Qed.

(** With a store that works, a second pass of the filter over the same
    candidates selects nothing and records nothing. *)
Theorem filter_twice_selects_nothing {L} urls (l : L) st :
  store_healthy w ->
  exists new_urls st1 st2,
    check_and_insert_urls w urls l st = (inr new_urls, l, st1)
    /\ check_and_insert_urls w urls l st1 = (inr [], l, st2)
    /\ collection st2 = collection st1.
Proof.
  intros Hw. unfold check_and_insert_urls. mstep.
  destruct (check_loop_healthy urls []
              (add_log (LogRecord INFO "Checking and inserting URLs") st) Hw)
    as (new & st1 & Hrun1 & Hcol1 & Hnew & _).
  exists new, st1. rewrite Hrun1. cbn in Hcol1, Hnew.
  destruct (check_loop_nothing_new urls []
              (add_log (LogRecord INFO "Checking and inserting URLs") st1) Hw)
    as (st2 & Hrun2 & Hcol2).
  { intros x Hx. cbn. rewrite Hcol1.
    destruct (is_quiz x) eqn:Hq; [by left|right].
    destruct (decide (x ∈ collection st)) as [?|Hnot]; apply elem_of_app; [by left|right].
    apply Hnew. done. }
  rewrite Hrun2. cbn. eauto.
Qed.

Lemma check_url_step url acc st :
  exists r acc' st',
    check_url w url acc st = (r, acc', st')
    /\ (acc' = acc \/ (is_quiz url = false /\ acc' = (acc ++ [url])))
    /\ collection st `prefix_of` collection st'.
Proof.
  unfold check_url. fold (is_quiz url).
  destruct (is_quiz url) eqn:Hq; cbn.
  { do 3 eexists. split; [reflexivity|]. split; [by left|done]. }
  unfold find_one, insert_one. mstep.
  destruct (mongo_raises w (mongo_ops st)); mstep.
  { do 3 eexists. split; [reflexivity|]. split; [by left|done]. }
  case_bool_decide; mstep.
  { do 3 eexists. split; [reflexivity|]. split; [by left|done]. }
  destruct (mongo_raises w (S (mongo_ops st))); mstep.
  - do 3 eexists. split; [reflexivity|]. split; [by right|done].
  - do 3 eexists. split; [reflexivity|]. split; [by right|]. cbn. by apply prefix_app_r.
Qed.

Lemma check_loop_skips_quiz urls : forall acc st,
  Forall (fun x => is_quiz x = false) acc ->
  exists r acc' st',
    for_each urls (check_url w) acc st = (r, acc', st')
    /\ Forall (fun x => is_quiz x = false) acc'
    /\ collection st `prefix_of` collection st'.
Proof.
  induction urls as [|url urls IH]; intros acc st Hacc.
  { do 3 eexists. split; [reflexivity|]. done. }
  destruct (check_url_step url acc st) as (r1 & acc1 & st1 & Hrun1 & Hacc1 & Hpre1).
  assert (Forall (fun x => is_quiz x = false) acc1) as Hq1.
  { destruct Hacc1 as [->|[Hq ->]]; [done|]. apply Forall_app. split; [done|].
    by constructor. }
  cbn [for_each]. cbv [mbind M_bind]. rewrite Hrun1.
  destruct r1 as [e|[]].
  { do 3 eexists. split; [reflexivity|]. done. }
  destruct (IH acc1 st1 Hq1) as (r & acc' & st' & Hrun & Hq' & Hpre).
  do 3 eexists. split; [exact Hrun|]. split; [done|]. by etrans.
Qed.

(** Whatever the store does, the filter returns no quiz URL and only
    appends to the collection. *)
Theorem filter_skips_quiz_and_only_appends {L} urls (l : L) st :
  exists new_urls st',
    check_and_insert_urls w urls l st = (inr new_urls, l, st')
    /\ Forall (fun x => is_quiz x = false) new_urls
    /\ collection st `prefix_of` collection st'.
Proof.
  unfold check_and_insert_urls. mstep.
  set (st0 := add_log _ st).
  destruct (check_loop_skips_quiz urls [] st0) as (r & acc & st1 & Hrun & Hq & Hpre); [done|].
  rewrite Hrun. destruct r as [e|[]]; cbn; eauto.
Qed.

End DedupMore.

(** ** More on the document assembler *)

Lemma find_placeholders_found ps : forall i start s e,
  find_placeholders ps i start = (Some s, Some e) ->
  (i <= e)%nat
  /\ (exists p, ps !! (e - i) = Some p /\ ends_search p = true)
  /\ (forall j p, (j < e - i)%nat -> ps !! j = Some p -> ends_search p = false)
  /\ ((start = Some s /\ forall j p, (j < e - i)%nat -> ps !! j = Some p -> has_start p = false)
      \/ ((i <= s < e)%nat
          /\ (exists p, ps !! (s - i) = Some p /\ has_start p = true)
          /\ forall j p, (s - i < j < e - i)%nat -> ps !! j = Some p -> has_start p = false)).
Proof.
  induction ps as [|p ps IH]; intros i start s e Hfind; [done|].
  cbn [find_placeholders] in Hfind. fold (has_start p) (has_end p) in Hfind.
  destruct (has_start p) eqn:Hs.
  - apply IH in Hfind as (Hle & (pe & Hpe & Hend) & Hbefore & Hstart).
    replace (e - i) with (S (e - S i)) by lia.
    split; [lia|]. split; [by exists pe|]. split.
    { intros [|j] q Hj Hq; [|apply (Hbefore j q); [lia|done]].
      injection Hq as <-. unfold ends_search. by rewrite Hs. }
    right. destruct Hstart as [[[= <-] Hno] | (Hrange & (q & Hq & Hqs) & Hno)].
    + split; [lia|]. rewrite Nat.sub_diag. split; [by exists p|].
      intros [|j] q Hj Hq; [lia|]. apply (Hno j q); [lia|done].
    + split; [lia|]. replace (s - i) with (S (s - S i)) by lia.
      split; [by exists q|].
      intros [|j] r Hj Hr; [lia|]. apply (Hno j r); [lia|done].
  - destruct (has_end p) eqn:He.
    + injection Hfind as -> <-. rewrite Nat.sub_diag.
      split; [lia|]. split; [exists p; split; [done|]; unfold ends_search; by rewrite Hs, He|].
      split; [intros; lia|]. left. split; [done|]. intros; lia.
    + apply IH in Hfind as (Hle & (pe & Hpe & Hend) & Hbefore & Hstart).
      replace (e - i) with (S (e - S i)) by lia.
      split; [lia|]. split; [by exists pe|]. split.
      { intros [|j] q Hj Hq; [|apply (Hbefore j q); [lia|done]].
        injection Hq as <-. unfold ends_search. by rewrite Hs. }
      destruct Hstart as [[-> Hno] | (Hrange & (q & Hq & Hqs) & Hno)].
      * left. split; [done|]. intros [|j] q Hj Hq; [by injection Hq as <-|].
        apply (Hno j q); [lia|done].
      * right. split; [lia|]. replace (s - i) with (S (s - S i)) by lia.
        split; [by exists q|].
        intros [|j] r Hj Hr; [lia|]. apply (Hno j r); [lia|done].
Qed.

(** When the search finds both placeholders, the start comes before the
    end; the start paragraph has [START_CONTENT]; the end paragraph has
    [END_CONTENT] and not [START_CONTENT] and is the first such paragraph; and
    no paragraph between the two has a marker: the start is the last
    paragraph with [START_CONTENT] before the end. *)
Theorem placeholders_found_in_order ps s e :
  find_placeholders ps 0 None = (Some s, Some e) ->
  (s < e)%nat
  /\ (exists p, ps !! s = Some p /\ has_start p = true)
  /\ (exists p, ps !! e = Some p /\ has_start p = false /\ has_end p = true)
  /\ (forall j p, (s < j < e)%nat -> ps !! j = Some p -> has_start p = false /\ has_end p = false)
  /\ (forall j p, (j < e)%nat -> ps !! j = Some p -> has_start p = true \/ has_end p = false).
Proof.
  intros (_ & (pe & Hpe & Hend) & Hbefore & Hstart)%find_placeholders_found.
  rewrite Nat.sub_0_r in *.
  destruct Hstart as [[[=] _] | (Hrange & (q & Hq & Hqs) & Hno)].
  rewrite Nat.sub_0_r in *.
  assert (forall p, ends_search p = false -> has_start p = true \/ has_end p = false) as Hes.
  { intros p. unfold ends_search. destruct (has_start p), (has_end p); auto. }
  split; [lia|]. split; [by exists q|]. split.
  { exists pe. split; [done|]. unfold ends_search in Hend.
    by destruct (has_start pe), (has_end pe). }
  split.
  - intros j p Hj Hp. pose proof (Hno j p Hj Hp) as Hs. split; [done|].
    destruct (Hes p (Hbefore j p ltac:(lia) Hp)); congruence.
  - intros j p Hj Hp. apply Hes, (Hbefore j p); done.
Qed.

Lemma find_placeholders_no_end ps : forall i start,
  Forall (fun p => has_end p = false) ps ->
  (find_placeholders ps i start).2 = None.
Proof.
  induction ps as [|p ps IH]; intros i start Hps; [done|].
  apply Forall_cons in Hps as [He Hps]. unfold has_end in He.
  cbn [find_placeholders]. rewrite He.
  destruct (contains "START_CONTENT" _); by apply IH.
Qed.

Lemma find_placeholders_no_start ps : forall i,
  Forall (fun p => has_start p = false) ps ->
  (find_placeholders ps i None).1 = None.
Proof.
  induction ps as [|p ps IH]; intros i Hps; [done|].
  apply Forall_cons in Hps as [Hs Hps]. unfold has_start in Hs.
  cbn [find_placeholders]. rewrite Hs.
  destruct (contains "END_CONTENT" _); [done|]. by apply IH.
Qed.

(** A template in which no paragraph has [START_CONTENT], or none has
    [END_CONTENT]: the assembly raises, logs the error and leaves the
    document as it was. *)
Theorem missing_placeholder_raises {L} content_list (l : L) st :
  Forall (fun p => has_start p = false) (Docx.paragraphs (Docx.body (doc st)))
  \/ Forall (fun p => has_end p = false) (Docx.paragraphs (Docx.body (doc st))) ->
  exists st',
    insert_content_between_placeholders content_list l st
    = (inl (PlainException "Could not find both placeholders"), l, st')
    /\ doc st' = doc st
    /\ log st'
       = log st ++ [LogRecord INFO "Inserting content between placeholders";
                    placeholders_error].
Proof.
  intros Hmiss. unfold insert_content_between_placeholders. mstep.
  destruct (find_placeholders _ 0 None) as [s e] eqn:Hfind.
  assert (s = None \/ e = None) as Hnone.
  { destruct Hmiss as [H|H].
    - left. apply (find_placeholders_no_start _ 0) in H. by rewrite Hfind in H.
    - right. apply (find_placeholders_no_end _ 0 None) in H. by rewrite Hfind in H. }
  destruct s as [s|], e as [e|]; try (by destruct Hnone);
    cbn; eexists; (split; [reflexivity|]); cbn; by rewrite <- app_assoc.
Qed.

Section Assembly.
Context {L : Type}.
Variables (pre : list Docx.block) (start : Docx.paragraph) (region : list Docx.block)
  (end_ : Docx.paragraph) (post : list Docx.block) (content : list content).
Variables (l : L) (st : state).

Hypothesis Hbody :
  Docx.body (doc st) = pre ++ Docx.BPara start :: region ++ Docx.BPara end_ :: post.
Hypothesis Hpre : Forall unmarked (Docx.paragraphs pre).
Hypothesis Hstart : has_start start = true.
Hypothesis Hregion : Forall unmarked (Docx.paragraphs region).
Hypothesis Hend : ends_search end_ = true.
Hypothesis Hwritable : Forall writable content.
Hypothesis Hstyles :
  Forall (fun c => style_of (c_type c) ∈ Docx.style_names (doc st)) content.

(** A template with one start and one end placeholder, no marker before
    them or between them, and every style of the content there; a content
    whose texts python-docx takes.  When the
    content has as many blocks as the region has paragraphs, the assembly does
    what it is meant to do: both placeholders are emptied, the blocks stand
    between them in the order of the list, the paragraphs of the region are
    gone and its tables stay, behind the blocks; the rest of the body is as
    it was. *)
Theorem assembly_right_when_counts_match :
  length content = length (Docx.paragraphs region) ->
  exists st',
    insert_content_between_placeholders content l st = (inr tt, l, st')
    /\ Docx.body (doc st')
       = pre ++ cleared start :: map rendered content ++ tables region
             ++ cleared end_ :: post.
Proof.
  intros Hcount. rewrite (assembly_exact pre start region end_ post) by done.
  replace (pre ++ cleared start :: map rendered content ++ tables region
               ++ Docx.BPara end_ :: post)
    with ((pre ++ cleared start :: map rendered content ++ tables region)
            ++ Docx.BPara end_ :: post) by (by reassoc).
  replace (length (Docx.paragraphs pre) + 1 + length (Docx.paragraphs region))
    with (length (Docx.paragraphs
                    (pre ++ cleared start :: map rendered content ++ tables region))).
  2:{ rewrite DocxFacts.paragraphs_app, length_app.
      change (Docx.paragraphs (cleared start :: map rendered content ++ tables region))
        with (Docx.Paragraph (Docx.p_style start) ""
                :: Docx.paragraphs (map rendered content ++ tables region)).
      rewrite DocxFacts.paragraphs_app, paragraphs_tables, app_nil_r.
      cbn [length]. rewrite length_paragraphs_rendered. lia. }
  rewrite DocxFacts.para_pos_app_anchor, DocxFacts.alter_anchor.
  eexists. split; [reflexivity|]. cbn. by reassoc.
Qed.

(** In the same template, when the content has more blocks than the region
    has paragraphs, the assembly returns well, the end placeholder keeps its
    text, and the block of the list whose position is the number of
    paragraphs of the region stands there with its style and no text. *)
Theorem assembly_erases_inserted_block before c after :
  content = before ++ c :: after ->
  length before = length (Docx.paragraphs region) ->
  exists st',
    insert_content_between_placeholders content l st = (inr tt, l, st')
    /\ Docx.body (doc st')
       = pre ++ cleared start :: map rendered before
             ++ styled (style_of (c_type c)) "" :: map rendered after
             ++ tables region ++ Docx.BPara end_ :: post.
Proof.
  intros Hcontent Hcount. rewrite (assembly_exact pre start region end_ post) by done.
  rewrite Hcontent, map_app. cbn [map].
  replace (pre ++ cleared start :: (map rendered before ++ rendered c :: map rendered after)
               ++ tables region ++ Docx.BPara end_ :: post)
    with ((pre ++ cleared start :: map rendered before)
            ++ rendered c :: map rendered after ++ tables region
            ++ Docx.BPara end_ :: post) by (by reassoc).
  replace (length (Docx.paragraphs pre) + 1 + length (Docx.paragraphs region))
    with (length (Docx.paragraphs (pre ++ cleared start :: map rendered before))).
  2:{ rewrite DocxFacts.paragraphs_app, length_app.
      change (Docx.paragraphs (cleared start :: map rendered before))
        with (Docx.Paragraph (Docx.p_style start) ""
                :: Docx.paragraphs (map rendered before)).
      cbn [length]. rewrite length_paragraphs_rendered. lia. }
  unfold rendered at 2. unfold styled at 1.
  rewrite DocxFacts.para_pos_app_anchor, DocxFacts.alter_anchor.
  eexists. split; [reflexivity|]. cbn. by reassoc.
Qed.

(** In the same template, when the blocks of the content and the paragraphs
    behind the end placeholder are together fewer than the paragraphs of the
    region, the assembly raises an [IndexError] at its last line; the region
    is rewritten by then, and the end placeholder keeps its text. *)
Theorem assembly_index_error :
  (length content + length (Docx.paragraphs post) < length (Docx.paragraphs region))%nat ->
  exists st',
    insert_content_between_placeholders content l st
    = (inl (IndexError "list index out of range"), l, st')
    /\ Docx.body (doc st')
       = pre ++ cleared start :: map rendered content ++ tables region
             ++ Docx.BPara end_ :: post.
Proof.
  intros Hcount. rewrite (assembly_exact pre start region end_ post) by done.
  rewrite para_pos_none; [eexists; split; [reflexivity|]; done|].
  rewrite DocxFacts.paragraphs_app, length_app.
  change (Docx.paragraphs (cleared start :: map rendered content ++ tables region
                             ++ Docx.BPara end_ :: post))
    with (Docx.Paragraph (Docx.p_style start) ""
            :: Docx.paragraphs (map rendered content ++ tables region
                                  ++ Docx.BPara end_ :: post)).
  rewrite !DocxFacts.paragraphs_app, paragraphs_tables.
  change (Docx.paragraphs (Docx.BPara end_ :: post)) with (end_ :: Docx.paragraphs post).
  cbn [length app]. rewrite length_app, length_paragraphs_rendered. cbn [length]. lia.
Qed.

End Assembly.

(** ** More on the extractor and on discovery *)

Lemma scrape_tag_run tag acc st :
  scrape_tag tag acc st = (inr tt, acc ++ tag_blocks tag, st).
Proof.
  unfold scrape_tag, tag_blocks.
  destruct (match Bs4.get_class tag with Some cls => _ | None => _ end).
  { by rewrite app_nil_r. }
  repeat (case_match; [done|]).
  case_match; [apply for_each_snoc|by rewrite app_nil_r].
Qed.

Lemma scrape_children_run tags : forall acc st,
  for_each tags scrape_tag acc st = (inr tt, acc ++ flat_map tag_blocks tags, st).
Proof.
  induction tags as [|tag tags IH]; intros acc st.
  { cbn. by rewrite app_nil_r. }
  cbn [for_each flat_map]. cbv [mbind M_bind].
  rewrite scrape_tag_run, IH. by rewrite <- app_assoc.
Qed.

Section ExtractorMore.
Variable w : world.

(** On a page with its main content and its title, the extractor returns
    the title followed by the blocks of the direct children of the main
    content, child by child in document order, and logs no error. *)
Theorem extraction_in_document_order {L} url soup main_content heading_tag (l : L) st :
  http_get w url = Some soup ->
  Bs4.find_class "div" main_content_class soup = Some main_content ->
  Bs4.find_id "h1" "list" main_content = Some heading_tag ->
  exists st',
    scrape_and_get_content w url l st
    = (inr (Content heading (Bs4.get_text heading_tag)
            :: flat_map tag_blocks (Bs4.child_tags main_content)), l, st')
    /\ log st' = log st ++ [scraping_info url].
Proof.
  intros Hget Hmain Hhead.
  unfold scrape_and_get_content, requests_get, scrape_soup. mstep.
  rewrite Hget. cbn. rewrite Hmain, Hhead. mstep.
  rewrite scrape_children_run. cbn. eauto.
Qed.

Lemma tag_blocks_bullets tag :
  Forall (fun c => c_type c = list_item -> String.prefix "• " (c_text c) = true)
         (tag_blocks tag).
Proof.
  unfold tag_blocks.
  destruct (match Bs4.get_class tag with Some cls => _ | None => _ end); [done|].
  repeat (case_match; [by repeat constructor|]).
  case_match; [|done]. apply Forall_map, Forall_true. intros li _.
  cbn [c_text]. generalize (Bs4.get_text li). intros s. by destruct s.
Qed.

(** Every list item the extractor returns starts with the bullet and a
    blank. *)
Theorem extracted_list_items_have_bullets {L} url (l : L) st :
  exists content_list st',
    scrape_and_get_content w url l st = (inr content_list, l, st')
    /\ Forall (fun c => c_type c = list_item -> String.prefix "• " (c_text c) = true)
              content_list.
Proof.
  unfold scrape_and_get_content, requests_get, scrape_soup. mstep.
  destruct (http_get w url) as [soup|]; cbn; [|by eauto].
  destruct (Bs4.find_class _ _ soup) as [main_content|]; cbn; [|by eauto].
  destruct (Bs4.find_id _ _ main_content) as [heading_tag|]; cbn; [|by eauto].
  mstep. rewrite scrape_children_run. cbn.
  do 2 eexists. split; [reflexivity|].
  constructor; [done|]. apply Forall_flat_map, Forall_true. intros tag.
  apply tag_blocks_bullets.
Qed.

(** When the page cannot be fetched, or has no main content or no title, the
    extractor returns the empty list after one request and logs one error;
    the collection and the document are as they were. *)
Theorem extraction_failure_is_logged_and_empty {L} url (l : L) st :
  http_get w url ≫= article_title = None ->
  exists st' msg,
    scrape_and_get_content w url l st = (inr [], l, st')
    /\ log st' = log st ++ [scraping_info url; LogRecord ERROR msg]
    /\ trace st' = trace st ++ [EvHttpGet url]
    /\ collection st' = collection st /\ doc st' = doc st.
Proof.
  intros Hnone.
  unfold scrape_and_get_content, requests_get, scrape_soup. mstep.
  unfold article_title in Hnone.
  destruct (http_get w url) as [soup|]; cbn in Hnone |- *.
  - destruct (Bs4.find_class _ _ soup) as [main_content|]; cbn in Hnone |- *.
    + destruct (Bs4.find_id _ _ main_content); [done|]. cbn.
      do 2 eexists. split; [reflexivity|]. cbn. by rewrite <- app_assoc.
    + do 2 eexists. split; [reflexivity|]. cbn. by rewrite <- app_assoc.
  - do 2 eexists. split; [reflexivity|]. cbn. by rewrite <- app_assoc.
Qed.
End ExtractorMore.

Section DiscoveryMore.
Variable w : world.
Variable base_url : string.

(** The loop over the pages collects the links of the pages before the
    first one that cannot be fetched, and requests no page behind that
    one. *)
Lemma fetch_pages_leading ps : forall acc st,
  exists r st',
    for_each ps (fetch_page w base_url) acc st
    = (r, acc ++ flat_map (links_at w base_url) (leading_pages w base_url ps), st')
    /\ trace st'
       = trace st
         ++ map (fun p => EvHttpGet (page_url base_url p)) (requested_pages w base_url ps)
    /\ collection st' = collection st /\ doc st' = doc st /\ sends st' = sends st.
Proof.
  induction ps as [|p ps IH]; intros acc st.
  { exists (inr tt), st. cbn. by rewrite !app_nil_r. }
  cbn [for_each leading_pages requested_pages]. cbv [mbind M_bind].
  destruct (http_get w (page_url base_url p)) as [soup|] eqn:Hp.
  - rewrite (fetch_page_ok w base_url p soup acc st Hp).
    destruct (IH (acc ++ page_links soup) (add_event (EvHttpGet (page_url base_url p)) st))
      as (r & st' & Hrun & Ht & Hc & Hd & Hs).
    exists r, st'. rewrite Hrun. cbn [flat_map]. unfold links_at at 2.
    rewrite Hp, <- app_assoc. split; [done|].
    rewrite Ht. cbn. by rewrite <- app_assoc.
  - destruct (fetch_page_fails w base_url p acc st Hp) as (e & Hrun).
    exists (inl e), (add_event (EvHttpGet (page_url base_url p)) st).
    rewrite Hrun. cbn. by rewrite app_nil_r.
Qed.

(** Discovery never raises: it returns the links of the listing pages
    before the first one that cannot be fetched, page by page; it has
    requested these pages and that one, and no page behind it; and it
    touches neither the collection nor the document, and uploads nothing. *)
Theorem discovery_returns_leading_pages {L} (pages : nat) (l : L) st :
  exists st',
    fetch_article_urls w base_url pages l st
    = (inr (flat_map (links_at w base_url) (leading_pages w base_url (seq 1 pages))),
       l, st')
    /\ trace st'
       = trace st
         ++ map (fun p => EvHttpGet (page_url base_url p))
                (requested_pages w base_url (seq 1 pages))
    /\ collection st' = collection st /\ doc st' = doc st /\ sends st' = sends st.
Proof.
  unfold fetch_article_urls. mstep. unfold range.
  replace (pages + 1 - 1) with pages by lia.
  set (st0 := add_log _ st).
  destruct (fetch_pages_leading (seq 1 pages) [] st0)
    as (r & st' & Hrun & Ht & Hc & Hd & Hs).
  rewrite Hrun. destruct r as [e|[]]; cbn; eauto 10.
Qed.
End DiscoveryMore.

(** ** More on the publisher *)

Section Publisher.
Variable w : world.
Context {L : Type}.
Variables (pdf_path bot_token channel_id caption : string).

(** One round of the loop, by the outcome of [open] and of the upload. *)
Lemma send_round_cases n rounds (l : L) st :
  send_rounds w (n :: rounds) pdf_path channel_id caption l st
  = match open_error w pdf_path with
    | Some msg =>
        (inl (OSError msg), l,
         add_log (error_record ("Error while sending PDF to Telegram: " +:+ msg)) st)
    | None =>
        match send_document w (sends st) with
        | Delivered =>
            (inr tt, l,
             add_event (EvSendDocument pdf_path channel_id caption) (tick_sends st))
        | SendTimedOut =>
            send_rounds w rounds pdf_path channel_id caption l
              (add_event (EvSleep 5)
                 (add_log (LogRecord WARNING
                             "Timeout error while sending PDF to Telegram, retrying: Timed out")
                    (add_event (EvSendDocument pdf_path channel_id caption) (tick_sends st))))
        | SendFailed =>
            (inl (TelegramError "send_document"), l,
             add_log (LogRecord ERROR "Error while sending PDF to Telegram: send_document")
               (add_event (EvSendDocument pdf_path channel_id caption) (tick_sends st)))
        end
    end.
Proof.
  cbn [send_rounds]. unfold bot_send_document, open_rb. mstep.
  destruct (open_error w pdf_path); [reflexivity|]. cbn.
  destruct (send_document w (sends st)); reflexivity.
Qed.

Lemma send_rounds_bound rounds : forall (l : L) st,
  (sends st <= sends (send_rounds w rounds pdf_path channel_id caption l st).2
   <= sends st + length rounds)%nat.
Proof.
  induction rounds as [|n rounds IH]; intros l st; [cbn; lia|].
  rewrite send_round_cases.
  destruct (open_error w pdf_path); [cbn; lia|].
  destruct (send_document w (sends st)); cbn [snd length]; [cbn; lia| |cbn; lia].
  match goal with |- context [send_rounds w rounds _ _ _ l ?s] =>
    specialize (IH l s) end.
  cbn [sends add_event add_log tick_sends] in IH. lia.
Qed.

Lemma send_rounds_outcome k : forall rounds (l : L) st,
  open_error w pdf_path = None ->
  (k < length rounds)%nat ->
  (forall n : nat, (n < k)%nat -> send_document w (sends st + n) = SendTimedOut) ->
  send_document w (sends st + k) <> SendTimedOut ->
  exists st',
    send_rounds w rounds pdf_path channel_id caption l st
    = (match send_document w (sends st + k) with
       | SendFailed => inl (TelegramError "send_document")
       | _ => inr tt
       end, l, st')
    /\ sends st' = sends st + k + 1
    /\ trace st'
       = trace st ++ timed_out_rounds k pdf_path channel_id caption
           ++ [EvSendDocument pdf_path channel_id caption]
    /\ collection st' = collection st /\ doc st' = doc st.
Proof.
  intros rounds l st Hopen. revert rounds l st.
  induction k as [|k IH]; intros rounds l st Hlen Hto Hlast.
  - destruct rounds as [|n rounds]; [cbn in Hlen; lia|].
    rewrite send_round_cases, Hopen. rewrite Nat.add_0_r in *.
    destruct (send_document w (sends st)); [|done|];
      (eexists; split; [reflexivity|]; cbn; split; [lia|done]).
  - destruct rounds as [|n rounds]; [cbn in Hlen; lia|].
    rewrite send_round_cases, Hopen.
    pose proof (Hto 0 ltac:(lia)) as H0. rewrite Nat.add_0_r in H0. rewrite H0.
    match goal with |- context [send_rounds w rounds _ _ _ l ?s] =>
      destruct (IH rounds l s) as (st' & Hrun & Hs & Ht & Hc & Hd) end.
    { cbn in Hlen. lia. }
    { intros n' Hn'. cbn. replace (S (sends st + n')) with (sends st + S n') by lia.
      apply Hto. lia. }
    { cbn. by replace (S (sends st + k)) with (sends st + S k) by lia. }
    cbn in Hrun, Hs, Ht, Hc, Hd.
    replace (S (sends st + k)) with (sends st + S k) in Hrun by lia.
    exists st'. split; [exact Hrun|]. split; [lia|]. split; [|done].
    rewrite Ht. unfold timed_out_rounds. cbn. by rewrite <- !app_assoc.
Qed.

Lemma send_rounds_at_least_one n rounds (l : L) st :
  open_error w pdf_path = None ->
  (sends st < sends (send_rounds w (n :: rounds) pdf_path channel_id caption l st).2)%nat.
Proof.
  intros Hopen. rewrite send_round_cases, Hopen.
  destruct (send_document w (sends st)); try (cbn; lia).
  match goal with |- context [send_rounds w rounds _ _ _ l ?s] =>
    pose proof (send_rounds_bound rounds l s) as Hb end.
  cbn [sends add_event add_log tick_sends] in Hb. lia.
Qed.

(** What [send_pdf_to_telegram] does before the loop. *)
Lemma send_pdf_to_telegram_ready (l : L) st :
  telegram_bot_error w bot_token = None ->
  send_pdf_to_telegram w pdf_path bot_token channel_id caption l st
  = send_rounds w [0; 1; 2] pdf_path channel_id caption l
      (add_log (LogRecord INFO ("Sending PDF to Telegram channel " +:+ channel_id)) st).
Proof.
  intros Hbot. unfold send_pdf_to_telegram, telegram_Bot, range. rewrite Hbot.
  cbn [seq Nat.sub]. by mstep.
Qed.
End Publisher.

Section PublisherTheorems.
Variable w : world.
Context {L : Type}.
Variables (pdf_path bot_token channel_id caption : string).

(** [send_pdf_to_telegram] never uploads more than three times; when the
    token is taken and the file can be read it uploads at least once,
    whatever the uploads do. *)
Theorem publisher_uploads_one_to_three_times (l : L) st :
  publisher_ready w pdf_path bot_token ->
  let st' := (send_pdf_to_telegram w pdf_path bot_token channel_id caption l st).2 in
  (sends st < sends st' <= sends st + 3)%nat.
Proof.
  intros [Hbot Hopen]. cbv zeta. rewrite send_pdf_to_telegram_ready by done.
  set (st0 := add_log _ st).
  split.
  - by apply (send_rounds_at_least_one w pdf_path channel_id caption 0 [1; 2] l st0).
  - apply (send_rounds_bound w pdf_path channel_id caption [0; 1; 2] l st0).
Qed.

(** When the token is not taken, or the file cannot be read,
    [send_pdf_to_telegram] raises that error without an upload and without
    a pause; the error of the file is logged, that of the token is not. *)
Theorem publisher_stops_before_upload e (l : L) st :
  error_before_upload w pdf_path bot_token = Some e ->
  exists st',
    send_pdf_to_telegram w pdf_path bot_token channel_id caption l st = (inl e, l, st')
    /\ sends st' = sends st /\ trace st' = trace st
    /\ log st'
       = log st
         ++ LogRecord INFO ("Sending PDF to Telegram channel " +:+ channel_id)
         :: match telegram_bot_error w bot_token with
            | Some _ => []
            | None =>
                [error_record ("Error while sending PDF to Telegram: " +:+ exn_str e)]
            end.
Proof.
  unfold error_before_upload. intros He.
  destruct (telegram_bot_error w bot_token) as [e'|] eqn:Hbot.
  - injection He as ->. unfold send_pdf_to_telegram, telegram_Bot. rewrite Hbot. mstep.
    eauto.
  - rewrite send_pdf_to_telegram_ready, send_round_cases by done.
    destruct (open_error w pdf_path) as [msg|]; [|done]. injection He as <-.
    eexists. split; [reflexivity|]. cbn. by rewrite <- app_assoc.
Qed.

(** When the first [k] uploads time out, with [k] below three, and the next
    one goes through, [send_pdf_to_telegram] returns after [k + 1] uploads
    and [k] pauses of five seconds. *)
Theorem publisher_delivers_within_three (k : nat) (l : L) st :
  publisher_ready w pdf_path bot_token ->
  (k < 3)%nat ->
  (forall n : nat, (n < k)%nat -> send_document w (sends st + n) = SendTimedOut) ->
  send_document w (sends st + k) = Delivered ->
  exists st',
    send_pdf_to_telegram w pdf_path bot_token channel_id caption l st = (inr tt, l, st')
    /\ sends st' = sends st + k + 1
    /\ trace st'
       = trace st ++ timed_out_rounds k pdf_path channel_id caption
           ++ [EvSendDocument pdf_path channel_id caption].
Proof.
  intros [Hbot Hopen] Hk Hto Hok. rewrite send_pdf_to_telegram_ready by done.
  set (st0 := add_log _ st).
  destruct (send_rounds_outcome w pdf_path channel_id caption k [0; 1; 2] l st0)
    as (st' & Hrun & Hs & Ht & _); [done|cbn; lia|done|cbn; congruence|].
  cbn in Hrun, Hs, Ht. rewrite Hok in Hrun. eauto.
Qed.

(** An upload that fails otherwise than by a timeout ends
    [send_pdf_to_telegram] with that error at once: no further upload and no
    pause follow. *)
Theorem publisher_error_is_not_retried (k : nat) (l : L) st :
  publisher_ready w pdf_path bot_token ->
  (k < 3)%nat ->
  (forall n : nat, (n < k)%nat -> send_document w (sends st + n) = SendTimedOut) ->
  send_document w (sends st + k) = SendFailed ->
  exists st',
    send_pdf_to_telegram w pdf_path bot_token channel_id caption l st
    = (inl (TelegramError "send_document"), l, st')
    /\ sends st' = sends st + k + 1
    /\ trace st'
       = trace st ++ timed_out_rounds k pdf_path channel_id caption
           ++ [EvSendDocument pdf_path channel_id caption].
Proof.
  intros [Hbot Hopen] Hk Hto Hfail. rewrite send_pdf_to_telegram_ready by done.
  set (st0 := add_log _ st).
  destruct (send_rounds_outcome w pdf_path channel_id caption k [0; 1; 2] l st0)
    as (st' & Hrun & Hs & Ht & _); [done|cbn; lia|done|cbn; congruence|].
  cbn in Hrun, Hs, Ht. rewrite Hfail in Hrun. eauto.
Qed.
End PublisherTheorems.

(** ** The download of the template and the log of a run *)

(** [s.replace(old, new)] is [s] when [old] does not occur in [s]. *)
Lemma replace_absent old new s :
  contains old s = false -> replace old new s = s.
Proof.
  unfold replace. induction s as [|c s IH]; intros Hno; [done|].
  cbn [contains] in Hno. apply orb_false_iff in Hno as [Hpre Hrest].
  cbn [replace_from]. rewrite Hpre. f_equal. by apply IH.
Qed.

Section Download.
Variable w : world.

(** An address without [/edit?usp=sharing] is requested as it is given,
    once; the outcome is the document served there, or the error of the
    request. *)
Theorem download_requests_other_urls_as_given {L} url (l : L) st :
  contains "/edit?usp=sharing" url = false ->
  exists st',
    download_template w url l st
    = (match template_docx w url with
       | Some d => inr d
       | None => inl (RequestException ("GET " +:+ url))
       end, l, st')
    /\ trace st' = trace st ++ [EvDownload url]
    /\ doc st' = doc st /\ collection st' = collection st.
Proof.
  intros Hno. unfold download_template. rewrite replace_absent by done. mstep.
  destruct (template_docx w url); cbn; eauto.
Qed.
End Download.

(** The log tells how the run ended.  Its last record is [Script finished]
    when the run ended well, the error of the database settings when one of
    them was missing, and the error of [main] when [main] raised; when the
    set-up of the collection refused a database setting, the run ended in
    that error with nothing logged. *)
Theorem run_log_tells_outcome w stored :
  let '(r, st) := run w stored in
  match r with
  | inr _ => last (log st) = Some finished
  | inl e =>
      if db_settings_present w then
        match db_setup_error w with
        | Some e' => e = e' /\ log st = []
        | None => last (log st) = Some (main_error e)
        end
      else e = db_settings_error /\ last (log st) = Some db_error
  end.
Proof.
  unfold run, script, MongoClient, client_getitem, db_getitem, db_setup_error.
  fold (db_settings_present w).
  destruct (db_settings_present w); [|by mstep].
  mstep.
  destruct (mongo_client_error w _); [done|]. cbn.
  destruct (mongo_database_error w _); [done|]. cbn.
  destruct (mongo_collection_error w _); [done|]. cbn.
  unfold main. mstep.
  destruct (main_body w ([], []) _) as [[[e|[]] l'] st'] eqn:Hbody; cbn.
  - revert Hbody. unfold main_body, try_, except. cbn [is_Exception].
    match goal with |- context [match ?m ?l0 ?s0 with _ => _ end] =>
      destruct (m l0 s0) as [[[e'|[]] l''] st''] end.
    + mstep. intros [= <- _ <-]. cbn. by rewrite last_snoc.
    + intros [=].
  - by rewrite last_snoc.
Qed.

(** ** What a run leaves in the store *)

#[global] Instance store_grows_preorder : PreOrder store_grows.
Proof.
  split.
  - intros st. unfold store_grows. done.
  - intros a b c Hab Hbc. unfold store_grows in *. by etrans.
Qed.

Section Keeps.
Context {L : Type} (R : relation state) `{!PreOrder R}.

Lemma keeps_ret {A} (x : A) : keeps R (mret x : M L A).
Proof. intros l st. cbn. reflexivity. Qed.

Lemma keeps_raise {A} e : keeps R (raise e : M L A).
Proof. intros l st. cbn. reflexivity. Qed.

Lemma keeps_gets {A} (f : state -> A) : keeps R (gets f : M L A).
Proof. intros l st. cbn. reflexivity. Qed.

Lemma keeps_get_local : keeps R (get_local : M L L).
Proof. intros l st. cbn. reflexivity. Qed.

Lemma keeps_modify_local f : keeps R (modify_local f : M L unit).
Proof. intros l st. cbn. reflexivity. Qed.

Lemma keeps_modify f : (forall st, R st (f st)) -> keeps R (modify f : M L unit).
Proof. intros Hf l st. apply Hf. Qed.

Lemma keeps_bind {A B} (m : M L A) (f : A -> M L B) :
  keeps R m -> (forall x, keeps R (f x)) -> keeps R (m ≫= f).
Proof.
  intros Hm Hf l st. specialize (Hm l st). cbv [mbind M_bind].
  destruct (m l st) as [[[e|x] l'] st']; cbn in *; [done|].
  etrans; [exact Hm|apply Hf].
Qed.

Lemma keeps_try {A} (m : M L A) handler :
  keeps R m -> (forall e h, handler e = Some h -> keeps R h) -> keeps R (try_ m handler).
Proof.
  intros Hm Hh l st. specialize (Hm l st). unfold try_.
  destruct (m l st) as [[[e|x] l'] st']; cbn in *; [|done].
  destruct (handler e) as [h|] eqn:He; [|done].
  etrans; [exact Hm|apply (Hh e h He)].
Qed.

Lemma keeps_except {A} sel (h : exn -> M L A) e h' :
  (forall e, keeps R (h e)) -> except sel h e = Some h' -> keeps R h'.
Proof. unfold except. intros Hh. destruct (sel e); intros [= <-]. apply Hh. Qed.

Lemma keeps_or_except {A} (c1 c2 : exn -> option (M L A)) e h :
  (forall h1, c1 e = Some h1 -> keeps R h1) -> (forall h2, c2 e = Some h2 -> keeps R h2) ->
  or_except c1 c2 e = Some h -> keeps R h.
Proof. unfold or_except. intros H1 H2. destruct (c1 e) eqn:E1; intros [= <-] || auto; auto. Qed.

Lemma keeps_for_each {A} (xs : list A) (body : A -> M L unit) :
  (forall x, keeps R (body x)) -> keeps R (for_each xs body).
Proof.
  intros Hbody. induction xs as [|x xs IH]; cbn [for_each].
  - apply keeps_ret.
  - apply keeps_bind; auto.
Qed.
End Keeps.

Lemma keeps_with_locals {L L' A} (R : relation state) (init : L') (m : M L' A) :
  keeps R m -> keeps R (with_locals init m : M L A).
Proof.
  intros Hm l st. specialize (Hm init st). unfold with_locals.
  by destruct (m init st) as [[r l'] st'].
Qed.

(** Takes a computation apart down to its changes of the state. *)
Ltac keeps_step :=
  first
    [ apply keeps_bind | apply keeps_try | apply keeps_for_each
    | apply keeps_with_locals | apply keeps_ret | apply keeps_raise
    | apply keeps_gets | apply keeps_get_local | apply keeps_modify_local
    | apply keeps_modify; intros []; unfold store_grows; cbn;
      first [done | by apply prefix_app_r]
    | eapply keeps_or_except; [| |eassumption]
    | eapply keeps_except; [|eassumption]
    | progress intros
    | match goal with
      | |- keeps _ (match ?x with _ => _ end) => destruct x
      | |- keeps _ (if ?b then _ else _) => destruct b
      end ].

Ltac keeps := repeat keeps_step.

Lemma send_rounds_keeps_store w {L} rounds pdf_path channel_id caption :
  keeps store_grows (send_rounds w rounds pdf_path channel_id caption : M L _).
Proof.
  induction rounds as [|n rounds IH]; cbn [send_rounds]; [apply keeps_ret; apply _|].
  unfold bot_send_document, open_rb, logger_exception, logger.
  keeps; try apply _; try apply IH.
Qed.

(** A run only appends to the collection: what was stored before the run is
    still there after it, in the same order, however the run ends. *)
Theorem run_only_appends_to_store w stored :
  stored `prefix_of` collection (run w stored).2.
Proof.
  assert (keeps store_grows (script w : M unit unit)) as Hk.
  { unfold script, main, main_body, main_prepare, main_publish, MongoClient,
      client_getitem, db_getitem, fetch_article_urls, check_and_insert_urls,
      download_template, extract_article, scrape_and_get_content,
      insert_content_between_placeholders, convert_docx_to_pdf, rename_pdf,
      send_pdf_to_telegram, telegram_Bot, fetch_page, collect_link, requests_get,
      check_url, find_one, insert_one, scrape_soup, scrape_tag, insert_block,
      add_heading, add_paragraph, assign_style, paragraphs_getitem, remove_element,
      addnext, assign_text, write_text, os_rename, logger_exception, logger.
    keeps; try apply _; try apply send_rounds_keeps_store.
    all: unfold open_rb; keeps; apply _. }
  specialize (Hk tt (initial_state stored)). unfold run.
  destruct (script w tt (initial_state stored)) as [[r l] st]. exact Hk.
Qed.

(** ** More on the insertion loop *)

#[global] Instance unmarked_dec p : Decision (unmarked p).
Proof. unfold unmarked. apply _. Defined.

(** With every style there and every text taken, the insertion loop over
    the reversed content list leaves the blocks behind the start placeholder
    in the order of the list, each with the style of its type and reading
    back its text as python-docx stores it, and logs nothing. *)
Theorem insertion_loop_forward_order {L} pre anchor post content (l : L) st :
  Docx.body (doc st) = pre ++ Docx.BPara anchor :: post ->
  Forall writable content ->
  Forall (fun c => style_of (c_type c) ∈ Docx.style_names (doc st)) content ->
  exists st',
    for_each (rev content) (insert_block (length (Docx.paragraphs pre))) l st
    = (inr tt, l, st')
    /\ Docx.body (doc st') = pre ++ Docx.BPara anchor :: map rendered content ++ post
    /\ log st' = log st.
Proof.
  intros Hbody Hok Hstyles.
  pose proof (insert_blocks_rendered pre anchor (rev content) post (log st) l st) as Hrun.
  rewrite <- Hbody, with_body_log_id, rev_involutive in Hrun.
  rewrite Hrun by (by apply Forall_rev). eauto.
Qed.

(** Only list items have a fallback: a block of another type whose style
    the document lacks makes the insertion raise a [KeyError], and the
    paragraph that was created for it stays at the end of the body. *)
Theorem block_without_style_raises {L} pre anchor post c (l : L) st :
  Docx.body (doc st) = pre ++ Docx.BPara anchor :: post ->
  writable c ->
  c_type c <> list_item ->
  style_of (c_type c) ∉ Docx.style_names (doc st) ->
  exists st',
    insert_block (length (Docx.paragraphs pre)) c l st
    = (inl (KeyError ("no style with name '" +:+ style_of (c_type c) +:+ "'")), l, st')
    /\ Docx.body (doc st')
       = pre ++ Docx.BPara anchor :: post ++ [plain (Docx.stored (c_text c))].
Proof.
  intros Hbody Hok Hty Hmiss.
  rewrite <- (with_body_log_id st). rewrite Hbody.
  unfold insert_block, add_heading.
  destruct (c_type c); try done; cbn in Hmiss |- *;
    (eexists; split; [by apply place_missing|]); cbn; by rewrite <- app_assoc.
Qed.

(** A block whose text python-docx refuses (a control character) makes the
    insertion raise a [ValueError], whatever its type and whatever styles
    the document has: the fallback of list items does not catch it.  The
    paragraph created for the block stays at the end of the body, unstyled,
    with what was written of the text; nothing is logged. *)
Theorem block_with_refused_text_raises {L} pre anchor post c (l : L) st :
  Docx.body (doc st) = pre ++ Docx.BPara anchor :: post ->
  Docx.accepts (c_text c) = false ->
  exists st',
    insert_block (length (Docx.paragraphs pre)) c l st = (inl Docx.xml_error, l, st')
    /\ Docx.body (doc st')
       = pre ++ Docx.BPara anchor :: post ++ [plain (Docx.stored (c_text c))]
    /\ log st' = log st.
Proof.
  intros Hbody Hno.
  rewrite <- (with_body_log_id st). rewrite Hbody.
  unfold insert_block, add_heading.
  destruct (c_type c).
  1-4: cbn; (eexists; split; [by apply place_refused|]); cbn; by rewrite <- app_assoc.
  unfold try_. rewrite place_refused by done. cbn.
  eexists. split; [reflexivity|]. cbn. by rewrite <- app_assoc.
Qed.

(** ** The statements with hypotheses, on the cases *)

Section OnTheCases.

Import Scenario Cases.

Lemma fetch_article_urls_all_pages_witness :
  exists st',
    fetch_article_urls rich_world base 3 tt (initial_state [])
    = (inr (flat_map (links_at rich_world base) (seq 1 3)), tt, st').
Proof.
  apply (fetch_article_urls_all_pages rich_world base 3 tt (initial_state [])).
  intros j Hj.
  assert (j = 1 \/ j = 2 \/ j = 3) as [-> | [-> | ->]] by lia; vm_compute; eauto.
Defined.

Lemma filter_records_what_it_returns_witness :
  exists new_urls st',
    check_and_insert_urls rich_world [a1; a2; a2; a3] tt (initial_state [a3])
    = (inr new_urls, tt, st')
    /\ collection st' = collection (initial_state [a3]) ++ new_urls
    /\ (forall x, x ∈ new_urls <->
                  x ∈ [a1; a2; a2; a3] /\ is_quiz x = false
                  /\ x ∉ collection (initial_state [a3]))
    /\ NoDup new_urls
    /\ new_urls `sublist_of` [a1; a2; a2; a3].
Proof.
  apply (filter_records_what_it_returns rich_world [a1; a2; a2; a3] tt (initial_state [a3])).
  intros n. reflexivity.
Defined.

Lemma filter_twice_selects_nothing_witness :
  exists new_urls st1 st2,
    check_and_insert_urls rich_world [a1; a2; a2; a3] tt (initial_state [a3])
    = (inr new_urls, tt, st1)
    /\ check_and_insert_urls rich_world [a1; a2; a2; a3] tt st1 = (inr [], tt, st2)
    /\ collection st2 = collection st1.
Proof.
  apply (filter_twice_selects_nothing rich_world [a1; a2; a2; a3] tt (initial_state [a3])).
  intros n. reflexivity.
Defined.

Lemma extraction_in_document_order_witness :
  exists st',
    scrape_and_get_content rich_world a1 tt (initial_state [])
    = (inr (Content heading (Bs4.get_text rich_heading)
            :: flat_map tag_blocks (Bs4.child_tags rich_main_content)), tt, st')
    /\ log st' = log (initial_state []) ++ [scraping_info a1].
Proof.
  apply (extraction_in_document_order rich_world a1 rich_article rich_main_content
           rich_heading tt (initial_state [])); vm_compute; reflexivity.
Defined.

(** What the page of the case yields. *)
Example rich_article_blocks :
  Content heading (Bs4.get_text rich_heading)
    :: flat_map tag_blocks (Bs4.child_tags rich_main_content)
  = [Content heading "Title"; Content paragraph "First bold"; Content heading_2 "Section";
     Content list_item "• one"; Content list_item "• two"; Content heading_4 "Small"].
Proof. vm_compute. reflexivity. Qed.

Lemma extraction_failure_is_logged_and_empty_witness :
  exists st' msg,
    scrape_and_get_content rich_world a2 tt (initial_state []) = (inr [], tt, st')
    /\ log st' = log (initial_state []) ++ [scraping_info a2; LogRecord ERROR msg]
    /\ trace st' = trace (initial_state []) ++ [EvHttpGet a2]
    /\ collection st' = collection (initial_state [])
    /\ doc st' = doc (initial_state []).
Proof.
  apply (extraction_failure_is_logged_and_empty rich_world a2 tt (initial_state [])).
  vm_compute. reflexivity.
Defined.

Lemma placeholders_found_in_order_witness :
  let ps := Docx.paragraphs table_template in
  (1 < 4)%nat
  /\ (exists p, ps !! 1 = Some p /\ has_start p = true)
  /\ (exists p, ps !! 4 = Some p /\ has_start p = false /\ has_end p = true)
  /\ (forall j p, (1 < j < 4)%nat -> ps !! j = Some p ->
                  has_start p = false /\ has_end p = false)
  /\ (forall j p, (j < 4)%nat -> ps !! j = Some p ->
                  has_start p = true \/ has_end p = false).
Proof.
  apply (placeholders_found_in_order (Docx.paragraphs table_template) 1 4).
  vm_compute. reflexivity.
Defined.

Lemma missing_placeholder_raises_witness :
  exists st',
    insert_content_between_placeholders two_blocks tt
      (state_of [plain "Intro"; plain "START_CONTENT"; plain "Outro"] all_styles)
    = (inl (PlainException "Could not find both placeholders"), tt, st')
    /\ doc st'
       = doc (state_of [plain "Intro"; plain "START_CONTENT"; plain "Outro"] all_styles)
    /\ log st'
       = log (state_of [plain "Intro"; plain "START_CONTENT"; plain "Outro"] all_styles)
         ++ [LogRecord INFO "Inserting content between placeholders"; placeholders_error].
Proof.
  apply (missing_placeholder_raises two_blocks tt
           (state_of [plain "Intro"; plain "START_CONTENT"; plain "Outro"] all_styles)).
  right. compute_done.
Defined.

Lemma assembly_right_when_counts_match_witness :
  exists st',
    insert_content_between_placeholders
      [Content heading "T"; Content paragraph carriage_return_text] tt
      (state_of table_template all_styles)
    = (inr tt, tt, st')
    /\ Docx.body (doc st')
       = [plain "Intro"]
           ++ cleared (Docx.Paragraph None "Put START_CONTENT here")
           :: map rendered [Content heading "T"; Content paragraph carriage_return_text]
           ++ tables [plain "OLD1"; Docx.BTable "<w:tbl/>"; plain "OLD2"]
           ++ cleared (Docx.Paragraph None "END_CONTENT") :: [plain "Outro"].
Proof.
  apply (assembly_right_when_counts_match [plain "Intro"]
           (Docx.Paragraph None "Put START_CONTENT here")
           [plain "OLD1"; Docx.BTable "<w:tbl/>"; plain "OLD2"]
           (Docx.Paragraph None "END_CONTENT") [plain "Outro"]
           [Content heading "T"; Content paragraph carriage_return_text] tt
           (state_of table_template all_styles)).
  - reflexivity.
  - compute_done.
  - vm_compute. reflexivity.
  - compute_done.
  - vm_compute. reflexivity.
  - by repeat constructor.
  - compute_done.
  - reflexivity.
Defined.

(** The body the assembly leaves in that case: the table of the old region
    stays, behind the new blocks, and the carriage return reads back as a
    line feed. *)
Example table_template_assembled :
  [plain "Intro"]
    ++ cleared (Docx.Paragraph None "Put START_CONTENT here")
    :: map rendered [Content heading "T"; Content paragraph carriage_return_text]
    ++ tables [plain "OLD1"; Docx.BTable "<w:tbl/>"; plain "OLD2"]
    ++ cleared (Docx.Paragraph None "END_CONTENT") :: [plain "Outro"]
  = [plain "Intro"; plain ""; styled "Heading 1" "T";
     styled "Normal" ("first" +:+ String Docx.line_feed "second");
     Docx.BTable "<w:tbl/>"; plain ""; plain "Outro"].
Proof. vm_compute. reflexivity. Qed.

Lemma assembly_erases_inserted_block_witness :
  exists st',
    insert_content_between_placeholders
      [Content heading "T"; Content paragraph "P1"; Content paragraph "P2"] tt
      (state_of scenario_template all_styles)
    = (inr tt, tt, st')
    /\ Docx.body (doc st')
       = [plain "Intro"]
           ++ cleared (Docx.Paragraph None "START_CONTENT")
           :: map rendered [Content heading "T"]
           ++ styled (style_of paragraph) "" :: map rendered [Content paragraph "P2"]
           ++ tables [plain "OLD"]
           ++ Docx.BPara (Docx.Paragraph None "END_CONTENT") :: [plain "Outro"].
Proof.
  apply (assembly_erases_inserted_block [plain "Intro"]
           (Docx.Paragraph None "START_CONTENT") [plain "OLD"]
           (Docx.Paragraph None "END_CONTENT") [plain "Outro"]
           [Content heading "T"; Content paragraph "P1"; Content paragraph "P2"] tt
           (state_of scenario_template all_styles)
           ltac:(reflexivity) ltac:(compute_done) ltac:(vm_compute; reflexivity)
           ltac:(compute_done) ltac:(vm_compute; reflexivity)
           ltac:(by repeat constructor) ltac:(compute_done)
           [Content heading "T"] (Content paragraph "P1") [Content paragraph "P2"]).
  - reflexivity.
  - reflexivity.
Defined.

Lemma assembly_index_error_witness :
  exists st',
    insert_content_between_placeholders [Content paragraph "P"] tt
      (state_of [plain "START_CONTENT"; plain "OLD1"; plain "OLD2"; plain "END_CONTENT"]
         all_styles)
    = (inl (IndexError "list index out of range"), tt, st')
    /\ Docx.body (doc st')
       = [] ++ cleared (Docx.Paragraph None "START_CONTENT")
            :: map rendered [Content paragraph "P"]
            ++ tables [plain "OLD1"; plain "OLD2"]
            ++ Docx.BPara (Docx.Paragraph None "END_CONTENT") :: [].
Proof.
  apply (assembly_index_error [] (Docx.Paragraph None "START_CONTENT")
           [plain "OLD1"; plain "OLD2"]
           (Docx.Paragraph None "END_CONTENT") [] [Content paragraph "P"] tt
           (state_of [plain "START_CONTENT"; plain "OLD1"; plain "OLD2"; plain "END_CONTENT"]
              all_styles)).
  - reflexivity.
  - compute_done.
  - vm_compute. reflexivity.
  - compute_done.
  - vm_compute. reflexivity.
  - by repeat constructor.
  - compute_done.
  - cbn. lia.
Defined.

Lemma insertion_loop_forward_order_witness :
  exists st',
    for_each (rev two_blocks) (insert_block 1) tt
      (state_of [plain "Intro"; plain "START_CONTENT"; plain "END_CONTENT"] all_styles)
    = (inr tt, tt, st')
    /\ Docx.body (doc st')
       = [plain "Intro"] ++ plain "START_CONTENT" :: map rendered two_blocks
           ++ [plain "END_CONTENT"]
    /\ log st'
       = log (state_of [plain "Intro"; plain "START_CONTENT"; plain "END_CONTENT"]
                all_styles).
Proof.
  apply (insertion_loop_forward_order [plain "Intro"]
           (Docx.Paragraph None "START_CONTENT") [plain "END_CONTENT"] two_blocks tt
           (state_of [plain "Intro"; plain "START_CONTENT"; plain "END_CONTENT"]
              all_styles)).
  - reflexivity.
  - by repeat constructor.
  - compute_done.
Defined.

Lemma block_without_style_raises_witness :
  exists st',
    insert_block 0 (Content heading_2 "Section") tt
      (state_of empty_region_template ["Normal"; "Heading 1"])
    = (inl (KeyError ("no style with name '" +:+ style_of heading_2 +:+ "'")), tt, st')
    /\ Docx.body (doc st')
       = [] ++ plain "START_CONTENT" :: [plain "END_CONTENT"]
            ++ [plain (Docx.stored "Section")].
Proof.
  apply (block_without_style_raises [] (Docx.Paragraph None "START_CONTENT")
           [plain "END_CONTENT"] (Content heading_2 "Section") tt
           (state_of empty_region_template ["Normal"; "Heading 1"])).
  - reflexivity.
  - reflexivity.
  - discriminate.
  - compute_done.
Defined.

Lemma block_with_refused_text_raises_witness :
  exists st',
    insert_block 0 (Content list_item form_feed_text) tt
      (state_of empty_region_template all_styles)
    = (inl Docx.xml_error, tt, st')
    /\ Docx.body (doc st')
       = [] ++ plain "START_CONTENT" :: [plain "END_CONTENT"]
            ++ [plain (Docx.stored form_feed_text)]
    /\ log st' = log (state_of empty_region_template all_styles).
Proof.
  apply (block_with_refused_text_raises [] (Docx.Paragraph None "START_CONTENT")
           [plain "END_CONTENT"] (Content list_item form_feed_text) tt
           (state_of empty_region_template all_styles)).
  - reflexivity.
  - reflexivity.
Defined.

(** What is left of that text: the part before the tab, and the tab. *)
Example form_feed_text_stored :
  Docx.run_text form_feed_text = ("one" +:+ String Docx.tab "", false).
Proof. reflexivity. Qed.

Lemma publisher_uploads_one_to_three_times_witness :
  (sends (initial_state [])
   < sends (send_pdf_to_telegram always_times_out "/tmp/r.pdf" "token" "@channel"
              "caption" tt (initial_state [])).2
   <= sends (initial_state []) + 3)%nat.
Proof.
  apply (publisher_uploads_one_to_three_times always_times_out "/tmp/r.pdf" "token"
           "@channel" "caption" tt (initial_state [])).
  split; reflexivity.
Defined.

Lemma publisher_stops_before_upload_witness :
  exists st',
    send_pdf_to_telegram missing_pdf "/tmp/r.pdf" "token" "@channel" "caption" tt
      (initial_state [])
    = (inl (OSError "No such file or directory"), tt, st')
    /\ sends st' = sends (initial_state []) /\ trace st' = trace (initial_state [])
    /\ log st'
       = log (initial_state [])
         ++ LogRecord INFO ("Sending PDF to Telegram channel " +:+ "@channel")
         :: match telegram_bot_error missing_pdf "token" with
            | Some _ => []
            | None =>
                [error_record ("Error while sending PDF to Telegram: "
                               +:+ exn_str (OSError "No such file or directory"))]
            end.
Proof.
  apply (publisher_stops_before_upload missing_pdf "/tmp/r.pdf" "token" "@channel"
           "caption" (OSError "No such file or directory") tt (initial_state [])).
  reflexivity.
Defined.

Lemma publisher_delivers_within_three_witness :
  exists st',
    send_pdf_to_telegram two_timeouts_then_ok "/tmp/r.pdf" "token" "@channel" "caption" tt
      (initial_state [])
    = (inr tt, tt, st')
    /\ sends st' = sends (initial_state []) + 2 + 1
    /\ trace st'
       = trace (initial_state [])
         ++ timed_out_rounds 2 "/tmp/r.pdf" "@channel" "caption"
         ++ [EvSendDocument "/tmp/r.pdf" "@channel" "caption"].
Proof.
  apply (publisher_delivers_within_three two_timeouts_then_ok "/tmp/r.pdf" "token"
           "@channel" "caption" 2 tt (initial_state [])).
  - split; reflexivity.
  - lia.
  - intros n Hn. assert (n = 0 \/ n = 1) as [-> | ->] by lia; reflexivity.
  - reflexivity.
Defined.

Lemma publisher_error_is_not_retried_witness :
  exists st',
    send_pdf_to_telegram timeout_then_refused "/tmp/r.pdf" "token" "@channel" "caption" tt
      (initial_state [])
    = (inl (TelegramError "send_document"), tt, st')
    /\ sends st' = sends (initial_state []) + 1 + 1
    /\ trace st'
       = trace (initial_state [])
         ++ timed_out_rounds 1 "/tmp/r.pdf" "@channel" "caption"
         ++ [EvSendDocument "/tmp/r.pdf" "@channel" "caption"].
Proof.
  apply (publisher_error_is_not_retried timeout_then_refused "/tmp/r.pdf" "token"
           "@channel" "caption" 1 tt (initial_state [])).
  - split; reflexivity.
  - lia.
  - intros n Hn. assert (n = 0) as -> by lia. reflexivity.
  - reflexivity.
Defined.

Lemma send_pdf_to_telegram_gives_up_witness :
  exists st',
    send_pdf_to_telegram always_times_out "/tmp/r.pdf" "token" "@channel" "caption" tt
      (initial_state [])
    = (inr tt, tt, st')
    /\ sends st' = sends (initial_state []) + 3.
Proof.
  apply (send_pdf_to_telegram_gives_up always_times_out "/tmp/r.pdf" "token" "@channel"
           "caption" tt (initial_state [])).
  - split; reflexivity.
  - intros n Hn. reflexivity.
Defined.

Lemma download_requests_other_urls_as_given_witness :
  exists st',
    download_template rich_world "https://docs.example/d/1/export?format=docx" tt
      (initial_state [])
    = (match template_docx rich_world "https://docs.example/d/1/export?format=docx" with
       | Some d => inr d
       | None => inl (RequestException ("GET " +:+ "https://docs.example/d/1/export?format=docx"))
       end, tt, st')
    /\ trace st'
       = trace (initial_state []) ++ [EvDownload "https://docs.example/d/1/export?format=docx"]
    /\ doc st' = doc (initial_state [])
    /\ collection st' = collection (initial_state []).
Proof.
  apply (download_requests_other_urls_as_given rich_world
           "https://docs.example/d/1/export?format=docx" tt (initial_state [])).
  vm_compute. reflexivity.
Defined.

End OnTheCases.
